(** * The training pipeline of [src/train.py]

    A shallow embedding of the five stages of the training script and of
    its driver [main], in a state-and-exception monad over an explicit
    world (log, file system, wall clock, NumPy's global generator).

    The script is a thin composition of scikit-learn calls.  The numerical
    kernels that the script neither inspects nor constrains (sampling the
    synthetic clusters, growing the forest, IEEE arithmetic on features)
    are fields of the class [Runtime]; the parts of the library that decide
    what the script does on a given input (parameter validation, the
    stratified shuffle split, the calling protocol of the scaler, the
    accuracy score) are written out after scikit-learn (release 1.2 and
    later) and NumPy's legacy [RandomState].

    The second script of the repository, [validate_integration.py], is
    embedded in the module [Validate] further down. *)

From Stdlib Require Import ZArith List String Ascii Bool Arith Lia Permutation.
From Stdlib Require Import QArith Qround DecimalString Sorted.
Import ListNotations.

Local Open Scope string_scope.
Local Open Scope list_scope.
Local Open Scope nat_scope.

Set Implicit Arguments.

(** ** Python exceptions

    Only subclasses of [Exception] are listed: these are what the stages can
    raise and what [except Exception] in [main] catches.  [SystemExit] is kept
    apart, in [completion] below. *)

Inductive exception : Type :=
  | ValueError (msg : string)
  | InvalidParameterError (param : string)
  | NotFittedError (estimator : string)
  | OSError (path : string).

(** [InvalidParameterError] and [NotFittedError] derive from [ValueError]. *)
Definition is_ValueError (e : exception) : bool :=
  match e with
  | ValueError _ | InvalidParameterError _ | NotFittedError _ => true
  | OSError _ => false
  end.

Definition str_exception (e : exception) : string :=
  match e with
  | ValueError msg => msg
  | InvalidParameterError p => "The '" ++ p ++ "' parameter is invalid"
  | NotFittedError n => "This " ++ n ++ " instance is not fitted yet"
  | OSError p => "cannot open '" ++ p ++ "'"
  end.

Inductive outcome (A : Type) : Type :=
  | Return (a : A)
  | Raise (e : exception).

Arguments Return {A} a.
Arguments Raise {A} e.

Definition returns {A} (o : outcome A) : bool :=
  match o with Return _ => true | Raise _ => false end.

Definition raises {A} (o : outcome A) : bool := negb (returns o).

(** ** [os.path] (POSIX flavour) *)

Module Path.

Definition sep : ascii := "/"%char.

Definition startswith_sep (s : string) : bool :=
  match s with
  | String c _ => Ascii.eqb c sep
  | EmptyString => false
  end.

Fixpoint endswith_sep (s : string) : bool :=
  match s with
  | EmptyString => false
  | String c EmptyString => Ascii.eqb c sep
  | String _ s' => endswith_sep s'
  end.

(** [posixpath.join(a, b)]: an absolute [b] discards [a]. *)
Definition join (a b : string) : string :=
  if startswith_sep b then b
  else if (String.length a =? 0) || endswith_sep a then a ++ b
  else a ++ "/" ++ b.

Fixpoint drop_until_sep (l : list ascii) : list ascii :=
  match l with
  | [] => []
  | c :: l' => if Ascii.eqb c sep then l else drop_until_sep l'
  end.

Fixpoint drop_seps (l : list ascii) : list ascii :=
  match l with
  | [] => []
  | c :: l' => if Ascii.eqb c sep then drop_seps l' else l
  end.

(** [posixpath.dirname(p)]: [head = p[:p.rfind('/')+1]], stripped of its
    trailing separators unless it consists of separators only.  The list is
    handled reversed. *)
Definition dirname (p : string) : string :=
  let head := drop_until_sep (rev (list_ascii_of_string p)) in
  match drop_seps head with
  | [] => string_of_list_ascii (rev head)
  | stripped => string_of_list_ascii (rev stripped)
  end.

End Path.

(** ** Run-time environment *)

Class Runtime : Type := {
  (** IEEE doubles, as stored in the sample matrix *)
  float : Type;
  isinf : float -> bool;
  (** [numpy.random.RandomState]: seeding, and one bounded draw in [0, hi] *)
  rng : Type;
  RandomState : Z -> rng;
  random_interval : rng -> nat -> nat * rng;
  (** body of [make_classification] once its arguments are validated *)
  sample_clusters :
    rng -> Z -> Z -> Z -> Z -> (list (list float) * list Z) * rng;
  (** column statistics and the affine map of [StandardScaler] *)
  column_mean : list float -> float;
  column_scale : list float -> float;
  standardize : float -> float -> float -> float;
  (** [RandomForestClassifier]: fitted state, fitting, one row's vote *)
  Forest : Type;
  forest_fit : nat -> nat -> Z -> list (list float) -> list Z -> outcome Forest;
  n_features_in : Forest -> nat;
  forest_vote : Forest -> list float -> Z;
  (** [classification_report(..., output_dict=True)] *)
  Report : Type;
  classification_report : list Z -> list Z -> Report;
  (** [datetime]: the reading obtained by the k-th call of [now()] *)
  datetime : Type;
  wall_clock : nat -> datetime;
  strftime : datetime -> string -> string;
  isoformat : datetime -> string;
  (** the script's [__file__] *)
  script_file : string;
  (** [f"{x:.4f}"] *)
  format_4f : Q -> string
}.

(** ** NumPy helpers on lists *)

Module Np.

(** [np.unique]: the distinct values, ascending; for a type ordered by
    [ltb], with equality test [eqb] *)
Section Unique.
Context {A : Type} (ltb eqb : A -> A -> bool).

Fixpoint insert_unique (v : A) (l : list A) : list A :=
  match l with
  | [] => [v]
  | x :: l' =>
      if ltb v x then v :: l
      else if eqb v x then l
      else x :: insert_unique v l'
  end.

Definition unique_by (l : list A) : list A := fold_right insert_unique [] l.

End Unique.

Definition unique (l : list nat) : list nat := unique_by Nat.ltb Nat.eqb l.

Definition uniqueZ (l : list Z) : list Z := unique_by Z.ltb Z.eqb l.

(** [np.where(p(a))[0]]: the positions holding a value that satisfies [p],
    ascending; [where_from] carries the position of the head. *)
Fixpoint where_from {A} (p : A -> bool) (a : list A) (i : nat) : list nat :=
  match a with
  | [] => []
  | v :: a' => if p v then i :: where_from p a' (S i) else where_from p a' (S i)
  end.

Definition where_ {A} (p : A -> bool) (a : list A) : list nat := where_from p a 0.

(** [a[idx]] for an index array; every index the library builds is in range *)
Definition take {A} (a : list A) (idx : list nat) : list A :=
  flat_map (fun i => match nth_error a i with Some v => [v] | None => [] end) idx.

(** in-place [x[i] = v] *)
Fixpoint set_item {A} (x : list A) (i : nat) (v : A) : list A :=
  match x, i with
  | [], _ => []
  | _ :: x', 0 => v :: x'
  | a :: x', S i' => a :: set_item x' i' v
  end.

(** [x[i], x[j] = x[j], x[i]] *)
Definition swap {A} (x : list A) (i j : nat) : list A :=
  match nth_error x i, nth_error x j with
  | Some a, Some b => set_item (set_item x i b) j a
  | _, _ => x
  end.

(** [a[idx] += 1] with an index array: every listed position is incremented
    once, also when it is listed twice (the addition is buffered). *)
Definition increment (a : list nat) (idx : list nat) : list nat :=
  map (fun iv => if existsb (Nat.eqb (fst iv)) idx then S (snd iv) else snd iv)
      (combine (seq 0 (List.length a)) a).

Section Generator.
Context {R : Runtime}.

(** [RandomState.shuffle] on a one-dimensional array:
    [for i in reversed(range(1, n)): j = random_interval(i); swap(i, j)] *)
Fixpoint shuffle_from {A} (i : nat) (x : list A) (g : rng) : list A * rng :=
  match i with
  | 0 => (x, g)
  | S i' =>
      let (j, g') := random_interval g i in
      shuffle_from i' (swap x i j) g'
  end.

Definition shuffle {A} (x : list A) (g : rng) : list A * rng :=
  shuffle_from (List.length x - 1) x g.

(** [RandomState.permutation]: of [arange(n)], or of a copy of an array *)
Definition permutation_int (n : nat) (g : rng) : list nat * rng :=
  shuffle (seq 0 n) g.

Definition permutation {A} (x : list A) (g : rng) : list A * rng :=
  shuffle x g.

(** [RandomState.choice(a, size, replace=False)]:
    [a[self.permutation(pop_size)[:size]]] *)
Definition choice {A} (a : list A) (size : nat) (g : rng) : list A * rng :=
  let (perm, g') := permutation_int (List.length a) g in
  (take a (firstn size perm), g').

End Generator.

End Np.

(** ** Values handled by the script *)

Section Values.
Context {R : Runtime}.

(** rows are samples, columns are features *)
Definition matrix : Type := list (list float).
Definition labels : Type := list Z.

Definition n_rows (X : matrix) : nat := List.length X.

(** [X.shape[1]] *)
Definition n_cols (X : matrix) : nat :=
  match X with
  | [] => 0
  | r :: _ => List.length r
  end.

Definition column (j : nat) (X : matrix) : list float :=
  flat_map (fun r => match nth_error r j with Some v => [v] | None => [] end) X.

Definition columns (X : matrix) : list (list float) :=
  map (fun j => column j X) (seq 0 (n_cols X)).

(** The calls a [StandardScaler] object has received, oldest first (ghost
    state: the object itself keeps only the statistics). *)
Inductive scaler_call : Type :=
  | Fit (X : matrix)
  | Transform (X : matrix).

Record StandardScaler : Type := {
  mean_ : option (list float);
  scale_ : option (list float);
  calls : list scaler_call
}.

(** the estimator object: its constructor arguments, and the fitted forest
    once [fit] has run *)
Record RandomForestClassifier : Type := {
  n_estimators : nat;
  max_depth : nat;
  random_state : Z;
  n_jobs : Z;
  estimators_ : option Forest
}.

(** a Python float obtained as a quotient of counts *)
Inductive score : Type :=
  | Score (q : Q)
  | NaN.

(** the [metrics] dictionary, one field per key *)
Record Metrics : Type := {
  accuracy : score;
  report : Report;
  timestamp : string
}.

(** what a file holds: the dump of an object, or what is left of a dump
    that did not complete (the file exists, with some part of the dump) *)
Inductive content : Type :=
  | Pickle_model (m : RandomForestClassifier)
  | Pickle_scaler (s : StandardScaler)
  | Json_metrics (m : Metrics)
  | Incomplete (c : content).

Inductive log_record : Type :=
  | INFO (msg : string)
  | ERROR (msg : string).

(** ** The world and the monad of the script *)

Record World : Type := {
  np_random : rng;                       (** NumPy's global generator *)
  clock_reads : nat;                     (** calls of [datetime.now()] so far *)
  log : list log_record;                 (** records emitted, oldest first *)
  fs_dirs : list string;                 (** directories created *)
  fs_files : list (string * content);    (** files written, oldest first *)
  fs_fault : string -> option exception; (** what the OS refuses, and how *)
  fs_dump_fault : string -> option exception
    (** why a dump into the file, once it is open, fails, if it does: the
        disk fills up, the object cannot be serialised *)
}.

Definition M (A : Type) : Type := World -> outcome A * World.

Definition ret {A} (a : A) : M A := fun w => (Return a, w).

Definition raise {A} (e : exception) : M A := fun w => (Raise e, w).

Definition bind {A B} (m : M A) (k : A -> M B) : M B :=
  fun w =>
    match m w with
    | (Return a, w') => k a w'
    | (Raise e, w') => (Raise e, w')
    end.

Definition lift {A} (o : outcome A) : M A := fun w => (o, w).

(** sequencing of library calls that touch no world *)
Definition and_then {A B} (o : outcome A) (k : A -> outcome B) : outcome B :=
  match o with
  | Return a => k a
  | Raise e => Raise e
  end.

Definition logger_info (msg : string) : M unit :=
  fun w => (Return tt,
            {| np_random := np_random w; clock_reads := clock_reads w;
               log := log w ++ [INFO msg];
               fs_dirs := fs_dirs w; fs_files := fs_files w;
               fs_fault := fs_fault w;
               fs_dump_fault := fs_dump_fault w |}).

Definition logger_error (msg : string) : M unit :=
  fun w => (Return tt,
            {| np_random := np_random w; clock_reads := clock_reads w;
               log := log w ++ [ERROR msg];
               fs_dirs := fs_dirs w; fs_files := fs_files w;
               fs_fault := fs_fault w;
               fs_dump_fault := fs_dump_fault w |}).

Definition datetime_now : M datetime :=
  fun w => (Return (wall_clock (clock_reads w)),
            {| np_random := np_random w; clock_reads := S (clock_reads w);
               log := log w;
               fs_dirs := fs_dirs w; fs_files := fs_files w;
               fs_fault := fs_fault w;
               fs_dump_fault := fs_dump_fault w |}).

(** [os.makedirs(path, exist_ok=True)] *)
Definition os_makedirs (path : string) : M unit :=
  fun w =>
    match fs_fault w path with
    | Some e => (Raise e, w)
    | None =>
        (Return tt,
         {| np_random := np_random w; clock_reads := clock_reads w;
            log := log w;
            fs_dirs := if existsb (String.eqb path) (fs_dirs w)
                       then fs_dirs w else fs_dirs w ++ [path];
            fs_files := fs_files w;
            fs_fault := fs_fault w;
            fs_dump_fault := fs_dump_fault w |})
    end.

(** [with open(path, mode) as f: dump(obj, f)]: [open] creates the file or
    is refused; a dump that fails leaves the file behind, incomplete *)
Definition write_file (path : string) (c : content) : M unit :=
  fun w =>
    match fs_fault w path with
    | Some e => (Raise e, w)
    | None =>
        match fs_dump_fault w path with
        | Some e =>
            (Raise e,
             {| np_random := np_random w; clock_reads := clock_reads w;
                log := log w;
                fs_dirs := fs_dirs w;
                fs_files := fs_files w ++ [(path, Incomplete c)];
                fs_fault := fs_fault w;
                fs_dump_fault := fs_dump_fault w |})
        | None =>
            (Return tt,
             {| np_random := np_random w; clock_reads := clock_reads w;
                log := log w;
                fs_dirs := fs_dirs w;
                fs_files := fs_files w ++ [(path, c)];
                fs_fault := fs_fault w;
                fs_dump_fault := fs_dump_fault w |})
        end
    end.

End Values.

Declare Scope py_scope.
Delimit Scope py_scope with py.

Notation "x <- m ;; k" := (bind m (fun x => k))
  (at level 61, m at next level, right associativity) : py_scope.
Notation "m ;;; k" := (bind m (fun _ => k))
  (at level 61, right associativity) : py_scope.
Notation "x <~ o ;; k" := (and_then o (fun x => k))
  (at level 61, o at next level, right associativity) : py_scope.

Local Open Scope py_scope.

(** ** scikit-learn, as far as the script depends on it *)

Module Sklearn.

Section Library.
Context {R : Runtime}.

(** *** [sklearn.datasets.make_classification]

    Defaults left alone by the script: [n_repeated=0], [n_classes=2],
    [n_clusters_per_class=2].  The decorator [validate_params] runs first;
    then the function counts features; only then does it draw.  The draw is
    a function of the generator and the counts: the memory that very large
    counts would need is not represented. *)

Definition n_repeated : Z := 0.
Definition n_classes : Z := 2.
Definition n_clusters_per_class : Z := 2.

Definition too_many_features : exception :=
  ValueError "Number of informative, redundant and repeated features must sum to less than the number of total features".

Definition make_classification
    (n_samples n_features n_informative n_redundant : Z)
    (random_state : option Z) : M (matrix * labels) :=
  if (n_samples <? 1)%Z then raise (InvalidParameterError "n_samples")
  else if (n_features <? 1)%Z then raise (InvalidParameterError "n_features")
  else if (n_informative <? 1)%Z then raise (InvalidParameterError "n_informative")
  else if (n_redundant <? 0)%Z then raise (InvalidParameterError "n_redundant")
  else if (n_informative + n_redundant + n_repeated >? n_features)%Z then
    raise too_many_features
  else if (2 ^ n_informative <? n_classes * n_clusters_per_class)%Z then
    raise (ValueError "n_classes * n_clusters_per_class must be smaller or equal 2**n_informative")
  else
    match random_state with
    | Some seed =>
        ret (fst (sample_clusters (RandomState seed)
                    n_samples n_features n_informative n_redundant))
    | None =>
        fun w =>
          let (data, g) := sample_clusters (np_random w)
                             n_samples n_features n_informative n_redundant in
          (Return data,
           {| np_random := g; clock_reads := clock_reads w; log := log w;
              fs_dirs := fs_dirs w; fs_files := fs_files w;
              fs_fault := fs_fault w;
              fs_dump_fault := fs_dump_fault w |})
    end.

(** *** [sklearn.model_selection.train_test_split] *)

(** a size given as a fraction, as a count, or left to [None] *)
Inductive size_arg : Type :=
  | SizeNone
  | SizeFloat (q : Q)
  | SizeInt (k : Z).

Definition bad_size (n_samples : Z) (s : size_arg) : bool :=
  match s with
  | SizeInt k => (k >=? n_samples)%Z || (k <=? 0)%Z
  | SizeFloat q => Qle_bool q 0 || Qle_bool 1 q
  | SizeNone => false
  end.

(** [_validate_shuffle_split]; the products with a fraction are taken
    exactly (for 0.2 and any feasible sample count the double product
    rounds to the same ceiling). *)
Definition validate_shuffle_split
    (n_samples : Z) (test_size train_size : size_arg)
    (default_test_size : Q) : outcome (Z * Z) :=
  let test_size :=
    match test_size, train_size with
    | SizeNone, SizeNone => SizeFloat default_test_size
    | _, _ => test_size
    end in
  if bad_size n_samples test_size then
    Raise (ValueError "test_size should be either positive and smaller than the number of samples or a float in the (0, 1) range")
  else if bad_size n_samples train_size then
    Raise (ValueError "train_size should be either positive and smaller than the number of samples or a float in the (0, 1) range")
  else if match test_size, train_size with
          | SizeFloat a, SizeFloat b => negb (Qle_bool (a + b) 1)
          | _, _ => false
          end then
    Raise (ValueError "The sum of test_size and train_size should be in the (0, 1) range")
  else
    let n_test_given :=
      match test_size with
      | SizeFloat q => Qceiling (q * inject_Z n_samples)
      | SizeInt k => k
      | SizeNone => 0%Z
      end in
    let n_train_given :=
      match train_size with
      | SizeFloat q => Qfloor (q * inject_Z n_samples)
      | SizeInt k => k
      | SizeNone => 0%Z
      end in
    let n_train :=
      match train_size with
      | SizeNone => (n_samples - n_test_given)%Z
      | _ => n_train_given
      end in
    let n_test :=
      match train_size, test_size with
      | SizeNone, _ => n_test_given
      | _, SizeNone => (n_samples - n_train_given)%Z
      | _, _ => n_test_given
      end in
    if (n_train + n_test >? n_samples)%Z then
      Raise (ValueError "The sum of train_size and test_size should be smaller than the number of samples")
    else if (n_train =? 0)%Z then
      Raise (ValueError "The resulting train set will be empty")
    else Return (n_train, n_test).

(** [_approximate_mode(class_counts, n_draws, rng)]: the expected draws per
    class, floored, then one more for the classes with the largest
    remainders, ties broken by the generator.  Quotients are kept exact:
    with [total = sum(class_counts)], [floored] and [remainder] below are
    the quotient and the remainder of [class_counts * n_draws] by [total]. *)
Fixpoint add_by_remainder
    (remainder : list nat) (values : list nat)
    (floored : list nat) (need_to_add : nat) (g : rng) : list nat * rng :=
  match values with
  | [] => (floored, g)
  | value :: rest =>
      let inds := Np.where_ (Nat.eqb value) remainder in
      let add_now := Nat.min (List.length inds) need_to_add in
      let (chosen, g') := Np.choice inds add_now g in
      let floored' := Np.increment floored chosen in
      let need_to_add' := need_to_add - add_now in
      if need_to_add' =? 0 then (floored', g')
      else add_by_remainder remainder rest floored' need_to_add' g'
  end.

Definition approximate_mode
    (class_counts : list nat) (n_draws : nat) (g : rng) : list nat * rng :=
  let total := list_sum class_counts in
  let floored := map (fun c => c * n_draws / total) class_counts in
  let need_to_add := n_draws - list_sum floored in
  if 0 <? need_to_add then
    let remainder := map (fun c => (c * n_draws) mod total) class_counts in
    add_by_remainder remainder (rev (Np.unique remainder)) floored need_to_add g
  else (floored, g).

(** [a.take(idx, mode="clip")] *)
Definition take_clip {A} (a : list A) (idx : list nat) : list A :=
  Np.take a (map (fun j => Nat.min j (List.length a - 1)) idx).

(** the loop over the classes in [StratifiedShuffleSplit._iter_indices] *)
Fixpoint draw_per_class
    (class_indices : list (list nat)) (n_i t_i : list nat)
    (train test : list nat) (g : rng) : list nat * list nat * rng :=
  match class_indices, n_i, t_i with
  | idx :: class_indices', n :: n_i', t :: t_i' =>
      let (perm, g') := Np.permutation_int (List.length idx) g in
      let perm_indices_class_i := take_clip idx perm in
      draw_per_class class_indices' n_i' t_i'
        (train ++ firstn n perm_indices_class_i)
        (test ++ firstn t (skipn n perm_indices_class_i))
        g'
  | _, _, _ => (train, test, g)
  end.

Definition check_consistent_length (a b : nat) : outcome unit :=
  if a =? b then Return tt
  else Raise (ValueError "Found input variables with inconsistent numbers of samples").

(** the first split yielded by
    [StratifiedShuffleSplit(test_size, train_size, random_state).split(X, y)] *)
Definition stratified_shuffle_split
    (n_samples : nat) (y : labels) (test_size train_size : size_arg)
    (random_state : Z) : outcome (list nat * list nat) :=
  _ <~ check_consistent_length n_samples (List.length y) ;;
  sizes <~ validate_shuffle_split (Z.of_nat n_samples) test_size train_size (1 # 10) ;;
  let n_train := Z.to_nat (fst sizes) in
  let n_test := Z.to_nat (snd sizes) in
  let classes := Np.uniqueZ y in
  let n_classes := List.length classes in
  let class_indices := map (fun c => Np.where_ (Z.eqb c) y) classes in
  let class_counts := map (@List.length nat) class_indices in
  match class_counts with
  | [] => Raise (ValueError "zero-size array to reduction operation minimum which has no identity")
  | c :: cs =>
      if fold_right Nat.min c cs <? 2 then
        Raise (ValueError "The least populated class in y has only 1 member, which is too few. The minimum number of groups for any class cannot be less than 2.")
      else if n_train <? n_classes then
        Raise (ValueError "The train_size should be greater or equal to the number of classes")
      else if n_test <? n_classes then
        Raise (ValueError "The test_size should be greater or equal to the number of classes")
      else
        let g := RandomState random_state in
        let (n_i, g) := approximate_mode class_counts n_train g in
        let class_counts_remaining := map (fun p => fst p - snd p) (combine class_counts n_i) in
        let (t_i, g) := approximate_mode class_counts_remaining n_test g in
        let '(train, test, g) := draw_per_class class_indices n_i t_i [] [] g in
        let (train, g) := Np.permutation train g in
        let (test, g) := Np.permutation test g in
        Return (train, test)
  end.

(** [train_test_split(X, y, test_size=..., random_state=..., stratify=...)]
    for two arrays, with [shuffle=True] and a stratification target.  The
    rows go to the caller as [X_train, X_test, y_train, y_test]. *)
Definition train_test_split
    (X : matrix) (y : labels) (test_size : size_arg)
    (random_state : Z) (stratify : labels)
    : outcome (matrix * matrix * labels * labels) :=
  _ <~ check_consistent_length (n_rows X) (List.length y) ;;
  sizes <~ validate_shuffle_split (Z.of_nat (n_rows X)) test_size SizeNone (1 # 4) ;;
  split <~ stratified_shuffle_split (n_rows X) stratify
             (SizeInt (snd sizes)) (SizeInt (fst sizes)) random_state ;;
  let (train, test) := split in
  Return (Np.take X train, Np.take X test, Np.take y train, Np.take y test).

(** *** [sklearn.preprocessing.StandardScaler] *)

(** [check_array] as the scaler calls it: infinities are refused (NaN is
    let through), at least one sample, at least one feature. *)
Definition check_array (X : matrix) : outcome unit :=
  if existsb (existsb isinf) X then
    Raise (ValueError "Input X contains infinity or a value too large for dtype('float64').")
  else if n_rows X =? 0 then
    Raise (ValueError "Found array with 0 sample(s) while a minimum of 1 is required.")
  else if n_cols X =? 0 then
    Raise (ValueError "Found array with 0 feature(s) while a minimum of 1 is required.")
  else Return tt.

Definition new_StandardScaler : StandardScaler :=
  {| mean_ := None; scale_ := None; calls := [] |}.

Definition fit (s : StandardScaler) (X : matrix) : outcome StandardScaler :=
  _ <~ check_array X ;;
  Return {| mean_ := Some (map column_mean (columns X));
            scale_ := Some (map column_scale (columns X));
            calls := calls s ++ [Fit X] |}.

Definition scale_row (mu sigma : list float) (r : list float) : list float :=
  map (fun p => standardize (fst p) (fst (snd p)) (snd (snd p)))
      (combine r (combine mu sigma)).

Definition transform (s : StandardScaler) (X : matrix)
    : outcome (matrix * StandardScaler) :=
  match mean_ s, scale_ s with
  | Some mu, Some sigma =>
      _ <~ check_array X ;;
      if n_cols X =? List.length mu then
        Return (map (scale_row mu sigma) X,
                {| mean_ := mean_ s; scale_ := scale_ s;
                   calls := calls s ++ [Transform X] |})
      else Raise (ValueError "X has a different number of features than StandardScaler is expecting as input.")
  | _, _ => Raise (NotFittedError "StandardScaler")
  end.

(** [TransformerMixin.fit_transform]: [self.fit(X).transform(X)] *)
Definition fit_transform (s : StandardScaler) (X : matrix)
    : outcome (matrix * StandardScaler) :=
  s' <~ fit s X ;;
  transform s' X.

(** *** [sklearn.ensemble.RandomForestClassifier] *)

Definition new_RandomForestClassifier
    (n_estimators max_depth : nat) (random_state n_jobs : Z)
    : RandomForestClassifier :=
  {| n_estimators := n_estimators; max_depth := max_depth;
     random_state := random_state; n_jobs := n_jobs; estimators_ := None |}.

Definition forest_fit_method
    (m : RandomForestClassifier) (X : matrix) (y : labels)
    : outcome RandomForestClassifier :=
  f <~ forest_fit (n_estimators m) (max_depth m) (random_state m) X y ;;
  Return {| n_estimators := n_estimators m; max_depth := max_depth m;
            random_state := random_state m; n_jobs := n_jobs m;
            estimators_ := Some f |}.

(** [predict]: the input is validated, then every row gets the class voted
    by the forest.  The forest converts its input to single precision
    before it validates it, and some releases refuse NaN: what it refuses
    beyond the refusals of [check_array] is not represented, so that
    [predict] returns here whenever the library's does. *)
Definition predict (m : RandomForestClassifier) (X : matrix) : outcome labels :=
  match estimators_ m with
  | None => Raise (NotFittedError "RandomForestClassifier")
  | Some f =>
      _ <~ check_array X ;;
      if n_cols X =? n_features_in f then Return (map (forest_vote f) X)
      else Raise (ValueError "X has a different number of features than RandomForestClassifier is expecting as input.")
  end.

(** *** [sklearn.metrics.accuracy_score] *)

Definition count_hits (y_true y_pred : labels) : nat :=
  List.length (filter (fun p => Z.eqb (fst p) (snd p)) (combine y_true y_pred)).

(** the mean of [y_true == y_pred]; the mean of nothing is NaN *)
Definition accuracy_score (y_true y_pred : labels) : outcome score :=
  _ <~ check_consistent_length (List.length y_true) (List.length y_pred) ;;
  match y_true with
  | [] => Return NaN
  | _ :: _ =>
      Return (Score (Z.of_nat (count_hits y_true y_pred)
                     # Pos.of_nat (List.length y_true)))
  end.

End Library.

End Sklearn.

(** ** The script [src/train.py] *)

Section Script.
Context {R : Runtime}.

(** [f"{n}"] for an [int] *)
Definition str_int (z : Z) : string := NilZero.string_of_int (Z.to_int z).

(** [f"{a:.4f}"] *)
Definition str_score (a : score) : string :=
  match a with
  | Score q => format_4f q
  | NaN => "nan"
  end.

Definition create_synthetic_data (n_samples n_features : Z) : M (matrix * labels) :=
  logger_info ("Creating synthetic dataset with " ++ str_int n_samples
               ++ " samples and " ++ str_int n_features ++ " features") ;;;
  Xy <- Sklearn.make_classification n_samples n_features 15 5 (Some 42%Z) ;;
  ret Xy.

Definition preprocess_data (X : matrix) (y : labels)
    : M (matrix * matrix * labels * labels * StandardScaler) :=
  logger_info "Splitting data into train/test sets" ;;;
  parts <- lift (Sklearn.train_test_split X y (Sklearn.SizeFloat 0.2) 42 y) ;;
  let '(X_train, X_test, y_train, y_test) := parts in
  logger_info "Scaling features" ;;;
  let scaler := Sklearn.new_StandardScaler in
  fitted <- lift (Sklearn.fit_transform scaler X_train) ;;
  let (X_train_scaled, scaler) := fitted in
  applied <- lift (Sklearn.transform scaler X_test) ;;
  let (X_test_scaled, scaler) := applied in
  ret (X_train_scaled, X_test_scaled, y_train, y_test, scaler).

Definition train_model (X_train : matrix) (y_train : labels)
    : M RandomForestClassifier :=
  logger_info "Training Random Forest model" ;;;
  let model := Sklearn.new_RandomForestClassifier 100 10 42 (-1) in
  model <- lift (Sklearn.forest_fit_method model X_train y_train) ;;
  logger_info "Model training completed" ;;;
  ret model.

Definition evaluate_model
    (model : RandomForestClassifier) (X_test : matrix) (y_test : labels)
    : M Metrics :=
  logger_info "Evaluating model performance" ;;;
  y_pred <- lift (Sklearn.predict model X_test) ;;
  accuracy <- lift (Sklearn.accuracy_score y_test y_pred) ;;
  logger_info ("Test accuracy: " ++ str_score accuracy) ;;;
  let report := classification_report y_test y_pred in
  now <- datetime_now ;;
  ret {| accuracy := accuracy; report := report; timestamp := isoformat now |}.

(** [os.path.join(os.path.dirname(os.path.dirname(__file__)), "models")] *)
Definition models_dir : string :=
  Path.join (Path.dirname (Path.dirname script_file)) "models".

Definition save_model_and_artifacts
    (model : RandomForestClassifier) (scaler : StandardScaler)
    (metrics : Metrics) (model_name : string) : M string :=
  os_makedirs models_dir ;;;
  now <- datetime_now ;;
  let timestamp := strftime now "%Y%m%d_%H%M%S" in
  let model_path := Path.join models_dir (model_name ++ "_" ++ timestamp ++ ".pkl") in
  let scaler_path := Path.join models_dir (model_name ++ "_scaler_" ++ timestamp ++ ".pkl") in
  let metrics_path := Path.join models_dir (model_name ++ "_metrics_" ++ timestamp ++ ".json") in
  logger_info ("Saving model to " ++ model_path) ;;;
  write_file model_path (Pickle_model model) ;;;
  logger_info ("Saving scaler to " ++ scaler_path) ;;;
  write_file scaler_path (Pickle_scaler scaler) ;;;
  logger_info ("Saving metrics to " ++ metrics_path) ;;;
  write_file metrics_path (Json_metrics metrics) ;;;
  ret model_path.

(** the default of the keyword [model_name] *)
Definition default_model_name : string := "random_forest_model".

(** the suite of the [try] statement in [main] *)
Definition main_try : M unit :=
  Xy <- create_synthetic_data 1000 20 ;;
  let (X, y) := Xy in
  parts <- preprocess_data X y ;;
  let '(X_train, X_test, y_train, y_test, scaler) := parts in
  model <- train_model X_train y_train ;;
  metrics <- evaluate_model model X_test y_test ;;
  model_path <- save_model_and_artifacts model scaler metrics default_model_name ;;
  logger_info "Training pipeline completed successfully!" ;;;
  logger_info ("Model saved to: " ++ model_path) ;;;
  logger_info ("Final accuracy: " ++ str_score (accuracy metrics)).

(** how a call of [main] ends: it returns, or [sys.exit] unwinds it *)
Inductive completion : Type :=
  | Returned
  | SystemExit (code : Z).

Definition main (w : World) : completion * World :=
  let (_, w0) := logger_info "Starting ML training pipeline" w in
  match main_try w0 with
  | (Return _, w1) => (Returned, w1)
  | (Raise e, w1) =>
      let (_, w2) := logger_error ("Training pipeline failed: " ++ str_exception e) w1 in
      (SystemExit 1, w2)
  end.

(** [if __name__ == "__main__": main()]: the status the process leaves *)
Definition exit_status (c : completion) : Z :=
  match c with
  | Returned => 0
  | SystemExit code => code
  end.

Definition run_script (w : World) : Z * World :=
  let (c, w') := main w in (exit_status c, w').

End Script.

(** ** Notions used to state the properties *)

Section Notions.
Context {R : Runtime}.

Definition same_files (w w' : World) : Prop :=
  fs_dirs w' = fs_dirs w /\ fs_files w' = fs_files w.

(** [m] performs no file-system write, whatever its outcome *)
Definition no_file_io {A} (m : M A) : Prop :=
  forall w, same_files w (snd (m w)).

(** the world in which the [try] suite of [main] starts *)
Definition after_banner (w : World) : World :=
  snd (logger_info "Starting ML training pipeline" w).

(** the four stages that [main] runs before it persists anything *)
Definition stages_before_persistence
    : M (RandomForestClassifier * StandardScaler * Metrics) :=
  Xy <- create_synthetic_data 1000 20 ;;
  let (X, y) := Xy in
  parts <- preprocess_data X y ;;
  let '(X_train, X_test, y_train, y_test, scaler) := parts in
  model <- train_model X_train y_train ;;
  metrics <- evaluate_model model X_test y_test ;;
  ret (model, scaler, metrics).

(** the three stages that [main] runs on the generated dataset before it
    persists anything, on a dataset [X], [y] *)
Definition fit_and_score (X : matrix) (y : labels)
    : M (RandomForestClassifier * StandardScaler * Metrics) :=
  parts <- preprocess_data X y ;;
  let '(X_train, X_test, y_train, y_test, scaler) := parts in
  model <- train_model X_train y_train ;;
  metrics <- evaluate_model model X_test y_test ;;
  ret (model, scaler, metrics).

(** the three file names built from a model name and a timestamp *)
Definition model_file (name ts : string) : string :=
  (name ++ "_" ++ ts ++ ".pkl")%string.
Definition scaler_file (name ts : string) : string :=
  (name ++ "_scaler_" ++ ts ++ ".pkl")%string.
Definition metrics_file (name ts : string) : string :=
  (name ++ "_metrics_" ++ ts ++ ".json")%string.

(** the timestamp that a call of the Persister in world [w] obtains *)
Definition run_timestamp (w : World) : string :=
  strftime (wall_clock (clock_reads w)) "%Y%m%d_%H%M%S".

(** the index lists that [train_test_split] computes: they depend on the
    arrays through their lengths and on the stratification target only *)
Definition train_test_indices
    (n_samples n_labels : nat) (test_size : Sklearn.size_arg)
    (seed : Z) (stratify : labels) : outcome (list nat * list nat) :=
  _ <~ Sklearn.check_consistent_length n_samples n_labels ;;
  sizes <~ Sklearn.validate_shuffle_split (Z.of_nat n_samples) test_size
             Sklearn.SizeNone (1 # 4) ;;
  Sklearn.stratified_shuffle_split n_samples stratify
    (Sklearn.SizeInt (snd sizes)) (Sklearn.SizeInt (fst sizes)) seed.

(** the split requested by [preprocess_data] *)
Definition split_of (X : matrix) (y : labels) : outcome (list nat * list nat) :=
  train_test_indices (n_rows X) (List.length y) (Sklearn.SizeFloat 0.2) 42 y.

End Notions.

(** the positions whose remainder is one of [values] *)
Definition capacity (remainder values : list nat) : nat :=
  List.length (List.concat (map (fun v => Np.where_ (Nat.eqb v) remainder) values)).

(** the per-class draws use up every class: [n] members for training and
    the [t] others for testing *)
Inductive sizes_fit : list (list nat) -> list nat -> list nat -> Prop :=
  | sizes_fit_nil : sizes_fit [] [] []
  | sizes_fit_cons idx cis n n_i t t_i :
      n + t = List.length idx -> sizes_fit cis n_i t_i ->
      sizes_fit (idx :: cis) (n :: n_i) (t :: t_i).

(** ** Further notions: partial writes, log and clock frames, strata *)

Section Accounts.
Context {R : Runtime}.

(** the three artifacts of a run, in the order in which they are written *)
Definition artifacts
    (model : RandomForestClassifier) (scaler : StandardScaler)
    (metrics : Metrics) (name : string) (ts : string)
    : list (string * content) :=
  [ (Path.join models_dir (model_file name ts), Pickle_model model);
    (Path.join models_dir (scaler_file name ts), Pickle_scaler scaler);
    (Path.join models_dir (metrics_file name ts), Json_metrics metrics) ].

(** a file whose dump completed *)
Definition complete (c : content) : bool :=
  match c with
  | Incomplete _ => false
  | _ => true
  end.

(** what writing the given files in order leaves on disk: the files before
    the first failure and, when that failure is a dump's, the file it was
    writing, incomplete *)
Fixpoint left_on_disk (open_fault dump_fault : string -> option exception)
    (files : list (string * content)) : list (string * content) :=
  match files with
  | [] => []
  | (path, c) :: files' =>
      match open_fault path with
      | Some _ => []
      | None =>
          match dump_fault path with
          | Some _ => [(path, Incomplete c)]
          | None => (path, c) :: left_on_disk open_fault dump_fault files'
          end
      end
  end.

(** the first failure met when writing the given files in order *)
Fixpoint first_failure (open_fault dump_fault : string -> option exception)
    (files : list (string * content)) : option exception :=
  match files with
  | [] => None
  | (path, _) :: files' =>
      match open_fault path with
      | Some e => Some e
      | None =>
          match dump_fault path with
          | Some e => Some e
          | None => first_failure open_fault dump_fault files'
          end
      end
  end.

(** [written] is what a sequence of writes of [files] can leave: the first
    files, then possibly the next one, incomplete *)
Inductive partial_write
    : list (string * content) -> list (string * content) -> Prop :=
  | partial_stop files : partial_write files []
  | partial_dump path c files :
      partial_write ((path, c) :: files) [(path, Incomplete c)]
  | partial_next path c files written :
      partial_write files written ->
      partial_write ((path, c) :: files) ((path, c) :: written).

(** every record is an [INFO] record *)
Definition all_info (l : list log_record) : Prop :=
  Forall (fun r => match r with INFO _ => True | ERROR _ => False end) l.

(** [w'] extends the log of [w] by [INFO] records only *)
Definition logs_info (w w' : World) : Prop :=
  exists l, log w' = log w ++ l /\ all_info l.

(** [w'] agrees with [w] on the component [f] of the world *)
Definition same_on {X} (f : World -> X) (w w' : World) : Prop := f w' = f w.

(** [m] relates every world to the one it leaves by [P], whatever its
    outcome *)
Definition keeps {A} (P : World -> World -> Prop) (m : M A) : Prop :=
  forall w, P w (snd (m w)).

End Accounts.

(** the draws that a per-class size vector reserves for class [c] *)
Definition drawn_for (c : Z) (classes : list Z) (n_i : list nat) : nat :=
  list_sum (map (fun p => if Z.eqb (fst p) c then snd p else 0)
                (combine classes n_i)).

(** no separator occurs in [s] *)
Definition sep_free (s : string) : bool :=
  negb (existsb (Ascii.eqb Path.sep) (list_ascii_of_string s)).

(** [path] names an entry of the directory [dir]: the directory, one
    separator, and a file name that holds no separator and is neither empty
    nor one of the links [.] and [..] *)
Definition entry_of (dir path : string) : Prop :=
  exists file : string,
    path = (dir ++ "/" ++ file)%string /\ sep_free file = true
    /\ file <> ""%string /\ file <> "."%string /\ file <> ".."%string.

(** ** A small concrete run-time environment

    Integers stand for doubles, a linear congruential generator for the
    Mersenne twister, and a one-feature threshold for the forest: enough to
    run every definition above on concrete inputs. *)

Module Demo.

Definition lcg (g : nat) : nat := (g * 75 + 74) mod 257.

(** the clusters: alternating labels, every feature equal to the label *)
Definition demo_clusters (g : nat) (n_samples n_features : Z)
    : (list (list Z) * list Z) * nat :=
  let ys := map (fun i => Z.of_nat (i mod 2)) (seq 0 (Z.to_nat n_samples)) in
  (map (fun y => repeat y (Z.to_nat n_features)) ys, ys, lcg g).

Definition demo_mean (c : list Z) : Z :=
  (fold_right Z.add 0 c / Z.of_nat (List.length c))%Z.

(** the fitted "forest": the number of features seen, and a cut on the
    first feature *)
Definition demo_fit (X : list (list Z)) (y : list Z) : outcome (nat * Z) :=
  match X with
  | [] => Raise (ValueError "Found array with 0 sample(s) while a minimum of 1 is required.")
  | r :: _ => Return (List.length r, 0%Z)
  end.

Definition demo_vote (f : nat * Z) (r : list Z) : Z :=
  match r with
  | x :: _ => if (snd f <? x)%Z then 1%Z else 0%Z
  | [] => 0%Z
  end.

#[export] Instance demo_runtime : Runtime := {|
  float := Z;
  isinf := fun _ => false;
  rng := nat;
  RandomState := fun seed => Z.to_nat (Z.abs seed);
  random_interval := fun g hi => (g mod (S hi), lcg g);
  sample_clusters := fun g n_samples n_features _ _ => demo_clusters g n_samples n_features;
  column_mean := demo_mean;
  column_scale := fun _ => 1%Z;
  standardize := fun x mu sigma => ((x - mu) / sigma)%Z;
  Forest := (nat * Z)%type;
  forest_fit := fun _ _ _ X y => demo_fit X y;
  n_features_in := fst;
  forest_vote := demo_vote;
  Report := unit;
  classification_report := fun _ _ => tt;
  datetime := nat;
  wall_clock := fun k => k;
  strftime := fun d _ => ("20240101_1200" ++ NilZero.string_of_uint (Nat.to_uint d))%string;
  isoformat := fun d => ("2024-01-01T12:00:" ++ NilZero.string_of_uint (Nat.to_uint d))%string;
  script_file := "/repo/src/train.py";
  format_4f := fun q => str_int (Qfloor (q * 10000))
|}.

(** an empty file system on which nothing is refused *)
Definition fresh_world : World :=
  {| np_random := 7; clock_reads := 0; log := [];
     fs_dirs := []; fs_files := []; fs_fault := fun _ => None;
     fs_dump_fault := fun _ => None |}.

(** the same, with every access refused *)
Definition read_only_world : World :=
  {| np_random := 7; clock_reads := 0; log := [];
     fs_dirs := []; fs_files := []; fs_fault := fun p => Some (OSError p);
     fs_dump_fault := fun _ => None |}.

(** the same as [fresh_world], with a disk that fills up while the scaler
    of the first run is dumped *)
Definition full_disk_world : World :=
  {| np_random := 7; clock_reads := 0; log := [];
     fs_dirs := []; fs_files := []; fs_fault := fun _ => None;
     fs_dump_fault := fun p =>
       if String.eqb p "/repo/models/random_forest_model_scaler_20240101_12001.pkl"
       then Some (OSError "No space left on device") else None |}.

(** the same environment, except that growing the forest always fails *)
Definition unfit_runtime : Runtime := {|
  float := Z;
  isinf := fun _ => false;
  rng := nat;
  RandomState := fun seed => Z.to_nat (Z.abs seed);
  random_interval := fun g hi => (g mod (S hi), lcg g);
  sample_clusters := fun g n_samples n_features _ _ => demo_clusters g n_samples n_features;
  column_mean := demo_mean;
  column_scale := fun _ => 1%Z;
  standardize := fun x mu sigma => ((x - mu) / sigma)%Z;
  Forest := (nat * Z)%type;
  forest_fit := fun _ _ _ _ _ => Raise (ValueError "Unknown label type");
  n_features_in := fst;
  forest_vote := demo_vote;
  Report := unit;
  classification_report := fun _ _ => tt;
  datetime := nat;
  wall_clock := fun k => k;
  strftime := fun d _ => ("20240101_1200" ++ NilZero.string_of_uint (Nat.to_uint d))%string;
  isoformat := fun d => ("2024-01-01T12:00:" ++ NilZero.string_of_uint (Nat.to_uint d))%string;
  script_file := "/repo/src/train.py";
  format_4f := fun q => str_int (Qfloor (q * 10000))
|}.

Definition unfit_world : @World unfit_runtime :=
  @Build_World unfit_runtime 7 0 [] [] [] (fun _ => None) (fun _ => None).

(** seven samples with one feature, three of class 0 and four of class 1 *)
Definition seven_X : matrix := [[1]; [2]; [3]; [4]; [5]; [6]; [7]]%Z.
Definition seven_y : labels := [0; 0; 1; 1; 0; 1; 1]%Z.

(** five and six samples of two classes; the smaller class has two members
    in both *)
Definition five_X : matrix := [[1]; [2]; [3]; [4]; [5]]%Z.
Definition five_y : labels := [0; 0; 0; 1; 1]%Z.
Definition six_X : matrix := [[1]; [2]; [3]; [4]; [5]; [6]]%Z.
Definition six_y : labels := [0; 0; 0; 0; 1; 1]%Z.

(** a fitted model over two features that votes 1 whenever the first
    feature is positive, and two samples that a cut of the first feature at
    1 separates *)
Definition positive_model : RandomForestClassifier :=
  {| n_estimators := 100; max_depth := 10; random_state := 42; n_jobs := -1;
     estimators_ := Some (2, 0%Z) |}.
Definition separable_X : matrix := [[1; 0]; [2; 0]]%Z.
Definition separable_y : labels := [0; 1]%Z.

Definition no_metrics : Metrics :=
  {| accuracy := NaN; report := tt; timestamp := "" |}.

(** the same environment, except that values above 1000 count as infinite;
    seven samples, the last of which holds such a value *)
Definition inf_runtime : Runtime := {|
  float := Z;
  isinf := fun x => (1000 <? x)%Z;
  rng := nat;
  RandomState := fun seed => Z.to_nat (Z.abs seed);
  random_interval := fun g hi => (g mod (S hi), lcg g);
  sample_clusters := fun g n_samples n_features _ _ => demo_clusters g n_samples n_features;
  column_mean := demo_mean;
  column_scale := fun _ => 1%Z;
  standardize := fun x mu sigma => ((x - mu) / sigma)%Z;
  Forest := (nat * Z)%type;
  forest_fit := fun _ _ _ X y => demo_fit X y;
  n_features_in := fst;
  forest_vote := demo_vote;
  Report := unit;
  classification_report := fun _ _ => tt;
  datetime := nat;
  wall_clock := fun k => k;
  strftime := fun d _ => ("20240101_1200" ++ NilZero.string_of_uint (Nat.to_uint d))%string;
  isoformat := fun d => ("2024-01-01T12:00:" ++ NilZero.string_of_uint (Nat.to_uint d))%string;
  script_file := "/repo/src/train.py";
  format_4f := fun q => str_int (Qfloor (q * 10000))
|}.

Definition inf_world : @World inf_runtime :=
  @Build_World inf_runtime 7 0 [] [] [] (fun _ => None) (fun _ => None).

Definition overflow_X : @matrix inf_runtime := [[1]; [2]; [3]; [4]; [5]; [6]; [2000]]%Z.



End Demo.

(** * The integration check of [validate_integration.py]

    The script reads three files, parses one of them as YAML and inspects
    the document with Python's dynamic operations ([in], [.get], [[]],
    truth testing, iteration).  These operations are written out for every
    kind of value that [yaml.safe_load] can build; the parser itself, the
    Unicode database and the text of exceptions belong to the [Host]. *)

Module Validate.

(** a Python [str], by code points; program literals are ASCII *)
Definition text : Type := list N.

Definition str (s : string) : text := map N_of_ascii (list_ascii_of_string s).

Fixpoint text_eqb (a b : text) : bool :=
  match a, b with
  | [], [] => true
  | c :: a', d :: b' => N.eqb c d && text_eqb a' b'
  | _, _ => false
  end.

Fixpoint starts_with (needle hay : text) : bool :=
  match needle, hay with
  | [], _ => true
  | c :: needle', d :: hay' => N.eqb c d && starts_with needle' hay'
  | _ :: _, [] => false
  end.

(** [needle in hay] for two strings *)
Fixpoint occurs_in (needle hay : text) : bool :=
  starts_with needle hay
  || match hay with
     | [] => false
     | _ :: hay' => occurs_in needle hay'
     end.

Inductive pyfloat : Type :=
  | Finite (q : Q)
  | Infinite (negative : bool)
  | NotANumber.

(** the objects built by [yaml.safe_load]: scalars, [list] ([!!seq]),
    [tuple] (the items of [!!omap] and [!!pairs]), [dict], [set],
    [bytes] ([!!binary]), and [date]/[datetime] ([!!timestamp]).  A [dict]
    lists its items in insertion order, a [set] its members.  A document
    in which an anchor is aliased inside itself is read as the finite tree
    that the script can reach: it never looks deeper than five levels. *)
#[warnings="-register-all"] Inductive value : Type :=
  | VNone
  | VBool (b : bool)
  | VInt (z : Z)
  | VFloat (x : pyfloat)
  | VStr (s : text)
  | VList (l : list value)
  | VTuple (l : list value)
  | VDict (items : list (value * value))
  | VSet (l : list value)
  | VBytes (b : list N)
  | VDate (iso : string).

(** the left operands and keys that the script uses: a string literal, or
    [True] *)
Inductive key : Type :=
  | KStr (s : string)
  | KTrue.

(** what an operation of the script can raise; the handlers tell
    [yaml.YAMLError] from every other [Exception] *)
Inductive error : Type :=
  | YAMLError (msg : string)
  | OtherError (msg : string)            (** [OSError], [UnicodeDecodeError], ... *)
  | NotContainer (k : key) (v : value)   (** [TypeError] of [k in v] *)
  | NoAttribute (v : value) (attribute : string)  (** [AttributeError] *)
  | NotSubscriptable (v : value) (k : string)     (** [TypeError] of [v[k]] *)
  | KeyError (k : string)
  | NotIterable (v : value).             (** [TypeError] of [for _ in v] *)

Definition is_YAMLError (e : error) : bool :=
  match e with YAMLError _ => true | _ => false end.

Inductive result (A : Type) : Type :=
  | Ok (a : A)
  | Err (e : error).

Arguments Ok {A} a.
Arguments Err {A} e.

Definition try_bind {A B} (r : result A) (k : A -> result B) : result B :=
  match r with
  | Ok a => k a
  | Err e => Err e
  end.

Declare Scope validate_scope.
Notation "x <~ r ;; k" := (try_bind r (fun x => k))
  (at level 61, r at next level, right associativity) : validate_scope.
Local Open Scope validate_scope.

(** [k == v] *)
Definition eq_key (k : key) (v : value) : bool :=
  match k, v with
  | KStr s, VStr t => text_eqb (str s) t
  | KStr _, _ => false
  | KTrue, VBool b => b
  | KTrue, VInt z => (z =? 1)%Z
  | KTrue, VFloat (Finite q) => Qeq_bool q 1
  | KTrue, _ => false
  end.

(** [bool(v)] *)
Definition truthy (v : value) : bool :=
  match v with
  | VNone => false
  | VBool b => b
  | VInt z => negb (z =? 0)%Z
  | VFloat (Finite q) => negb (Qeq_bool q 0)
  | VFloat _ => true
  | VStr s => negb (List.length s =? 0)
  | VList l | VTuple l | VSet l => negb (List.length l =? 0)
  | VDict items => negb (List.length items =? 0)
  | VBytes b => negb (List.length b =? 0)
  | VDate _ => true
  end.

(** the value stored under the key equal to [k] *)
Fixpoint lookup (k : key) (items : list (value * value)) : option value :=
  match items with
  | [] => None
  | (k', v) :: items' => if eq_key k k' then Some v else lookup k items'
  end.

(** [k in c] *)
Definition contains (k : key) (c : value) : result bool :=
  match c with
  | VDict items => Ok (existsb (fun kv => eq_key k (fst kv)) items)
  | VList l | VTuple l | VSet l => Ok (existsb (eq_key k) l)
  | VStr s =>
      match k with
      | KStr n => Ok (occurs_in (str n) s)
      | KTrue => Err (NotContainer k c)
      end
  | VBytes b =>
      match k with
      | KStr _ => Err (NotContainer k c)
      | KTrue => Ok (existsb (N.eqb 1) b)
      end
  | VNone | VBool _ | VInt _ | VFloat _ | VDate _ => Err (NotContainer k c)
  end.

(** [c.get(k, default)] *)
Definition get (c : value) (k : key) (default : value) : result value :=
  match c with
  | VDict items =>
      match lookup k items with
      | Some v => Ok v
      | None => Ok default
      end
  | _ => Err (NoAttribute c "get")
  end.

(** [c[k]] for a string [k] *)
Definition getitem (c : value) (k : string) : result value :=
  match c with
  | VDict items =>
      match lookup (KStr k) items with
      | Some v => Ok v
      | None => Err (KeyError k)
      end
  | _ => Err (NotSubscriptable c k)
  end.

(** the elements that [for _ in v] visits *)
Definition iterate (v : value) : result (list value) :=
  match v with
  | VList l | VTuple l | VSet l => Ok l
  | VDict items => Ok (map fst items)
  | VStr s => Ok (map (fun c => VStr [c]) s)
  | VBytes b => Ok (map (fun n => VInt (Z.of_N n)) b)
  | VNone | VBool _ | VInt _ | VFloat _ | VDate _ => Err (NotIterable v)
  end.

(** what the script needs from the interpreter and from PyYAML *)
Class Host : Type := {
  (** [str.isspace] of one character *)
  isspace : N -> bool;
  (** [yaml.safe_load] on the text of a file *)
  safe_load : text -> result value;
  (** [str(e)] *)
  str_error : error -> string
}.

(** the files that the script looks at; it writes none *)
Record Files : Type := {
  path_exists : string -> bool;          (** [os.path.exists] *)
  read_text : string -> result text      (** [open(path, 'r')] and reading *)
}.

Section Script.
Context {H : Host}.

Definition workflow_path : string := ".github/workflows/claude.yml".

Definition expected_triggers : list string :=
  ["issue_comment"; "pull_request_review_comment"; "issues"].

Definition required_permissions : list string :=
  ["contents"; "pull-requests"; "issues"].

(** [for trigger in expected_triggers: if trigger not in triggers: ...]:
    the trigger at which the loop returns, if any *)
Fixpoint missing_trigger (triggers : value) (expected : list string)
    : result (option string) :=
  match expected with
  | [] => Ok None
  | trigger :: expected' =>
      present <~ contains (KStr trigger) triggers ;;
      if negb present then Ok (Some trigger)
      else missing_trigger triggers expected'
  end.

(** [for perm in required_permissions:
       if perm not in permissions or permissions[perm] != 'write': ...] *)
Fixpoint bad_permission (permissions : value) (required : list string)
    : result (option string) :=
  match required with
  | [] => Ok None
  | perm :: required' =>
      present <~ contains (KStr perm) permissions ;;
      bad <~ (if negb present then Ok true
              else granted <~ getitem permissions perm ;;
                   Ok (negb (eq_key (KStr "write") granted))) ;;
      if bad then Ok (Some perm)
      else bad_permission permissions required'
  end.

(** [[step.get('name', '') for step in steps]] *)
Fixpoint names_of (steps : list value) : result (list value) :=
  match steps with
  | [] => Ok []
  | step :: steps' =>
      name <~ get step (KStr "name") (VStr []) ;;
      names <~ names_of steps' ;;
      Ok (name :: names)
  end.

(** the suite of the [try] statement once the document is loaded: the
    value returned and the line printed just before *)
Definition check_workflow (workflow : value) : result (bool * string) :=
  has_name <~ contains (KStr "name") workflow ;;
  if negb has_name then Ok (false, "❌ Missing required field: name") else
  has_on <~ contains (KStr "on") workflow ;;
  no_on <~ (if negb has_on then
              has_true <~ contains KTrue workflow ;; Ok (negb has_true)
            else Ok false) ;;
  if no_on then Ok (false, "❌ Missing required field: on") else
  has_jobs <~ contains (KStr "jobs") workflow ;;
  if negb has_jobs then Ok (false, "❌ Missing required field: jobs") else
  on <~ get workflow (KStr "on") VNone ;;
  triggers <~ (if truthy on then Ok on else get workflow KTrue VNone) ;;
  if negb (truthy triggers) then Ok (false, "❌ Missing 'on' section") else
  missing <~ missing_trigger triggers expected_triggers ;;
  match missing with
  | Some trigger => Ok (false, ("❌ Missing trigger: " ++ trigger)%string)
  | None =>
      jobs <~ getitem workflow "jobs" ;;
      has_job <~ contains (KStr "claude-response") jobs ;;
      if negb has_job then Ok (false, "❌ Missing claude-response job") else
      job <~ getitem jobs "claude-response" ;;
      has_permissions <~ contains (KStr "permissions") job ;;
      if negb has_permissions then Ok (false, "❌ Missing permissions") else
      permissions <~ getitem job "permissions" ;;
      bad <~ bad_permission permissions required_permissions ;;
      match bad with
      | Some perm => Ok (false, ("❌ Missing or incorrect permission: " ++ perm)%string)
      | None =>
          has_steps <~ contains (KStr "steps") job ;;
          if negb has_steps then Ok (false, "❌ Missing steps") else
          steps <~ getitem job "steps" ;;
          elements <~ iterate steps ;;
          step_names <~ names_of elements ;;
          if negb (existsb (eq_key (KStr "Checkout repository")) step_names) then
            Ok (false, "❌ Missing checkout step")
          else if negb (existsb (eq_key (KStr "Run Claude Code")) step_names) then
            Ok (false, "❌ Missing Claude action step")
          else Ok (true, "✅ Claude workflow configuration is valid")
      end
  end.

(** the documents that pass, stated without the order of the checks *)
Definition accepted_workflow (workflow : value) : Prop :=
  exists items jobs job permissions steps elements triggers,
    workflow = VDict items
    /\ lookup (KStr "name") items <> None
    /\ truthy triggers = true
    /\ (lookup (KStr "on") items = Some triggers
        \/ (lookup KTrue items = Some triggers
            /\ forall v, lookup (KStr "on") items = Some v -> truthy v = false))
    /\ Forall (fun t => contains (KStr t) triggers = Ok true) expected_triggers
    /\ lookup (KStr "jobs") items = Some (VDict jobs)
    /\ lookup (KStr "claude-response") jobs = Some (VDict job)
    /\ lookup (KStr "permissions") job = Some (VDict permissions)
    /\ Forall (fun p => lookup (KStr p) permissions = Some (VStr (str "write")))
         required_permissions
    /\ lookup (KStr "steps") job = Some steps
    /\ iterate steps = Ok elements
    /\ Forall (fun e => exists fields, e = VDict fields) elements
    /\ Forall (fun name =>
                 exists fields,
                   In (VDict fields) elements
                   /\ lookup (KStr "name") fields = Some (VStr (str name)))
         ["Checkout repository"; "Run Claude Code"].

(** the value returned, and the arguments of the calls of [print] *)
Definition validate_workflow (fs : Files) : bool * list string :=
  if negb (path_exists fs workflow_path) then
    (false, ["❌ Claude workflow file not found"])
  else
    match (content <~ read_text fs workflow_path ;;
           workflow <~ safe_load content ;;
           check_workflow workflow) with
    | Ok (valid, line) => (valid, [line])
    | Err e =>
        if is_YAMLError e then (false, [("❌ YAML syntax error: " ++ str_error e)%string])
        else (false, [("❌ Error validating workflow: " ++ str_error e)%string])
    end.

Fixpoint lstrip (t : text) : text :=
  match t with
  | [] => []
  | c :: t' => if isspace c then lstrip t' else t
  end.

(** [t.strip()] *)
Definition strip (t : text) : text := rev (lstrip (rev (lstrip t))).

Definition files_to_check : list (string * string) :=
  [ ("README.md", "README documentation");
    (".claude-config.md", "Claude configuration documentation") ].

(** a file that exists, can be read and is not blank *)
Definition readable_and_not_blank (fs : Files) (filename : string) (content : text)
    : Prop :=
  path_exists fs filename = true
  /\ read_text fs filename = Ok content
  /\ exists c, In c content /\ isspace c = false.

(** one turn of the loop: whether the file passed, and the line printed *)
Definition check_document (fs : Files) (filename description : string)
    : bool * string :=
  if negb (path_exists fs filename) then
    (false, ("❌ Missing " ++ description ++ ": " ++ filename)%string)
  else
    match read_text fs filename with
    | Err e => (false, ("❌ Error reading " ++ description ++ ": " ++ str_error e)%string)
    | Ok content =>
        if List.length (strip content) =? 0 then
          (false, ("❌ Empty " ++ description ++ ": " ++ filename)%string)
        else if String.eqb filename "README.md"
                && negb (occurs_in (str "@claude") content) then
          (false, "❌ README missing @claude usage information")
        else if String.eqb filename "README.md"
                && negb (occurs_in (str "Claude AI Integration") content) then
          (false, "❌ README missing Claude AI Integration section")
        else (true, ("✅ " ++ description ++ " is valid")%string)
    end.

Fixpoint check_documents (fs : Files) (files : list (string * string))
    (all_valid : bool) : bool * list string :=
  match files with
  | [] => (all_valid, [])
  | (filename, description) :: files' =>
      let (passed, line) := check_document fs filename description in
      let (all_valid', lines) :=
        check_documents fs files' (if passed then all_valid else false) in
      (all_valid', line :: lines)
  end.

Definition validate_documentation (fs : Files) : bool * list string :=
  check_documents fs files_to_check true.

(** [main]: the value it returns, which [sys.exit] makes the status of the
    process, and everything printed *)
Definition main (fs : Files) : Z * list string :=
  let banner := ["🔍 Validating Claude-GitHub Integration..."; ""] in
  let (workflow_valid, workflow_lines) := validate_workflow fs in
  let (docs_valid, docs_lines) := validate_documentation fs in
  let printed := banner ++ workflow_lines ++ [""] ++ docs_lines ++ [""] in
  if workflow_valid && docs_valid then
    (0%Z, printed ++ ["🎉 All validations passed! Claude-GitHub integration is ready."])
  else
    (1%Z, printed ++ ["❌ Some validations failed. Please check the issues above."]).

End Script.

End Validate.

(** ** A small host for the integration check

    A parser that knows a single text, an interpreter that knows ASCII
    white space only, and a repository that holds the three files. *)

Module ValidateDemo.
Import Validate.

Definition entry (k : string) (v : value) : value * value := (VStr (str k), v).

(** the document of a workflow as the repository describes it; the bare
    [on] of the file is the key [True] *)
Definition workflow_document : value :=
  VDict
    [ entry "name" (VStr (str "Claude Assistant"));
      (VBool true,
       VDict [ entry "issue_comment" (VDict [entry "types" (VList [VStr (str "created")])]);
               entry "pull_request_review_comment" (VDict []);
               entry "issues" (VDict []) ]);
      entry "jobs"
        (VDict
           [ entry "claude-response"
               (VDict
                  [ entry "runs-on" (VStr (str "ubuntu-latest"));
                    entry "permissions"
                      (VDict [ entry "contents" (VStr (str "write"));
                               entry "pull-requests" (VStr (str "write"));
                               entry "issues" (VStr (str "write")) ]);
                    entry "steps"
                      (VList
                         [ VDict [entry "name" (VStr (str "Checkout repository"))];
                           VDict [entry "name" (VStr (str "Run Claude Code"))] ]) ]) ]) ].

(** the same workflow with the triggers written as one string *)
Definition workflow_with_string_triggers : value :=
  match workflow_document with
  | VDict (name :: _ :: rest) =>
      VDict (name
             :: entry "on" (VStr (str "issues, pull_request_review_comment, issue_comment"))
             :: rest)
  | other => other
  end.

#[export] Instance demo_host : Host := {|
  isspace := fun c => ((9 <=? c) && (c <=? 13) || (c =? 32))%N;
  safe_load := fun t =>
    if text_eqb t (str "workflow") then Ok workflow_document
    else if text_eqb t (str "string triggers") then Ok workflow_with_string_triggers
    else Err (YAMLError "mapping values are not allowed here");
  str_error := fun e =>
    match e with
    | YAMLError msg | OtherError msg => msg
    | KeyError k => ("'" ++ k ++ "'")%string
    | NoAttribute _ a => ("object has no attribute '" ++ a ++ "'")%string
    | _ => "unsupported operand"
    end
|}.

(** a repository with the workflow and both documents *)
Definition complete_repository (workflow readme : string) : Files :=
  {| path_exists := fun _ => true;
     read_text := fun p =>
       if String.eqb p workflow_path then Ok (str workflow)
       else if String.eqb p "README.md" then Ok (str readme)
       else Ok (str "# Claude configuration") |}.

End ValidateDemo.

(** * Properties *)

(** ** Facts about the NumPy helpers *)

Section UniqueFacts.
Context {A : Type} (ltb eqb : A -> A -> bool).
Hypothesis eqb_spec : forall x y, reflect (x = y) (eqb x y).
Hypothesis ltb_irrefl : forall x, ltb x x = false.
Hypothesis ltb_trans :
  forall x y z, ltb x y = true -> ltb y z = true -> ltb x z = true.
Hypothesis ltb_total :
  forall x y, ltb x y = false -> eqb x y = false -> ltb y x = true.

Let lt (x y : A) : Prop := ltb x y = true.

Lemma insert_unique_In (v x : A) (l : list A) :
  In x (Np.insert_unique ltb eqb v l) <-> x = v \/ In x l.
Proof.
  induction l as [| h l IH]; cbn [Np.insert_unique].
  - cbn. intuition.
  - destruct (ltb v h); [cbn; intuition |].
    destruct (eqb_spec v h) as [-> | Hne]; [cbn; intuition |].
    cbn [In]. rewrite IH. intuition.
Qed.

Lemma insert_unique_sorted (v : A) (l : list A) :
  StronglySorted lt l -> StronglySorted lt (Np.insert_unique ltb eqb v l).
Proof.
  induction 1 as [| h l Hs IH Hh]; cbn [Np.insert_unique].
  - repeat constructor.
  - destruct (ltb v h) eqn:Hv.
    + constructor; [now constructor |].
      constructor; [exact Hv |].
      eapply Forall_impl; [| exact Hh]. intros y Hy. now apply ltb_trans with h.
    + destruct (eqb v h) eqn:He; [now constructor |].
      constructor; [exact IH |].
      apply Forall_forall. intros y Hy. apply insert_unique_In in Hy as [-> | Hy].
      * now apply ltb_total.
      * rewrite Forall_forall in Hh. now apply Hh.
Qed.

Lemma unique_by_In (x : A) (l : list A) :
  In x (Np.unique_by ltb eqb l) <-> In x l.
Proof.
  induction l as [| h l IH]; [reflexivity |].
  cbn [Np.unique_by fold_right]. rewrite insert_unique_In.
  fold (Np.unique_by ltb eqb l). rewrite IH. cbn. intuition.
Qed.

Lemma unique_by_sorted (l : list A) : StronglySorted lt (Np.unique_by ltb eqb l).
Proof.
  induction l as [| h l IH]; [constructor |].
  now apply insert_unique_sorted.
Qed.

Lemma sorted_NoDup (l : list A) : StronglySorted lt l -> NoDup l.
Proof.
  induction 1 as [| h l Hs IH Hh]; constructor; [| exact IH].
  intros Hin. rewrite Forall_forall in Hh. specialize (Hh h Hin).
  unfold lt in Hh. now rewrite ltb_irrefl in Hh.
Qed.

Lemma unique_by_NoDup (l : list A) : NoDup (Np.unique_by ltb eqb l).
Proof. apply sorted_NoDup, unique_by_sorted. Qed.

End UniqueFacts.

Lemma unique_In (x : nat) l : In x (Np.unique l) <-> In x l.
Proof. apply unique_by_In. apply Nat.eqb_spec. Qed.

Lemma unique_NoDup (l : list nat) : NoDup (Np.unique l).
Proof.
  apply unique_by_NoDup.
  - apply Nat.eqb_spec.
  - apply Nat.ltb_irrefl.
  - intros x y z. rewrite !Nat.ltb_lt. lia.
  - intros x y. rewrite !Nat.ltb_nlt, Nat.eqb_neq, Nat.ltb_lt. lia.
Qed.

Lemma uniqueZ_In (x : Z) l : In x (Np.uniqueZ l) <-> In x l.
Proof. apply unique_by_In. apply Z.eqb_spec. Qed.

Lemma uniqueZ_NoDup (l : list Z) : NoDup (Np.uniqueZ l).
Proof.
  apply unique_by_NoDup.
  - apply Z.eqb_spec.
  - apply Z.ltb_irrefl.
  - intros x y z. rewrite !Z.ltb_lt. lia.
  - intros x y. rewrite !Z.ltb_nlt, Z.eqb_neq, Z.ltb_lt. lia.
Qed.

Section WhereFacts.
Context {A : Type}.

Lemma where_from_ext (p q : A -> bool) (a : list A) (i : nat) :
  (forall v, In v a -> p v = q v) ->
  Np.where_from p a i = Np.where_from q a i.
Proof.
  revert i. induction a as [| v a IH]; intros i H; [reflexivity |].
  cbn [Np.where_from]. rewrite (H v (or_introl eq_refl)).
  rewrite (IH (S i)) by (intros; apply H; now right). reflexivity.
Qed.

Lemma where_from_true (a : list A) (i : nat) :
  Np.where_from (fun _ => true) a i = seq i (List.length a).
Proof.
  revert i. induction a as [| v a IH]; intros i; [reflexivity |].
  cbn [Np.where_from List.length seq]. now rewrite IH.
Qed.

Lemma where_from_In (p : A -> bool) (a : list A) (i k : nat) :
  In k (Np.where_from p a i) <->
  exists j v, k = i + j /\ nth_error a j = Some v /\ p v = true.
Proof.
  revert i. induction a as [| h a IH]; intros i; cbn [Np.where_from].
  - split; [contradiction |]. intros (j & v & _ & H & _). destruct j; discriminate.
  - assert (T : In k (Np.where_from p a (S i)) <->
                exists j v, k = i + S j /\ nth_error a j = Some v /\ p v = true).
    { rewrite IH. split; intros (j & v & E & H); exists j, v; split; auto; lia. }
    destruct (p h) eqn:Hp; cbn [In]; rewrite T; split.
    + intros [<- | (j & v & E & H)].
      * exists 0, h. repeat split; auto; lia.
      * exists (S j), v. auto.
    + intros ([| j] & v & E & H & Hv).
      * left. lia.
      * right. exists j, v. auto.
    + intros (j & v & E & H). exists (S j), v. auto.
    + intros ([| j] & v & E & H & Hv).
      * cbn in H. injection H as ->. congruence.
      * exists j, v. auto.
Qed.

Lemma where_from_lower (p : A -> bool) (a : list A) (i k : nat) :
  In k (Np.where_from p a i) -> i <= k < i + List.length a.
Proof.
  intros H. apply where_from_In in H as (j & v & -> & H & _).
  assert (j < List.length a) by (apply nth_error_Some; congruence). lia.
Qed.

Lemma where_from_NoDup (p : A -> bool) (a : list A) (i : nat) :
  NoDup (Np.where_from p a i).
Proof.
  revert i. induction a as [| h a IH]; intros i; cbn [Np.where_from].
  - constructor.
  - destruct (p h); [| apply IH].
    constructor; [| apply IH].
    intros H. apply where_from_lower in H. lia.
Qed.

(** two tests that never hold together split the positions of their
    disjunction *)
Lemma where_from_orb (p q : A -> bool) (a : list A) (i : nat) :
  (forall v, p v = true -> q v = true -> False) ->
  Permutation (Np.where_from p a i ++ Np.where_from q a i)
              (Np.where_from (fun v => p v || q v) a i).
Proof.
  intros Hpq. revert i. induction a as [| h a IH]; intros i; [constructor |].
  cbn [Np.where_from].
  destruct (p h) eqn:Hp, (q h) eqn:Hq; cbn [orb].
  - exfalso. eauto.
  - cbn [app]. constructor. apply IH.
  - symmetry. apply Permutation_cons_app. symmetry. apply IH.
  - apply IH.
Qed.

End WhereFacts.

Section ClassFacts.
Context {A : Type} (eqb : A -> A -> bool).
Hypothesis eqb_spec : forall x y, reflect (x = y) (eqb x y).

(** the positions of the values listed in [cs], class by class *)
Lemma where_from_classes (cs : list A) (a : list A) (i : nat) :
  NoDup cs ->
  Permutation (List.concat (map (fun c => Np.where_from (eqb c) a i) cs))
              (Np.where_from (fun v => existsb (fun c => eqb c v) cs) a i).
Proof.
  induction 1 as [| c cs Hc Hnd IH]; cbn [map List.concat existsb].
  - induction a as [| h a IHa] in i |- *; [constructor | apply IHa].
  - etransitivity; [apply Permutation_app_head, IH |].
    apply where_from_orb. intros v H1 H2.
    destruct (eqb_spec c v) as [-> | ]; [| discriminate].
    apply Hc. apply existsb_exists in H2 as (c' & Hin & E).
    destruct (eqb_spec c' v) as [-> | ]; [assumption | discriminate].
Qed.

(** every position belongs to the class of its value *)
Lemma class_indices_partition (cs a : list A) :
  NoDup cs -> (forall v, In v a -> In v cs) ->
  Permutation (List.concat (map (fun c => Np.where_ (eqb c) a) cs))
              (seq 0 (List.length a)).
Proof.
  intros Hnd Hall. unfold Np.where_.
  rewrite where_from_classes by assumption.
  rewrite <- where_from_true. erewrite where_from_ext; [reflexivity |].
  intros v Hv. cbn. apply existsb_exists. exists v. split; [auto |].
  now destruct (eqb_spec v v).
Qed.

End ClassFacts.

Section ShuffleFacts.
Context {A : Type}.

Lemma set_item_exchange (x : list A) (j : nat) (a b : A) :
  nth_error x j = Some b ->
  Permutation (b :: Np.set_item x j a) (a :: x).
Proof.
  revert j. induction x as [| h x IH]; intros [| j] H; try discriminate.
  - cbn in H. injection H as ->. cbn. apply perm_swap.
  - cbn in H. cbn [Np.set_item].
    etransitivity; [apply perm_swap |].
    etransitivity; [apply perm_skip, IH, H |]. apply perm_swap.
Qed.

Lemma set_item_same (x : list A) (i : nat) (a : A) :
  nth_error x i = Some a -> Np.set_item x i a = x.
Proof.
  revert i. induction x as [| h x IH]; intros [| i] H; try discriminate.
  - cbn in H. now injection H as ->.
  - cbn in *. now rewrite IH.
Qed.

Lemma swap_cons_cons (h : A) (x : list A) (i j : nat) :
  Np.swap (h :: x) (S i) (S j) = h :: Np.swap x i j.
Proof.
  unfold Np.swap. cbn [nth_error].
  destruct (nth_error x i), (nth_error x j); reflexivity.
Qed.

Lemma swap_Permutation (x : list A) (i j : nat) : Permutation (Np.swap x i j) x.
Proof.
  revert i j. induction x as [| h x IH]; intros i j.
  - unfold Np.swap. destruct i, j; reflexivity.
  - destruct i as [| i], j as [| j].
    + unfold Np.swap. cbn. reflexivity.
    + unfold Np.swap. cbn [nth_error].
      destruct (nth_error x j) as [b |] eqn:Hj; [| reflexivity].
      cbn [Np.set_item]. now apply set_item_exchange.
    + unfold Np.swap. cbn [nth_error].
      destruct (nth_error x i) as [a |] eqn:Hi; [| reflexivity].
      cbn [Np.set_item]. now apply set_item_exchange.
    + rewrite swap_cons_cons. now constructor.
Qed.

Context {R : Runtime}.

Lemma shuffle_from_Permutation (i : nat) (x : list A) (g : rng) :
  Permutation (fst (Np.shuffle_from i x g)) x.
Proof.
  revert x g. induction i as [| i IH]; intros x g; cbn [Np.shuffle_from].
  - reflexivity.
  - destruct (random_interval g (S i)) as [j g'].
    etransitivity; [apply IH | apply swap_Permutation].
Qed.

Lemma permutation_Permutation (x : list A) (g : rng) :
  Permutation (fst (Np.permutation x g)) x.
Proof. apply shuffle_from_Permutation. Qed.

End ShuffleFacts.

Section TakeFacts.
Context {A : Type}.

Lemma take_Permutation (a : list A) (idx idx' : list nat) :
  Permutation idx idx' -> Permutation (Np.take a idx) (Np.take a idx').
Proof. intros H. unfold Np.take. now apply Permutation_flat_map. Qed.

Lemma take_app (a : list A) (idx idx' : list nat) :
  Np.take a (idx ++ idx') = Np.take a idx ++ Np.take a idx'.
Proof. unfold Np.take. apply flat_map_app. Qed.

Lemma take_seq (a b : list A) :
  Np.take (b ++ a) (seq (List.length b) (List.length a)) = a.
Proof.
  revert b. induction a as [| h a IH]; intros b; [reflexivity |].
  cbn [List.length seq Np.take flat_map].
  rewrite nth_error_app2, Nat.sub_diag by lia. cbn [nth_error app].
  f_equal. specialize (IH (b ++ [h])).
  rewrite <- app_assoc, length_app, Nat.add_1_r in IH. exact IH.
Qed.

Lemma take_all (a : list A) : Np.take a (seq 0 (List.length a)) = a.
Proof. exact (take_seq a []). Qed.

(** positions in range select one element each *)
Lemma take_in_range (a : list A) (idx : list nat) :
  Forall (fun i => i < List.length a) idx ->
  Forall2 (fun i v => nth_error a i = Some v) idx (Np.take a idx).
Proof.
  induction 1 as [| i idx Hi _ IH]; cbn [Np.take flat_map]; [constructor |].
  destruct (nth_error a i) as [v |] eqn:E.
  - cbn [app]. constructor; assumption.
  - apply nth_error_None in E. lia.
Qed.

Lemma take_NoDup (a : list nat) (idx : list nat) :
  NoDup a -> NoDup idx -> NoDup (Np.take a idx).
Proof.
  intros Ha. induction 1 as [| i idx Hi Hnd IH]; cbn [Np.take flat_map]; [constructor |].
  destruct (nth_error a i) as [v |] eqn:E; [| exact IH].
  cbn [app]. constructor; [| exact IH].
  intros Hin. apply in_flat_map in Hin as (k & Hk & Hv).
  destruct (nth_error a k) as [v' |] eqn:E'; [| contradiction].
  destruct Hv as [-> | []].
  assert (i = k); [| congruence].
  rewrite NoDup_nth_error in Ha. apply Ha; [| congruence].
  apply nth_error_Some. congruence.
Qed.

Lemma take_incl (a : list A) (idx : list nat) (v : A) :
  In v (Np.take a idx) -> In v a.
Proof.
  unfold Np.take. intros H. apply in_flat_map in H as (k & _ & Hv).
  destruct (nth_error a k) as [v' |] eqn:E; [| contradiction].
  destruct Hv as [-> | []]. eapply nth_error_In, E.
Qed.

Lemma take_length (a : list A) (idx : list nat) :
  Forall (fun i => i < List.length a) idx ->
  List.length (Np.take a idx) = List.length idx.
Proof.
  intros H. apply take_in_range in H. symmetry. eapply Forall2_length, H.
Qed.

End TakeFacts.

Lemma in_firstn {A} (x : A) (n : nat) (l : list A) : In x (firstn n l) -> In x l.
Proof.
  intros H. rewrite <- (firstn_skipn n l). apply in_or_app. now left.
Qed.

Section ChoiceFacts.
Context {R : Runtime}.

Lemma permutation_int_Permutation (n : nat) (g : rng) :
  Permutation (fst (Np.permutation_int n g)) (seq 0 n).
Proof. apply shuffle_from_Permutation. Qed.

Lemma permutation_int_range (n : nat) (g : rng) :
  Forall (fun j => j < n) (fst (Np.permutation_int n g)).
Proof.
  apply Forall_forall. intros j Hj.
  eapply Permutation_in in Hj; [| apply permutation_int_Permutation].
  apply in_seq in Hj. lia.
Qed.

(** [choice] without replacement: distinct members of the population, as
    many as asked for *)
Lemma choice_spec (a : list nat) (size : nat) (g : rng) :
  NoDup a -> size <= List.length a ->
  let chosen := fst (Np.choice a size g) in
  NoDup chosen /\ incl chosen a /\ List.length chosen = size.
Proof.
  intros Ha Hs. unfold Np.choice.
  pose proof (permutation_int_Permutation (List.length a) g) as P.
  pose proof (permutation_int_range (List.length a) g) as F.
  destruct (Np.permutation_int (List.length a) g) as [perm g']. cbn [fst] in *.
  assert (Hnd : NoDup perm).
  { eapply Permutation_NoDup; [symmetry; exact P | apply seq_NoDup]. }
  assert (Hlen : List.length perm = List.length a).
  { rewrite (Permutation_length P). apply length_seq. }
  repeat split.
  - apply take_NoDup; [assumption |].
    rewrite <- (firstn_skipn size perm) in Hnd. now apply NoDup_app_remove_r in Hnd.
  - intros v Hv. eapply take_incl, Hv.
  - rewrite take_length.
    + rewrite length_firstn. lia.
    + apply Forall_forall. intros j Hj. rewrite Forall_forall in F.
      apply F. eapply in_firstn, Hj.
Qed.

(** asking for the whole population returns a rearrangement of it *)
Lemma choice_all (a : list nat) (g : rng) :
  Permutation (fst (Np.choice a (List.length a) g)) a.
Proof.
  unfold Np.choice.
  pose proof (permutation_int_Permutation (List.length a) g) as P.
  destruct (Np.permutation_int (List.length a) g) as [perm g']. cbn [fst] in *.
  rewrite firstn_all2 by (rewrite (Permutation_length P), length_seq; lia).
  rewrite (take_Permutation a P). now rewrite take_all.
Qed.

End ChoiceFacts.

Lemma list_sum_cons (x : nat) (l : list nat) : list_sum (x :: l) = x + list_sum l.
Proof. reflexivity. Qed.

Section IncrementFacts.

Lemma increment_length (a idx : list nat) :
  List.length (Np.increment a idx) = List.length a.
Proof.
  unfold Np.increment. rewrite length_map, length_combine, length_seq. lia.
Qed.

Lemma increment_nth (a idx : list nat) (i : nat) :
  i < List.length a ->
  nth i (Np.increment a idx) 0
  = if existsb (Nat.eqb i) idx then S (nth i a 0) else nth i a 0.
Proof.
  intros Hi. unfold Np.increment.
  set (f := fun iv : nat * nat => if existsb (Nat.eqb (fst iv)) idx then S (snd iv) else snd iv).
  rewrite (nth_indep _ 0 (f (0, 0)))
    by (rewrite length_map, length_combine, length_seq; lia).
  rewrite map_nth, combine_nth by apply length_seq.
  rewrite seq_nth by assumption. reflexivity.
Qed.

Lemma increment_nil (a : list nat) : Np.increment a [] = a.
Proof.
  apply nth_ext with (d := 0) (d' := 0); [apply increment_length |].
  intros i Hi. rewrite increment_length in Hi. now rewrite increment_nth.
Qed.

(** two successive increments at disjoint positions amount to one *)
Lemma increment_increment (a idx1 idx2 : list nat) :
  (forall i, In i idx1 -> In i idx2 -> False) ->
  Np.increment (Np.increment a idx1) idx2 = Np.increment a (idx1 ++ idx2).
Proof.
  intros Hd. apply nth_ext with (d := 0) (d' := 0);
    [now rewrite !increment_length |].
  intros i Hi. rewrite !increment_length in Hi.
  rewrite !increment_nth by (rewrite ?increment_length; assumption).
  rewrite existsb_app.
  destruct (existsb (Nat.eqb i) idx1) eqn:E1, (existsb (Nat.eqb i) idx2) eqn:E2;
    try reflexivity.
  exfalso. apply existsb_exists in E1 as (x1 & H1 & Q1), E2 as (x2 & H2 & Q2).
  apply Nat.eqb_eq in Q1, Q2. subst. eauto.
Qed.

Lemma increment_sum_from (f : nat -> bool) (a : list nat) (k : nat) :
  list_sum (map (fun iv : nat * nat => if f (fst iv) then S (snd iv) else snd iv)
                (combine (seq k (List.length a)) a))
  = list_sum a + List.length (filter f (seq k (List.length a))).
Proof.
  revert k. induction a as [| v a IH]; intros k; [reflexivity |].
  cbn [List.length seq combine map filter fst snd].
  rewrite !list_sum_cons, IH. destruct (f k); cbn [List.length]; lia.
Qed.

Lemma increment_sum (a idx : list nat) :
  NoDup idx -> Forall (fun i => i < List.length a) idx ->
  list_sum (Np.increment a idx) = list_sum a + List.length idx.
Proof.
  intros Hnd Hr. unfold Np.increment.
  rewrite (increment_sum_from (fun i => existsb (Nat.eqb i) idx)). f_equal.
  apply Permutation_length, NoDup_Permutation; [| assumption |].
  - apply NoDup_filter, seq_NoDup.
  - intros i. rewrite filter_In, in_seq, existsb_exists. split.
    + intros (_ & x & Hx & E). apply Nat.eqb_eq in E. now subst.
    + intros Hi. rewrite Forall_forall in Hr. split; [specialize (Hr i Hi); lia |].
      exists i. split; [assumption | apply Nat.eqb_refl].
Qed.

Lemma increment_le (a idx : list nat) (i : nat) :
  nth i (Np.increment a idx) 0 <= S (nth i a 0).
Proof.
  destruct (Nat.lt_ge_cases i (List.length a)) as [Hi | Hi].
  - rewrite increment_nth by assumption. destruct (existsb _ _); lia.
  - rewrite nth_overflow by (rewrite increment_length; lia). lia.
Qed.

End IncrementFacts.

Section ModeFacts.
Context {R : Runtime}.

Lemma where_value (remainder : list nat) (v i : nat) :
  In i (Np.where_ (Nat.eqb v) remainder) ->
  nth_error remainder i = Some v.
Proof.
  unfold Np.where_. intros H. apply where_from_In in H as (j & x & -> & Hj & E).
  apply Nat.eqb_eq in E. now subst.
Qed.

Lemma where_range {A} (p : A -> bool) (a : list A) :
  Forall (fun i => i < List.length a) (Np.where_ p a).
Proof.
  apply Forall_forall. intros i Hi. apply where_from_lower in Hi. lia.
Qed.

(** The loop of [_approximate_mode] hands out [need_to_add] extra draws, one
    per position at most, as long as positions remain. *)
Lemma add_by_remainder_spec (remainder values floored : list nat)
    (need_to_add : nat) (g : rng) :
  NoDup values -> List.length floored = List.length remainder ->
  exists extra : list nat,
    NoDup extra
    /\ (forall i, In i extra ->
          exists v, In v values /\ nth_error remainder i = Some v)
    /\ List.length extra = Nat.min need_to_add (capacity remainder values)
    /\ fst (Sklearn.add_by_remainder remainder values floored need_to_add g)
       = Np.increment floored extra.
Proof.
  intros Hnd. revert floored need_to_add g.
  induction Hnd as [| v rest Hv Hnd IH]; intros floored need g Hlen.
  - exists []. cbn. rewrite increment_nil, Nat.min_0_r.
    repeat split; [constructor | contradiction].
  - cbn [Sklearn.add_by_remainder].
    set (inds := Np.where_ (Nat.eqb v) remainder).
    assert (Hcap : capacity remainder (v :: rest)
                   = List.length inds + capacity remainder rest).
    { unfold capacity. cbn [map List.concat]. now rewrite length_app. }
    pose proof (@choice_spec R inds (Nat.min (List.length inds) need) g
                  (where_from_NoDup _ _ _) (Nat.le_min_l _ _)) as (Cnd & Cin & Clen).
    destruct (Np.choice inds (Nat.min (List.length inds) need) g) as [chosen g'].
    cbn [fst] in Cnd, Cin, Clen.
    assert (Cval : forall i, In i chosen -> nth_error remainder i = Some v).
    { intros i Hi. apply where_value. now apply Cin. }
    destruct (Nat.eqb_spec (need - Nat.min (List.length inds) need) 0) as [E | E].
    + exists chosen. cbn [fst]. repeat split; try assumption.
      * intros i Hi. exists v. split; [now left | auto].
      * rewrite Clen, Hcap. lia.
    + destruct (IH (Np.increment floored chosen)
                   (need - Nat.min (List.length inds) need) g')
        as (extra & End & Eval & Elen & Eres).
      { now rewrite increment_length. }
      assert (Hdisj : forall i, In i chosen -> In i extra -> False).
      { intros i H1 H2. apply Cval in H1. apply Eval in H2 as (v' & Hv' & H2).
        rewrite H1 in H2. injection H2 as <-. contradiction. }
      exists (chosen ++ extra). repeat split.
      * apply NoDup_app; [assumption | assumption |]. intros i H1 H2. eauto.
      * intros i Hi. apply in_app_or in Hi as [Hi | Hi].
        -- exists v. split; [now left | auto].
        -- apply Eval in Hi as (v' & Hv' & Hi). exists v'. split; [now right | auto].
      * rewrite length_app, Clen, Elen, Hcap. lia.
      * rewrite Eres. now apply increment_increment.
Qed.

Lemma capacity_all (remainder : list nat) :
  capacity remainder (rev (Np.unique remainder)) = List.length remainder.
Proof.
  unfold capacity.
  assert (P : Permutation
                (List.concat (map (fun c => Np.where_ (Nat.eqb c) remainder)
                                  (rev (Np.unique remainder))))
                (seq 0 (List.length remainder))).
  { apply class_indices_partition.
    - apply Nat.eqb_spec.
    - apply NoDup_rev, unique_NoDup.
    - intros v Hv. apply -> in_rev. now apply unique_In. }
  rewrite (Permutation_length P). apply length_seq.
Qed.

End ModeFacts.

Lemma Forall2_of_nth {A B} (P : A -> B -> Prop) (d : A) (d' : B) (l : list A) (l' : list B) :
  List.length l = List.length l' ->
  (forall i, i < List.length l -> P (nth i l d) (nth i l' d')) ->
  Forall2 P l l'.
Proof.
  revert l'. induction l as [| x l IH]; intros [| x' l'] Hlen H; try discriminate.
  - constructor.
  - constructor.
    + apply (H 0). cbn. lia.
    + apply IH; [now injection Hlen |].
      intros i Hi. apply (H (S i)). cbn. lia.
Qed.

Section ModeSpec.
Context {R : Runtime}.

Lemma quotients_and_remainders (counts : list nat) (d n : nat) :
  n * list_sum (map (fun c => c * d / n) counts)
  + list_sum (map (fun c => (c * d) mod n) counts)
  = d * list_sum counts.
Proof.
  induction counts as [| c counts IH]; cbn [map]; rewrite ?list_sum_cons.
  - cbn. lia.
  - pose proof (Nat.div_mod_eq (c * d) n). lia.
Qed.

Lemma remainders_bound (counts : list nat) (d n : nat) :
  n <> 0 ->
  list_sum (map (fun c => (c * d) mod n) counts) <= List.length counts * (n - 1).
Proof.
  intros Hn. induction counts as [| c counts IH]; cbn [map List.length];
    rewrite ?list_sum_cons; [cbn; lia |].
  pose proof (Nat.mod_upper_bound (c * d) n Hn). lia.
Qed.

Lemma nth_quotient (counts : list nat) (d n i : nat) :
  nth i (map (fun c => c * d / n) counts) 0 = nth i counts 0 * d / n.
Proof.
  destruct (Nat.lt_ge_cases i (List.length counts)) as [Hi | Hi].
  - set (f := fun c => c * d / n).
    rewrite (nth_indep (map f counts) 0 (f 0)) by now rewrite length_map.
    now rewrite map_nth.
  - rewrite !nth_overflow by (rewrite ?length_map; assumption).
    cbn. now rewrite Nat.Div0.div_0_l.
Qed.

(** The first use of [_approximate_mode] in the split: [n_draws] draws are
    shared out among the classes, no class being asked for more members
    than it has. *)
Lemma approximate_mode_spec (class_counts : list nat) (n_draws : nat) (g : rng) :
  Forall (fun c => 0 < c) class_counts ->
  n_draws < list_sum class_counts ->
  let n_i := fst (Sklearn.approximate_mode class_counts n_draws g) in
  list_sum n_i = n_draws /\ Forall2 le n_i class_counts.
Proof.
  intros Hpos Hd. unfold Sklearn.approximate_mode.
  set (n := list_sum class_counts) in *.
  set (floored := map (fun c => c * n_draws / n) class_counts).
  set (remainder := map (fun c => (c * n_draws) mod n) class_counts).
  assert (Hn : n <> 0) by lia.
  pose proof (quotients_and_remainders class_counts n_draws n) as Hqr.
  pose proof (remainders_bound class_counts n_draws Hn) as Hrb.
  fold floored remainder n in Hqr, Hrb.
  assert (Hfl : list_sum floored <= n_draws) by nia.
  assert (Hk : List.length class_counts <> 0).
  { destruct class_counts; [cbn in Hd; lia | discriminate]. }
  assert (Hneed : n_draws - list_sum floored <= List.length remainder).
  { unfold remainder. rewrite length_map. nia. }
  assert (Hlt : forall i, i < List.length class_counts ->
                          S (nth i floored 0) <= nth i class_counts 0).
  { intros i Hi. unfold floored. rewrite nth_quotient.
    assert (0 < nth i class_counts 0).
    { rewrite Forall_forall in Hpos. apply Hpos, nth_In, Hi. }
    apply Nat.Div0.div_lt_upper_bound. nia. }
  destruct (Nat.ltb_spec 0 (n_draws - list_sum floored)) as [Hp | Hz]; cbv zeta.
  - destruct (@add_by_remainder_spec R remainder (rev (Np.unique remainder))
                floored (n_draws - list_sum floored) g)
      as (extra & End & Eval & Elen & Eres).
    { apply NoDup_rev, unique_NoDup. }
    { unfold floored, remainder. now rewrite !length_map. }
    rewrite Eres. rewrite capacity_all in Elen. split.
    + rewrite increment_sum; [lia | assumption |].
      apply Forall_forall. intros i Hi. apply Eval in Hi as (v & _ & Hi).
      unfold floored. rewrite length_map.
      replace (List.length class_counts) with (List.length remainder)
        by (unfold remainder; now rewrite length_map).
      apply nth_error_Some. congruence.
    + apply Forall2_of_nth with (d := 0) (d' := 0).
      * rewrite increment_length. unfold floored. now rewrite length_map.
      * intros i Hi. rewrite increment_length in Hi. unfold floored in Hi.
        rewrite length_map in Hi.
        etransitivity; [apply increment_le | now apply Hlt].
  - cbn [fst]. split; [lia |].
    apply Forall2_of_nth with (d := 0) (d' := 0).
    + unfold floored. now rewrite length_map.
    + intros i Hi. unfold floored in Hi. rewrite length_map in Hi.
      specialize (Hlt i Hi). lia.
Qed.

(** The second use: as many draws as members remain, so every class gives
    all it has left. *)
Lemma approximate_mode_exhausts (class_counts : list nat) (g : rng) :
  list_sum class_counts <> 0 ->
  fst (Sklearn.approximate_mode class_counts (list_sum class_counts) g)
  = class_counts.
Proof.
  intros Hn. unfold Sklearn.approximate_mode.
  assert (E : map (fun c => c * list_sum class_counts / list_sum class_counts)
                  class_counts = class_counts).
  { transitivity (map (fun c : nat => c) class_counts); [| apply map_id].
    apply map_ext. intros c. now apply Nat.div_mul. }
  rewrite E, Nat.sub_diag. reflexivity.
Qed.

End ModeSpec.

Lemma sizes_fit_remaining (class_indices : list (list nat)) (n_i : list nat) :
  Forall2 le n_i (map (@List.length nat) class_indices) ->
  sizes_fit class_indices n_i
    (map (fun p => fst p - snd p)
         (combine (map (@List.length nat) class_indices) n_i)).
Proof.
  revert n_i. induction class_indices as [| idx cis IH]; intros n_i H;
    inversion H; subst; cbn [map combine fst snd]; constructor.
  - lia.
  - now apply IH.
Qed.

Lemma remaining_sum (counts n_i : list nat) :
  Forall2 le n_i counts ->
  list_sum (map (fun p => fst p - snd p) (combine counts n_i)) + list_sum n_i
  = list_sum counts.
Proof.
  induction 1 as [| n c n_i counts Hle _ IH]; [reflexivity |].
  cbn [combine map fst snd]. rewrite !list_sum_cons. lia.
Qed.

Lemma list_sum_lengths {A} (ls : list (list A)) :
  list_sum (map (@List.length A) ls) = List.length (List.concat ls).
Proof.
  induction ls as [| l ls IH]; [reflexivity |].
  cbn [map List.concat]. now rewrite list_sum_cons, length_app, IH.
Qed.

Lemma fold_min_le (c : nat) (cs : list nat) (x : nat) :
  In x (c :: cs) -> fold_right Nat.min c cs <= x.
Proof.
  induction cs as [| h cs IH]; cbn [fold_right In].
  - intros [<- | []]. lia.
  - intros [<- | [<- | H]].
    + etransitivity; [apply Nat.le_min_r |]. apply IH. now left.
    + apply Nat.le_min_l.
    + etransitivity; [apply Nat.le_min_r |]. apply IH. now right.
Qed.

Lemma fold_min_In (c : nat) (cs : list nat) : In (fold_right Nat.min c cs) (c :: cs).
Proof.
  induction cs as [| h cs IH]; cbn [fold_right]; [now left |].
  destruct (Nat.min_spec h (fold_right Nat.min c cs)) as [[_ ->] | [_ ->]].
  - right. now left.
  - destruct IH as [IH | IH]; [now left | right; now right].
Qed.

Section SplitFacts.
Context {R : Runtime}.

Lemma take_clip_Permutation (idx : list nat) (g : rng) :
  Permutation
    (Sklearn.take_clip idx (fst (Np.permutation_int (List.length idx) g))) idx.
Proof.
  unfold Sklearn.take_clip.
  pose proof (permutation_int_Permutation (List.length idx) g) as P.
  pose proof (permutation_int_range (List.length idx) g) as F.
  destruct (Np.permutation_int (List.length idx) g) as [perm g']. cbn [fst] in *.
  assert (E : map (fun j => Nat.min j (List.length idx - 1)) perm = perm).
  { transitivity (map (fun j : nat => j) perm); [| apply map_id].
    apply map_ext_in. intros j Hj. rewrite Forall_forall in F.
    specialize (F j Hj). lia. }
  rewrite E, (take_Permutation idx P). now rewrite take_all.
Qed.

Lemma firstn_then_rest {A} (p : list A) (n t : nat) :
  n + t = List.length p -> firstn n p ++ firstn t (skipn n p) = p.
Proof.
  intros H. rewrite (firstn_all2 (n := t)) by (rewrite length_skipn; lia).
  apply firstn_skipn.
Qed.

Lemma draw_per_class_Permutation
    (class_indices : list (list nat)) (n_i t_i : list nat) :
  sizes_fit class_indices n_i t_i ->
  forall (train test : list nat) (g : rng),
    let drawn := fst (Sklearn.draw_per_class class_indices n_i t_i train test g) in
    Permutation (fst drawn ++ snd drawn)
                (train ++ test ++ List.concat class_indices).
Proof.
  induction 1 as [| idx cis n n_i t t_i Hfit _ IH]; intros train test g.
  - cbn. now rewrite app_nil_r.
  - cbn [Sklearn.draw_per_class].
    pose proof (take_clip_Permutation idx g) as P.
    destruct (Np.permutation_int (List.length idx) g) as [perm g'].
    cbn [fst] in P. set (p := Sklearn.take_clip idx perm) in *.
    cbv zeta in IH |- *. rewrite IH. cbn [List.concat].
    rewrite <- !app_assoc. apply Permutation_app_head.
    rewrite Permutation_app_swap_app. apply Permutation_app_head.
    rewrite !app_assoc. apply Permutation_app_tail.
    rewrite firstn_then_rest; [exact P |].
    rewrite (Permutation_length P). exact Hfit.
Qed.

(** The index lists yielded by the stratified shuffle split share out all
    positions [0 .. n_samples-1], provided the two sizes add up to
    [n_samples]. *)
Lemma stratified_shuffle_split_partition
    (n_samples : nat) (y : labels) (test_size train_size : Sklearn.size_arg)
    (seed : Z) (train test : list nat) :
  Sklearn.stratified_shuffle_split n_samples y test_size train_size seed
    = Return (train, test) ->
  (forall sizes,
      Sklearn.validate_shuffle_split (Z.of_nat n_samples) test_size train_size (1 # 10)
        = Return sizes ->
      Z.to_nat (fst sizes) + Z.to_nat (snd sizes) = n_samples) ->
  Permutation (train ++ test) (seq 0 n_samples).
Proof.
  unfold Sklearn.stratified_shuffle_split, Sklearn.check_consistent_length, and_then.
  destruct (Nat.eqb_spec n_samples (List.length y)) as [-> | ]; [| discriminate].
  destruct (Sklearn.validate_shuffle_split _ _ _ _) as [sizes | e]; [| discriminate].
  intros H Hsizes. specialize (Hsizes sizes eq_refl).
  set (n_train := Z.to_nat (fst sizes)) in *.
  set (n_test := Z.to_nat (snd sizes)) in *.
  set (classes := Np.uniqueZ y) in *.
  set (class_indices := map (fun c => Np.where_ (Z.eqb c) y) classes) in *.
  assert (Hpart : Permutation (List.concat class_indices) (seq 0 (List.length y))).
  { apply class_indices_partition.
    - apply Z.eqb_spec.
    - apply uniqueZ_NoDup.
    - intros v Hv. now apply uniqueZ_In. }
  assert (Hsum : list_sum (map (@List.length nat) class_indices) = List.length y).
  { now rewrite list_sum_lengths, (Permutation_length Hpart), length_seq. }
  assert (Hk : List.length (map (@List.length nat) class_indices) = List.length classes).
  { unfold class_indices. now rewrite !length_map. }
  set (class_counts := map (@List.length nat) class_indices) in *.
  destruct class_counts as [| c cs] eqn:Ecounts; [discriminate |].
  rewrite <- Ecounts in *.
  destruct (Nat.ltb_spec (fold_right Nat.min c cs) 2) as [| Hmin]; [discriminate |].
  destruct (Nat.ltb_spec n_train (List.length classes)) as [| Htrain]; [discriminate |].
  destruct (Nat.ltb_spec n_test (List.length classes)) as [| Htest]; [discriminate |].
  assert (Hpos : Forall (fun c => 0 < c) class_counts).
  { apply Forall_forall. intros x Hx. rewrite Ecounts in Hx.
    pose proof (@fold_min_le c cs x Hx). lia. }
  assert (Hkpos : 0 < List.length classes).
  { rewrite <- Hk, Ecounts. cbn. lia. }
  pose proof (@approximate_mode_spec R class_counts n_train (RandomState seed) Hpos)
    as Hmode.
  destruct (Sklearn.approximate_mode class_counts n_train (RandomState seed))
    as [n_i g1].
  cbn [fst] in Hmode. destruct Hmode as [Hni Hle]; [lia |].
  pose proof (remaining_sum Hle) as Hrem.
  set (remaining := map (fun p => fst p - snd p) (combine class_counts n_i)) in *.
  assert (Hrest : list_sum remaining = n_test) by lia.
  pose proof (@approximate_mode_exhausts R remaining g1) as Hex.
  rewrite Hrest in Hex.
  destruct (Sklearn.approximate_mode remaining n_test g1) as [t_i g2].
  cbn [fst] in Hex. rewrite Hex in H by lia.
  pose proof (@draw_per_class_Permutation class_indices n_i remaining
                (sizes_fit_remaining class_indices Hle) [] [] g2) as Hdraw.
  destruct (Sklearn.draw_per_class class_indices n_i remaining [] [] g2)
    as [[train0 test0] g3].
  cbn [fst snd app] in Hdraw.
  pose proof (permutation_Permutation train0 g3) as Ptrain.
  destruct (Np.permutation train0 g3) as [train1 g4]. cbn [fst] in Ptrain.
  pose proof (permutation_Permutation test0 g4) as Ptest.
  destruct (Np.permutation test0 g4) as [test1 g5]. cbn [fst] in Ptest.
  injection H as <- <-.
  rewrite Ptrain, Ptest, Hdraw. exact Hpart.
Qed.

End SplitFacts.


(** ** What a computation leaves on disk *)

Section Frame.
Context {R : Runtime}.

Lemma same_files_refl w : same_files w w.
Proof. split; reflexivity. Qed.

Lemma same_files_trans w1 w2 w3 :
  same_files w1 w2 -> same_files w2 w3 -> same_files w1 w3.
Proof. intros [D1 F1] [D2 F2]. split; congruence. Qed.

Lemma no_file_io_ret A (a : A) : no_file_io (ret a).
Proof. intro w. apply same_files_refl. Qed.

Lemma no_file_io_raise A e : no_file_io (@raise _ A e).
Proof. intro w. apply same_files_refl. Qed.

Lemma no_file_io_lift A (o : outcome A) : no_file_io (lift o).
Proof. intro w. apply same_files_refl. Qed.

Lemma no_file_io_logger_info msg : no_file_io (logger_info msg).
Proof. intro w. split; reflexivity. Qed.

Lemma no_file_io_datetime_now : no_file_io datetime_now.
Proof. intro w. split; reflexivity. Qed.

Lemma no_file_io_bind A B (m : M A) (k : A -> M B) :
  no_file_io m -> (forall a, no_file_io (k a)) -> no_file_io (bind m k).
Proof.
  intros Hm Hk w. unfold bind. specialize (Hm w).
  destruct (m w) as [[a | e] w1]; simpl in Hm.
  - eapply same_files_trans; [exact Hm | apply Hk].
  - exact Hm.
Qed.

Lemma no_file_io_make_classification n_samples n_features n_informative n_redundant seed :
  no_file_io (Sklearn.make_classification n_samples n_features n_informative n_redundant seed).
Proof.
  intro w. unfold Sklearn.make_classification.
  repeat match goal with
         | |- context [if ?b then _ else _] => destruct b
         end; try apply same_files_refl.
  destruct seed as [s |]; [apply same_files_refl |].
  destruct (sample_clusters _ _ _ _ _) as [data g]. split; reflexivity.
Qed.

End Frame.

Create HintDb frame.
#[export] Hint Resolve no_file_io_ret no_file_io_raise no_file_io_lift
  no_file_io_logger_info no_file_io_datetime_now
  no_file_io_make_classification : frame.

Ltac frame_step :=
  match goal with
  | |- no_file_io (bind _ _) => apply no_file_io_bind; [| intro]
  | |- no_file_io (let (_, _) := ?p in _) => destruct p
  | |- no_file_io (let '(_, _) := ?p in _) => destruct p
  | |- no_file_io _ => solve [auto with frame]
  end.

Section Stages.
Context {R : Runtime}.

Lemma no_file_io_create_synthetic_data n_samples n_features :
  no_file_io (create_synthetic_data n_samples n_features).
Proof. unfold create_synthetic_data. repeat frame_step. Qed.

Lemma no_file_io_preprocess_data X y : no_file_io (preprocess_data X y).
Proof. unfold preprocess_data. repeat frame_step. Qed.

Lemma no_file_io_train_model X y : no_file_io (train_model X y).
Proof. unfold train_model. repeat frame_step. Qed.

Lemma no_file_io_evaluate_model model X y : no_file_io (evaluate_model model X y).
Proof. unfold evaluate_model. repeat frame_step. Qed.

End Stages.

(** ** The Data Generator *)

Section Generator.
Context {R : Runtime}.

(** The outcome of [create_synthetic_data], read off the checks that
    [make_classification] performs with 15 informative and 5 redundant
    features. *)
Lemma create_synthetic_data_outcome (n_samples n_features : Z) (w : World) :
  fst (create_synthetic_data n_samples n_features w) =
  if (n_samples <? 1)%Z then Raise (InvalidParameterError "n_samples")
  else if (n_features <? 1)%Z then Raise (InvalidParameterError "n_features")
  else if (n_features <? 20)%Z then Raise Sklearn.too_many_features
  else Return (fst (sample_clusters (RandomState 42) n_samples n_features 15 5)).
Proof.
  unfold create_synthetic_data, bind, logger_info, Sklearn.make_classification,
    Sklearn.n_repeated, Sklearn.n_classes, Sklearn.n_clusters_per_class.
  cbn [fst snd].
  destruct (n_samples <? 1)%Z; [reflexivity |].
  destruct (n_features <? 1)%Z; [reflexivity |].
  change (15 <? 1)%Z with false. change (5 <? 0)%Z with false.
  change (2 ^ 15 <? 2 * 2)%Z with false. cbv iota.
  change (15 + 5 + 0)%Z with 20%Z.
  rewrite Z.gtb_ltb.
  destruct (n_features <? 20)%Z; reflexivity.
Qed.

Lemma create_synthetic_data_files (n_samples n_features : Z) (w : World) :
  same_files w (snd (create_synthetic_data n_samples n_features w)).
Proof. apply no_file_io_create_synthetic_data. Qed.

Lemma create_synthetic_data_np_random (n_samples n_features : Z) (w : World) :
  np_random (snd (create_synthetic_data n_samples n_features w)) = np_random w.
Proof.
  unfold create_synthetic_data, bind, logger_info, ret, raise,
    Sklearn.make_classification.
  cbn [fst snd].
  repeat match goal with
         | |- context [if ?b then _ else _] => destruct b
         end; reflexivity.
Qed.

(** C1. Two calls of the Data Generator with the same sample and feature
    counts yield the same sample matrix and the same label vector (or the
    same error), whatever the state of the world they start from: the seed
    is the constant 42, so NumPy's global generator, the clock and the file
    system play no part.  In particular a second call made after the first
    repeats its result, and the global generator is left as it was. *)
Theorem create_synthetic_data_deterministic
    (n_samples n_features : Z) (w1 w2 : World) :
  fst (create_synthetic_data n_samples n_features w1)
  = fst (create_synthetic_data n_samples n_features w2)
  /\ fst (create_synthetic_data n_samples n_features
            (snd (create_synthetic_data n_samples n_features w1)))
     = fst (create_synthetic_data n_samples n_features w1)
  /\ np_random (snd (create_synthetic_data n_samples n_features w1))
     = np_random w1.
Proof.
  split; [| split].
  - now rewrite !create_synthetic_data_outcome.
  - now rewrite !create_synthetic_data_outcome.
  - apply create_synthetic_data_np_random.
Qed.

(** C9. The generator always asks for 15 informative and 5 redundant
    features.  With fewer than 20 features in total it raises (for valid
    counts, the error is the one about informative plus redundant features
    exceeding the total), and it returns only when the feature count is at
    least 20. *)
Theorem create_synthetic_data_needs_20_features
    (n_samples n_features : Z) (w : World) :
  ((n_features < 20)%Z ->
     raises (fst (create_synthetic_data n_samples n_features w)) = true) /\
  ((1 <= n_samples)%Z -> (1 <= n_features < 20)%Z ->
     fst (create_synthetic_data n_samples n_features w)
     = Raise Sklearn.too_many_features) /\
  (returns (fst (create_synthetic_data n_samples n_features w)) = true ->
     (20 <= n_features)%Z).
Proof.
  rewrite create_synthetic_data_outcome.
  destruct (Z.ltb_spec n_samples 1), (Z.ltb_spec n_features 1),
    (Z.ltb_spec n_features 20); cbn; repeat split; intros;
    try reflexivity; try discriminate; lia.
Qed.

(** C4, as the code has it.  A sample count or a feature count that is not
    positive makes the Data Generator raise an exception of the
    [ValueError] family, and the world it leaves has the same directories
    and files as before.  Positive counts are not all accepted: with a
    positive sample count and a positive feature count below 20 the
    generator raises the [ValueError] of the feature budget, again with the
    directories and files untouched.  With the counts the pipeline passes,
    1000 samples and 20 features, it returns. *)
Theorem create_synthetic_data_rejects_non_positive
    (n_samples n_features : Z) (w : World) :
  ((n_samples <= 0)%Z \/ (n_features <= 0)%Z ->
     (exists e, fst (create_synthetic_data n_samples n_features w) = Raise e
                /\ is_ValueError e = true)
     /\ same_files w (snd (create_synthetic_data n_samples n_features w))) /\
  ((0 < n_samples)%Z -> (0 < n_features < 20)%Z ->
     fst (create_synthetic_data n_samples n_features w)
       = Raise Sklearn.too_many_features
     /\ is_ValueError Sklearn.too_many_features = true
     /\ same_files w (snd (create_synthetic_data n_samples n_features w))) /\
  returns (fst (create_synthetic_data 1000 20 w)) = true.
Proof.
  split; [| split].
  - intros H. split; [| apply create_synthetic_data_files].
    rewrite create_synthetic_data_outcome.
    destruct (Z.ltb_spec n_samples 1); [eexists; split; reflexivity |].
    destruct (Z.ltb_spec n_features 1); [eexists; split; reflexivity |].
    lia.
  - intros Hn Hf. split; [| split; [reflexivity | apply create_synthetic_data_files]].
    rewrite create_synthetic_data_outcome.
    destruct (Z.ltb_spec n_samples 1); [lia |].
    destruct (Z.ltb_spec n_features 1); [lia |].
    destruct (Z.ltb_spec n_features 20); [reflexivity | lia].
  - rewrite create_synthetic_data_outcome. reflexivity.
Qed.

End Generator.

(** ** The driver *)

Section Driver.
Context {R : Runtime}.

Lemma no_file_io_stages_before_persistence :
  no_file_io stages_before_persistence.
Proof.
  unfold stages_before_persistence.
  apply no_file_io_bind; [apply no_file_io_create_synthetic_data |].
  intros [X y].
  apply no_file_io_bind; [apply no_file_io_preprocess_data |].
  intros [[[[X_train X_test] y_train] y_test] scaler].
  apply no_file_io_bind; [apply no_file_io_train_model |]. intros model.
  apply no_file_io_bind; [apply no_file_io_evaluate_model |]. intros metrics.
  apply no_file_io_ret.
Qed.

Lemma main_try_raises_early (w : World) e w1 :
  stages_before_persistence w = (Raise e, w1) -> main_try w = (Raise e, w1).
Proof.
  unfold stages_before_persistence, main_try, bind.
  destruct (create_synthetic_data 1000 20 w) as [[[X y] | e0] wa];
    [| intros H; injection H as -> ->; reflexivity].
  destruct (preprocess_data X y wa)
    as [[[[[[X_train X_test] y_train] y_test] scaler] | e0] wb];
    [| intros H; injection H as -> ->; reflexivity].
  destruct (train_model X_train y_train wb) as [[model | e0] wc];
    [| intros H; injection H as -> ->; reflexivity].
  destruct (evaluate_model model X_test y_test wc) as [[metrics | e0] wd];
    [| intros H; injection H as -> ->; reflexivity].
  unfold ret. discriminate.
Qed.

Lemma main_files_when_raised (w : World) e w1 :
  main_try (after_banner w) = (Raise e, w1) ->
  fs_dirs (snd (main w)) = fs_dirs w1 /\ fs_files (snd (main w)) = fs_files w1.
Proof.
  intros H. unfold main, after_banner, logger_info in *.
  cbn [snd] in H. cbv beta iota. rewrite H. split; reflexivity.
Qed.

Lemma exit_status_of_main_try (w : World) :
  fst (run_script w)
  = if returns (fst (main_try (after_banner w))) then 0%Z else 1%Z.
Proof.
  unfold run_script, main, after_banner, logger_info. cbn [snd]. cbv beta iota.
  destruct (main_try _) as [[u | e] w1]; reflexivity.
Qed.

End Driver.

Section DriverTheorems.
Context {R : Runtime}.

(** C10. The generator, the preprocessor, the trainer and the evaluator
    leave the directories and files of the world as they found them,
    whatever their outcome; hence a run of [main] in which one of these four
    stages raises ends with the file system it started with. *)
Theorem only_the_persister_writes :
  (forall n_samples n_features, no_file_io (create_synthetic_data n_samples n_features)) /\
  (forall X y, no_file_io (preprocess_data X y)) /\
  (forall X_train y_train, no_file_io (train_model X_train y_train)) /\
  (forall model X_test y_test, no_file_io (evaluate_model model X_test y_test)) /\
  (forall w, raises (fst (stages_before_persistence (after_banner w))) = true ->
             same_files w (snd (main w))).
Proof.
  repeat split; try (intros; apply no_file_io_create_synthetic_data);
    try (intros; apply no_file_io_preprocess_data);
    try (intros; apply no_file_io_train_model);
    try (intros; apply no_file_io_evaluate_model).
  - pose proof (no_file_io_stages_before_persistence (after_banner w)) as [D _].
    destruct (stages_before_persistence (after_banner w)) as [[r | e] w1] eqn:E;
      [discriminate |].
    apply main_try_raises_early in E.
    apply main_files_when_raised in E as [E _]. rewrite E. exact D.
  - pose proof (no_file_io_stages_before_persistence (after_banner w)) as [_ F].
    destruct (stages_before_persistence (after_banner w)) as [[r | e] w1] eqn:E;
      [discriminate |].
    apply main_try_raises_early in E.
    apply main_files_when_raised in E as [_ E]. rewrite E. exact F.
Qed.

(** C7. Whichever of the five stages raises, the process ends with exit
    status 1: the handler in [main] catches the exception, no stage is
    tried again and no later stage runs.  When all five return, the process
    ends with exit status 0. *)
Theorem main_exit_status (w : World) :
  match create_synthetic_data 1000 20 (after_banner w) with
  | (Raise _, _) => fst (run_script w) = 1%Z
  | (Return (X, y), w1) =>
  match preprocess_data X y w1 with
  | (Raise _, _) => fst (run_script w) = 1%Z
  | (Return (X_train, X_test, y_train, y_test, scaler), w2) =>
  match train_model X_train y_train w2 with
  | (Raise _, _) => fst (run_script w) = 1%Z
  | (Return model, w3) =>
  match evaluate_model model X_test y_test w3 with
  | (Raise _, _) => fst (run_script w) = 1%Z
  | (Return metrics, w4) =>
  match save_model_and_artifacts model scaler metrics default_model_name w4 with
  | (Raise _, _) => fst (run_script w) = 1%Z
  | (Return _, _) => fst (run_script w) = 0%Z
  end end end end end.
Proof.
  rewrite exit_status_of_main_try. unfold main_try, bind.
  destruct (create_synthetic_data 1000 20 (after_banner w))
    as [[[X y] | e] w1]; [| reflexivity].
  destruct (preprocess_data X y w1)
    as [[[[[[X_train X_test] y_train] y_test] scaler] | e] w2]; [| reflexivity].
  destruct (train_model X_train y_train w2) as [[model | e] w3]; [| reflexivity].
  destruct (evaluate_model model X_test y_test w3) as [[metrics | e] w4];
    [| reflexivity].
  destruct (save_model_and_artifacts model scaler metrics default_model_name w4)
    as [[path | e] w5]; reflexivity.
Qed.

End DriverTheorems.

(** ** Paths *)

Section PathFacts.
Local Open Scope string_scope.

Lemma length_append (a b : string) :
  String.length (a ++ b) = String.length a + String.length b.
Proof. induction a as [| c a IH]; simpl; [reflexivity | now rewrite IH]. Qed.

Lemma endswith_sep_append (a b : string) :
  b <> "" -> Path.endswith_sep (a ++ b) = Path.endswith_sep b.
Proof.
  intros Hb. induction a as [| c a IH]; [reflexivity |].
  simpl. rewrite IH. destruct (a ++ b) eqn:E; [| reflexivity].
  destruct a; simpl in E; [contradiction | discriminate].
Qed.

Lemma startswith_sep_append (a b : string) :
  Path.startswith_sep a = false -> Path.startswith_sep b = false ->
  Path.startswith_sep (a ++ b) = false.
Proof. intros Ha Hb. destruct a; simpl in *; assumption. Qed.

Lemma join_relative (a b : string) :
  a <> "" -> Path.endswith_sep a = false -> Path.startswith_sep b = false ->
  Path.join a b = a ++ "/" ++ b.
Proof.
  intros Ha He Hb. unfold Path.join. rewrite Hb, He.
  destruct a; [contradiction | reflexivity].
Qed.

Lemma join_absolute (a b : string) :
  Path.startswith_sep b = true -> Path.join a b = b.
Proof. intros Hb. unfold Path.join. now rewrite Hb. Qed.

(** whatever comes first, [join d "models"] ends in the word [models] *)
Lemma join_models (d : string) :
  Path.join d "models" <> "" /\ Path.endswith_sep (Path.join d "models") = false.
Proof.
  assert (E : Path.join d "models" = d ++ "models"
              \/ Path.join d "models" = d ++ "/models").
  { unfold Path.join. cbn [Path.startswith_sep].
    change (Ascii.eqb "m" Path.sep) with false. cbv iota.
    destruct (_ || _); [now left | now right]. }
  destruct E as [E | E]; rewrite E; split;
    try (destruct d; discriminate);
    now rewrite endswith_sep_append by discriminate.
Qed.

Lemma append_assoc (a b c : string) : (a ++ b) ++ c = a ++ (b ++ c).
Proof. induction a as [| x a IH]; cbn; [reflexivity | now rewrite IH]. Qed.

Lemma list_ascii_of_string_append (a b : string) :
  list_ascii_of_string (a ++ b)
  = (list_ascii_of_string a ++ list_ascii_of_string b)%list.
Proof. induction a as [| x a IH]; cbn; [reflexivity | now rewrite IH]. Qed.

Lemma drop_until_sep_app (l1 l2 : list ascii) :
  existsb (Ascii.eqb Path.sep) l1 = false ->
  Path.drop_until_sep (l1 ++ l2)%list = Path.drop_until_sep l2.
Proof.
  induction l1 as [| c l1 IH]; cbn [existsb app Path.drop_until_sep];
    [reflexivity |].
  intros H. apply orb_false_iff in H as [Hc H].
  rewrite Ascii.eqb_sym, Hc. now apply IH.
Qed.

Lemma existsb_rev {A} (p : A -> bool) (l : list A) :
  existsb p (rev l) = existsb p l.
Proof.
  apply eq_true_iff_eq. rewrite !existsb_exists.
  split; intros (x & Hx & Hp); exists x; (split; [| exact Hp]);
    [now apply in_rev | now apply in_rev in Hx].
Qed.

Lemma endswith_sep_rev (s : string) :
  Path.endswith_sep s
  = match rev (list_ascii_of_string s) with
    | c :: _ => Ascii.eqb c Path.sep
    | [] => false
    end%list.
Proof.
  induction s as [| c s IH]; [reflexivity |].
  cbn [list_ascii_of_string rev].
  destruct s as [| c' s]; [reflexivity |].
  change (Path.endswith_sep (String c (String c' s)))
    with (Path.endswith_sep (String c' s)).
  rewrite IH. cbn [list_ascii_of_string rev].
  destruct (rev (list_ascii_of_string s) ++ [c'])%list eqn:E; [| reflexivity].
  apply app_eq_nil in E as [_ E]. discriminate E.
Qed.

Lemma sep_free_endswith (s : string) :
  sep_free s = true -> Path.endswith_sep s = false.
Proof.
  unfold sep_free. rewrite endswith_sep_rev, <- existsb_rev.
  destruct (rev (list_ascii_of_string s)) as [| c l]; [reflexivity |].
  cbn [existsb]. rewrite Ascii.eqb_sym.
  destruct (Ascii.eqb c Path.sep); [discriminate | reflexivity].
Qed.

(** [dirname] cuts the last component off *)
Lemma dirname_parent (d file : string) :
  d <> "" -> Path.endswith_sep d = false -> sep_free file = true ->
  Path.dirname (d ++ "/" ++ file) = d.
Proof.
  intros Hd He Hf. unfold Path.dirname.
  rewrite !list_ascii_of_string_append, !rev_app_distr.
  change (rev (list_ascii_of_string "/")) with [Path.sep].
  rewrite <- app_assoc, drop_until_sep_app.
  2:{ rewrite existsb_rev. unfold sep_free in Hf.
      now destruct (existsb _ _). }
  cbn [app Path.drop_until_sep]. rewrite Ascii.eqb_refl.
  cbn [Path.drop_seps]. rewrite Ascii.eqb_refl.
  rewrite endswith_sep_rev in He.
  destruct (rev (list_ascii_of_string d)) as [| c l] eqn:E.
  - exfalso. apply Hd. rewrite <- (string_of_list_ascii_of_string d).
    rewrite <- (rev_involutive (list_ascii_of_string d)), E. reflexivity.
  - cbn [Path.drop_seps]. rewrite He, <- E, rev_involutive.
    apply string_of_list_ascii_of_string.
Qed.

(** a bare file name has the empty [dirname], and so has the empty path *)
Lemma dirname_bare (s : string) : sep_free s = true -> Path.dirname s = "".
Proof.
  intros Hf. unfold Path.dirname.
  rewrite <- (app_nil_r (rev (list_ascii_of_string s))), drop_until_sep_app.
  - reflexivity.
  - rewrite existsb_rev. unfold sep_free in Hf. now destruct (existsb _ _).
Qed.

(** a file name without separator is relative, and stays without separator
    when put together from such parts *)
Lemma sep_free_startswith (s : string) :
  sep_free s = true -> Path.startswith_sep s = false.
Proof.
  unfold sep_free. destruct s as [| c s]; [reflexivity |].
  cbn [list_ascii_of_string existsb Path.startswith_sep].
  rewrite Ascii.eqb_sym. now destruct (Ascii.eqb c Path.sep).
Qed.

Lemma sep_free_append (a b : string) :
  sep_free (a ++ b) = sep_free a && sep_free b.
Proof.
  unfold sep_free.
  now rewrite list_ascii_of_string_append, existsb_app, negb_orb.
Qed.

End PathFacts.

(** ** The Persister *)

Section Persister.
Context {R : Runtime}.

Lemma models_dir_relative (f : string) :
  Path.startswith_sep f = false ->
  Path.join models_dir f = (models_dir ++ "/" ++ f)%string.
Proof.
  intros Hf. destruct (join_models (Path.dirname (Path.dirname script_file))).
  now apply join_relative.
Qed.

(** a file name of three characters or more, without separator, joined to
    the models directory names an entry of that directory *)
Lemma join_models_dir_entry (f : string) :
  sep_free f = true -> 2 < String.length f ->
  entry_of models_dir (Path.join models_dir f)
  /\ Path.dirname (Path.join models_dir f) = models_dir.
Proof.
  intros Hf Hlen.
  rewrite models_dir_relative by now apply sep_free_startswith.
  destruct (join_models (Path.dirname (Path.dirname script_file))) as [Hne He].
  split.
  - exists f. split; [reflexivity |]. split; [exact Hf |].
    repeat split; intros ->; cbn in Hlen; lia.
  - now apply dirname_parent.
Qed.

Lemma join_models_dir_length (f : string) :
  exists k, forall g,
      Path.startswith_sep g = Path.startswith_sep f ->
      String.length (Path.join models_dir g) = k + String.length g.
Proof.
  destruct (Path.startswith_sep f) eqn:Hf.
  - exists 0. intros g Hg. now rewrite join_absolute.
  - exists (String.length models_dir + 1). intros g Hg.
    rewrite models_dir_relative by assumption.
    rewrite !length_append. simpl. lia.
Qed.

Lemma startswith_sep_file (name tail : string) :
  Path.startswith_sep tail = false ->
  Path.startswith_sep (name ++ tail)%string = Path.startswith_sep name.
Proof. intros Ht. destruct name; [exact Ht | reflexivity]. Qed.

(** What a returning call of the Persister has done. *)
Lemma save_model_and_artifacts_returns
    model scaler metrics (name : string) (w w' : World) (path : string) :
  save_model_and_artifacts model scaler metrics name w = (Return path, w') ->
  let ts := run_timestamp w in
  path = Path.join models_dir (model_file name ts) /\
  fs_files w' = fs_files w ++
    [ (Path.join models_dir (model_file name ts), Pickle_model model);
      (Path.join models_dir (scaler_file name ts), Pickle_scaler scaler);
      (Path.join models_dir (metrics_file name ts), Json_metrics metrics) ].
Proof.
  unfold save_model_and_artifacts, bind, os_makedirs, datetime_now, logger_info,
    write_file, ret, run_timestamp, model_file, scaler_file, metrics_file.
  intros H.
  repeat (cbn [fs_fault fs_dump_fault fs_files clock_reads fs_dirs log np_random] in H;
          match type of H with
          | context [match fs_fault w ?p with _ => _ end] =>
              destruct (fs_fault w p); [discriminate |]
          | context [match fs_dump_fault w ?p with _ => _ end] =>
              destruct (fs_dump_fault w p); [discriminate |]
          end).
  cbn [fs_fault fs_dump_fault fs_files clock_reads fs_dirs log np_random] in H.
  injection H as <- <-. cbn [fs_files].
  split; [reflexivity |]. now rewrite <- !app_assoc.
Qed.

End Persister.

Section PersisterTheorems.
Context {R : Runtime}.

Lemma artifact_paths_distinct (name ts : string) :
  let model_path := Path.join models_dir (model_file name ts) in
  let scaler_path := Path.join models_dir (scaler_file name ts) in
  let metrics_path := Path.join models_dir (metrics_file name ts) in
  model_path <> scaler_path /\ model_path <> metrics_path
  /\ scaler_path <> metrics_path.
Proof.
  destruct (join_models_dir_length (model_file name ts)) as [k Hk].
  assert (Hm := Hk (model_file name ts) eq_refl).
  assert (Hs := Hk (scaler_file name ts)).
  assert (Ht := Hk (metrics_file name ts)).
  unfold model_file, scaler_file, metrics_file in *.
  rewrite !(startswith_sep_file name) in Hs, Ht by reflexivity.
  specialize (Hs eq_refl). specialize (Ht eq_refl).
  rewrite !length_append in Hm, Hs, Ht. cbn [String.length] in Hm, Hs, Ht.
  cbv zeta. repeat split; intros E; rewrite E in *; lia.
Qed.

(** C6, as the code has it.  A returning call of the Persister appends
    exactly three files to those already written, first the model, then the
    scaler, then the metrics; their names are the model name followed by
    [_], [_scaler_] or [_metrics_], by one and the same timestamp, and by
    the extension; the three paths differ from one another, and the call
    returns the path of the model file.  When the model name does not
    begin with the path separator, each path is the models directory, a
    separator and the file name.  When neither the model name nor the
    timestamp holds a separator, each of the three files is an entry of the
    models directory, which is the directory part of its path. *)
Theorem save_model_and_artifacts_three_files
    model scaler metrics (name : string) (w w' : World) (path : string) :
  save_model_and_artifacts model scaler metrics name w = (Return path, w') ->
  let ts := run_timestamp w in
  let model_path := Path.join models_dir (name ++ "_" ++ ts ++ ".pkl")%string in
  let scaler_path := Path.join models_dir (name ++ "_scaler_" ++ ts ++ ".pkl")%string in
  let metrics_path := Path.join models_dir (name ++ "_metrics_" ++ ts ++ ".json")%string in
  fs_files w' = fs_files w ++ [ (model_path, Pickle_model model);
                                (scaler_path, Pickle_scaler scaler);
                                (metrics_path, Json_metrics metrics) ]
  /\ path = model_path
  /\ (model_path <> scaler_path /\ model_path <> metrics_path
      /\ scaler_path <> metrics_path)
  /\ (Path.startswith_sep name = false ->
      model_path = (models_dir ++ "/" ++ name ++ "_" ++ ts ++ ".pkl")%string
      /\ scaler_path = (models_dir ++ "/" ++ name ++ "_scaler_" ++ ts ++ ".pkl")%string
      /\ metrics_path = (models_dir ++ "/" ++ name ++ "_metrics_" ++ ts ++ ".json")%string)
  /\ (sep_free name = true -> sep_free ts = true ->
      Forall (fun p => entry_of models_dir p /\ Path.dirname p = models_dir)
             [model_path; scaler_path; metrics_path]).
Proof.
  intros H. apply save_model_and_artifacts_returns in H as [Hp Hf].
  cbv zeta in *. unfold model_file, scaler_file, metrics_file in *.
  split; [exact Hf |]. split; [exact Hp |].
  split; [apply (artifact_paths_distinct name (run_timestamp w)) |].
  split.
  - intros Hn.
    repeat split; apply models_dir_relative;
      now rewrite startswith_sep_file.
  - intros Hn Hts.
    repeat constructor; apply join_models_dir_entry;
      rewrite ?sep_free_append, ?length_append, ?Hn, ?Hts;
      try reflexivity; cbn [String.length]; lia.
Qed.

End PersisterTheorems.

(** ** The Evaluator *)

Section Evaluator.
Context {R : Runtime}.









End Evaluator.

(** ** The Preprocessor *)

Section Indices.
Context {R : Runtime}.

Lemma train_test_split_indices (X : matrix) (y : labels) test_size seed stratify :
  Sklearn.train_test_split X y test_size seed stratify
  = (split <~ train_test_indices (n_rows X) (List.length y) test_size seed stratify ;;
     Return (Np.take X (fst split), Np.take X (snd split),
             Np.take y (fst split), Np.take y (snd split))).
Proof.
  unfold Sklearn.train_test_split, train_test_indices, and_then.
  destruct (Sklearn.check_consistent_length _ _); [| reflexivity].
  destruct (Sklearn.validate_shuffle_split _ _ _ _) as [sizes |]; [| reflexivity].
  destruct (Sklearn.stratified_shuffle_split _ _ _ _ _) as [[train test] |];
    reflexivity.
Qed.

Lemma ceil_fifth (z : Z) : Qceiling (0.2 * inject_Z z) = ((z + 4) / 5)%Z.
Proof.
  unfold Qceiling, Qfloor, Qopp, Qmult, inject_Z. cbn [Qnum Qden].
  change (Z.pos (10 * 1)) with 10%Z.
  pose proof (Z.div_mod (- (2 * z)) 10 ltac:(lia)).
  pose proof (Z.mod_pos_bound (- (2 * z)) 10 ltac:(lia)).
  pose proof (Z.div_mod (z + 4) 5 ltac:(lia)).
  pose proof (Z.mod_pos_bound (z + 4) 5 ltac:(lia)).
  lia.
Qed.

(** sizes for [test_size=0.2]: a fifth of the samples, rounded up, is held
    out *)
Lemma validate_fraction (n : nat) :
  Sklearn.validate_shuffle_split (Z.of_nat n) (Sklearn.SizeFloat 0.2)
    Sklearn.SizeNone (1 # 4)
  = if n <=? 1 then Raise (ValueError "The resulting train set will be empty")
    else Return (Z.of_nat (n - (n + 4) / 5), Z.of_nat ((n + 4) / 5)).
Proof.
  unfold Sklearn.validate_shuffle_split.
  change (Sklearn.bad_size (Z.of_nat n) (Sklearn.SizeFloat 0.2)) with false.
  cbn [Sklearn.bad_size]. cbv iota. rewrite ceil_fifth.
  assert (E : ((Z.of_nat n + 4) / 5)%Z = Z.of_nat ((n + 4) / 5)).
  { rewrite Nat2Z.inj_div, Nat2Z.inj_add. reflexivity. }
  rewrite E.
  assert (Hle : (n + 4) / 5 <= n).
  { destruct n; [reflexivity |]. apply Nat.Div0.div_le_upper_bound. lia. }
  replace (Z.of_nat n - Z.of_nat ((n + 4) / 5) + Z.of_nat ((n + 4) / 5)
           >? Z.of_nat n)%Z with false by (symmetry; rewrite Z.gtb_ltb; apply Z.ltb_ge; lia).
  rewrite <- Nat2Z.inj_sub by assumption.
  destruct (Nat.leb_spec n 1) as [H1 | H1].
  - replace (n - (n + 4) / 5) with 0; [reflexivity |].
    destruct n as [| [| n]]; [reflexivity | reflexivity | lia].
  - assert ((n + 4) / 5 < n).
    { apply Nat.Div0.div_lt_upper_bound. lia. }
    destruct (Z.eqb_spec (Z.of_nat (n - (n + 4) / 5)) 0); [lia | reflexivity].
Qed.

Lemma validate_counts (n n_test n_train : Z) (q : Q) :
  (0 < n_test < n)%Z -> (0 < n_train < n)%Z -> (n_train + n_test <= n)%Z ->
  Sklearn.validate_shuffle_split n (Sklearn.SizeInt n_test)
    (Sklearn.SizeInt n_train) q
  = Return (n_train, n_test).
Proof.
  intros Ht Htr Hs. unfold Sklearn.validate_shuffle_split, Sklearn.bad_size.
  replace (n_test >=? n)%Z with false by (symmetry; rewrite Z.geb_leb; apply Z.leb_gt; lia).
  replace (n_test <=? 0)%Z with false by (symmetry; apply Z.leb_gt; lia).
  replace (n_train >=? n)%Z with false by (symmetry; rewrite Z.geb_leb; apply Z.leb_gt; lia).
  replace (n_train <=? 0)%Z with false by (symmetry; apply Z.leb_gt; lia).
  cbn [orb]. cbv iota.
  replace (n_train + n_test >? n)%Z with false by (symmetry; rewrite Z.gtb_ltb; apply Z.ltb_ge; lia).
  replace (n_train =? 0)%Z with false by (symmetry; apply Z.eqb_neq; lia).
  reflexivity.
Qed.

Lemma fifth_bounds (n : nat) :
  2 <= n -> 1 <= (n + 4) / 5 /\ 2 * ((n + 4) / 5) <= n.
Proof.
  intros Hn. pose proof (Nat.div_mod_eq (n + 4) 5).
  pose proof (Nat.mod_upper_bound (n + 4) 5 ltac:(lia)).
  destruct (Nat.eq_dec n 2) as [-> | ]; [cbn; lia |].
  destruct (Nat.eq_dec n 3) as [-> | ]; [cbn; lia |].
  lia.
Qed.

End Indices.

Lemma where_from_count (c : Z) (y : labels) (i : nat) :
  List.length (Np.where_from (Z.eqb c) y i) = count_occ Z.eq_dec y c.
Proof.
  revert i. induction y as [| h y IH]; intros i; [reflexivity |].
  cbn [Np.where_from count_occ].
  destruct (Z.eqb_spec c h) as [Hc | Hc], (Z.eq_dec h c) as [E | E];
    try congruence; cbn [List.length]; now rewrite IH.
Qed.

Section SplitOutcome.
Context {R : Runtime}.

(** once its checks are passed, the stratified split returns *)
Lemma draw_returns (class_counts : list nat) (class_indices : list (list nat))
    (n_train n_test : nat) (g : rng) :
  returns
    (let (n_i, g) := Sklearn.approximate_mode class_counts n_train g in
     let class_counts_remaining :=
       map (fun p => fst p - snd p) (combine class_counts n_i) in
     let (t_i, g) := Sklearn.approximate_mode class_counts_remaining n_test g in
     let '(train, test, g) := Sklearn.draw_per_class class_indices n_i t_i [] [] g in
     let (train, g) := Np.permutation train g in
     let (test, g) := Np.permutation test g in
     Return (train, test)) = true.
Proof.
  destruct (Sklearn.approximate_mode class_counts n_train g) as [n_i g1].
  cbv zeta.
  destruct (Sklearn.approximate_mode
              (map (fun p => fst p - snd p) (combine class_counts n_i)) n_test g1)
    as [t_i g2].
  destruct (Sklearn.draw_per_class class_indices n_i t_i [] [] g2) as [[tr te] g3].
  destruct (Np.permutation tr g3) as [tr' g4].
  destruct (Np.permutation te g4) as [te' g5]. reflexivity.
Qed.

(** When the split with [test_size=0.2], stratified on the labels, returns. *)
Lemma train_test_indices_returns (n : nat) (y : labels) (seed : Z) :
  returns (train_test_indices n (List.length y) (Sklearn.SizeFloat 0.2) seed y) = true
  <-> n = List.length y
      /\ n <> 0
      /\ Forall (fun c => 2 <= count_occ Z.eq_dec y c) y
      /\ List.length (Np.uniqueZ y) <= (n + 4) / 5.
Proof.
  unfold train_test_indices, Sklearn.check_consistent_length, and_then.
  destruct (Nat.eqb_spec n (List.length y)) as [-> | Hne];
    [| split; [discriminate | intros [? _]; contradiction]].
  rewrite validate_fraction.
  destruct (Nat.leb_spec (List.length y) 1) as [H1 | H1].
  { split; [discriminate |]. intros (_ & H0 & HF & _). exfalso.
    destruct y as [| c [| c' y]]; cbn in H0, H1; try lia.
    inversion HF as [| ? ? Hc _]; subst. cbn in Hc.
    destruct (Z.eq_dec c c); [lia | congruence]. }
  cbn [fst snd].
  pose proof (fifth_bounds H1) as [Hb1 Hb2].
  unfold Sklearn.stratified_shuffle_split, Sklearn.check_consistent_length, and_then.
  rewrite Nat.eqb_refl, validate_counts by lia. cbn [fst snd]. rewrite !Nat2Z.id.
  set (classes := Np.uniqueZ y).
  set (class_indices := map (fun c => Np.where_ (Z.eqb c) y) classes).
  assert (Hcount : forall x, In x (map (@List.length nat) class_indices) <->
                             exists c, In c y /\ x = count_occ Z.eq_dec y c).
  { intros x. unfold class_indices. rewrite map_map, in_map_iff. unfold Np.where_.
    split; intros (c & H & H'); exists c.
    - rewrite where_from_count in H. split; [now apply uniqueZ_In | auto].
    - rewrite where_from_count. split; [auto | now apply uniqueZ_In]. }
  assert (Hk : List.length (map (@List.length nat) class_indices) = List.length classes).
  { unfold class_indices. now rewrite !length_map. }
  destruct (map (@List.length nat) class_indices) as [| c cs] eqn:Ecounts.
  { exfalso. destruct y as [| v y]; [cbn in H1; lia |].
    assert (Hin : In v classes) by (apply uniqueZ_In; now left).
    destruct classes; [contradiction | discriminate]. }
  destruct (Nat.ltb_spec (fold_right Nat.min c cs) 2) as [Hmin | Hmin].
  { split; [discriminate |]. intros (_ & _ & HF & _). exfalso.
    destruct (proj1 (Hcount _) (fold_min_In c cs)) as (c0 & Hc0 & E).
    rewrite Forall_forall in HF. specialize (HF c0 Hc0). lia. }
  assert (HF : Forall (fun c => 2 <= count_occ Z.eq_dec y c) y).
  { apply Forall_forall. intros v Hv.
    assert (Hin : In (count_occ Z.eq_dec y v) (c :: cs)) by (apply Hcount; eauto).
    pose proof (fold_min_le Hin). lia. }
  destruct (Nat.ltb_spec (List.length y - (List.length y + 4) / 5)
              (List.length classes)) as [Htr | Htr].
  { split; [discriminate |]. intros (_ & _ & _ & Hle). lia. }
  destruct (Nat.ltb_spec ((List.length y + 4) / 5) (List.length classes))
    as [Hte | Hte].
  { split; [discriminate |]. intros (_ & _ & _ & Hle). lia. }
  rewrite <- Ecounts, draw_returns. split; [| reflexivity].
  intros _. repeat split; try assumption. lia.
Qed.

(** every exception of the split is a [ValueError] *)
Lemma train_test_indices_ValueError n_samples n_labels test_size seed stratify e :
  train_test_indices n_samples n_labels test_size seed stratify = Raise e ->
  is_ValueError e = true.
Proof.
  unfold train_test_indices, Sklearn.check_consistent_length, and_then.
  destruct (n_samples =? n_labels); [| now intros [= <-]].
  destruct (Sklearn.validate_shuffle_split _ _ _ _) as [sizes | e0] eqn:Ev.
  - unfold Sklearn.stratified_shuffle_split, Sklearn.check_consistent_length, and_then.
    destruct (n_samples =? _); [| now intros [= <-]].
    destruct (Sklearn.validate_shuffle_split _ (Sklearn.SizeInt _) _ _)
      as [sizes' | e1] eqn:Ev'.
    + destruct (map _ _) as [| c cs]; [now intros [= <-] |].
      destruct (_ <? 2); [now intros [= <-] |].
      destruct (_ <? _); [now intros [= <-] |].
      destruct (_ <? _); [now intros [= <-] |].
      intros H. pose proof (draw_returns (c :: cs)
        (map (fun c0 => Np.where_ (Z.eqb c0) stratify) (Np.uniqueZ stratify))
        (Z.to_nat (fst sizes')) (Z.to_nat (snd sizes')) (RandomState seed)) as Hr.
      cbv zeta in Hr, H. rewrite H in Hr. discriminate.
    + intros [= <-]. revert Ev'. unfold Sklearn.validate_shuffle_split.
      repeat match goal with
             | |- context [if ?b then _ else _] => destruct b
             end; intros [= <-]; reflexivity.
  - intros [= <-]. revert Ev. unfold Sklearn.validate_shuffle_split.
    repeat match goal with
           | |- context [if ?b then _ else _] => destruct b
           end; intros [= <-]; reflexivity.
Qed.

End SplitOutcome.

Lemma uniqueZ_length (y : list Z) :
  List.length (Np.uniqueZ y) = List.length (nodup Z.eq_dec y).
Proof.
  apply Permutation_length, NoDup_Permutation.
  - apply uniqueZ_NoDup.
  - apply NoDup_nodup.
  - intros c. now rewrite uniqueZ_In, nodup_In.
Qed.

Lemma NoDup_app_not_both {A} (l1 l2 : list A) (x : A) :
  NoDup (l1 ++ l2) -> In x l1 -> In x l2 -> False.
Proof.
  induction l1 as [| h l1 IH]; cbn; [contradiction |].
  intros Hnd [-> | H1] H2; inversion Hnd; subst.
  - match goal with H : ~ In _ _ |- _ => apply H end. apply in_or_app. now right.
  - now apply IH.
Qed.

Section Preprocessor.
Context {R : Runtime}.

(** what a returning call of the Preprocessor has computed *)
Lemma preprocess_data_returns (X : matrix) (y : labels) (w w' : World)
    X_train_scaled X_test_scaled y_train y_test scaler :
  preprocess_data X y w
    = (Return (X_train_scaled, X_test_scaled, y_train, y_test, scaler), w') ->
  exists train test,
    split_of X y = Return (train, test)
    /\ y_train = Np.take y train /\ y_test = Np.take y test
    /\ let X_train := Np.take X train in
       let X_test := Np.take X test in
       let mu := map column_mean (columns X_train) in
       let sigma := map column_scale (columns X_train) in
       X_train_scaled = map (Sklearn.scale_row mu sigma) X_train
       /\ X_test_scaled = map (Sklearn.scale_row mu sigma) X_test
       /\ scaler = {| mean_ := Some mu; scale_ := Some sigma;
                      calls := [Fit X_train; Transform X_train; Transform X_test] |}.
Proof.
  unfold preprocess_data, bind, lift, logger_info, ret, split_of.
  rewrite train_test_split_indices.
  destruct (train_test_indices _ _ _ _ _) as [[train test] | e]; [| discriminate].
  cbn [and_then fst snd].
  unfold Sklearn.fit_transform, Sklearn.fit, Sklearn.transform, and_then.
  destruct (Sklearn.check_array (Np.take X train)); [| discriminate].
  cbn [mean_ scale_ calls Sklearn.new_StandardScaler app].
  match goal with
  | |- context [if ?b then _ else _] => destruct b; [| discriminate]
  end.
  destruct (Sklearn.check_array (Np.take X test)); [| discriminate].
  cbn [mean_ scale_ calls app].
  match goal with
  | |- context [if ?b then _ else _] => destruct b; [| discriminate]
  end.
  intros H. injection H as <- <- <- <- <- _.
  exists train, test. repeat split.
Qed.

Lemma split_of_partition (X : matrix) (y : labels) (train test : list nat) :
  split_of X y = Return (train, test) ->
  Permutation (train ++ test) (seq 0 (n_rows X)) /\ n_rows X = List.length y.
Proof.
  unfold split_of, train_test_indices, Sklearn.check_consistent_length, and_then.
  destruct (Nat.eqb_spec (n_rows X) (List.length y)) as [E | ]; [| discriminate].
  rewrite validate_fraction.
  destruct (Nat.leb_spec (n_rows X) 1) as [| H1]; [discriminate |].
  cbn [fst snd]. intros H. split; [| exact E].
  pose proof (fifth_bounds H1) as [Hb1 Hb2].
  eapply stratified_shuffle_split_partition; [exact H |].
  intros sizes. unfold n_rows in *.
  generalize dependent (List.length X). intros n E H1 Hb1 Hb2 H.
  rewrite validate_counts by lia.
  intros Hs.
  assert (Es : sizes = (Z.of_nat (n - (n + 4) / 5), Z.of_nat ((n + 4) / 5)))
    by congruence.
  rewrite Es. cbv beta iota delta [fst snd]. rewrite !Nat2Z.id. lia.
Qed.

End Preprocessor.

Section PreprocessorTheorems.
Context {R : Runtime}.

Lemma partition_range (train test : list nat) (n : nat) :
  Permutation (train ++ test) (seq 0 n) ->
  Forall (fun i => i < n) train /\ Forall (fun i => i < n) test.
Proof.
  intros P. split; apply Forall_forall; intros i Hi;
    (assert (Hin : In i (seq 0 n))
      by (apply (Permutation_in _ P), in_or_app; auto));
    apply in_seq in Hin; lia.
Qed.

(** C2. When the Preprocessor returns, the training and test subsets were
    obtained from two lists of row positions that together contain every
    position of the sample matrix exactly once: each row went to exactly
    one subset, with its label, and the two subsets put together are the
    original rows (and labels) in another order.  The two matrices handed
    back are these subsets, row for row, standardised with the column
    statistics of the training subset. *)
Theorem train_test_partition (X : matrix) (y : labels) (w w' : World)
    X_train_scaled X_test_scaled y_train y_test scaler :
  preprocess_data X y w
    = (Return (X_train_scaled, X_test_scaled, y_train, y_test, scaler), w') ->
  exists train test : list nat,
    Sklearn.train_test_split X y (Sklearn.SizeFloat 0.2) 42 y
      = Return (Np.take X train, Np.take X test, y_train, y_test)
    /\ X_train_scaled
       = map (Sklearn.scale_row (map column_mean (columns (Np.take X train)))
                                (map column_scale (columns (Np.take X train))))
             (Np.take X train)
    /\ X_test_scaled
       = map (Sklearn.scale_row (map column_mean (columns (Np.take X train)))
                                (map column_scale (columns (Np.take X train))))
             (Np.take X test)
    /\ List.length X_train_scaled = List.length train
    /\ List.length X_test_scaled = List.length test
    /\ Permutation (train ++ test) (seq 0 (n_rows X))
    /\ (forall i, i < n_rows X ->
          (In i train /\ ~ In i test) \/ (In i test /\ ~ In i train))
    /\ Forall2 (fun i r => nth_error X i = Some r) train (Np.take X train)
    /\ Forall2 (fun i r => nth_error X i = Some r) test (Np.take X test)
    /\ Forall2 (fun i l => nth_error y i = Some l) train y_train
    /\ Forall2 (fun i l => nth_error y i = Some l) test y_test
    /\ Permutation (Np.take X train ++ Np.take X test) X
    /\ Permutation (y_train ++ y_test) y.
Proof.
  intros H. apply preprocess_data_returns in H
    as (train & test & Hsplit & -> & -> & Htrain & Htest & _).
  cbv zeta in Htrain, Htest.
  pose proof (split_of_partition _ _ Hsplit) as [P Hlen].
  pose proof (@partition_range train test _ P) as [Ftrain Ftest].
  exists train, test. repeat split.
  - rewrite train_test_split_indices. unfold split_of in Hsplit.
    now rewrite Hsplit.
  - exact Htrain.
  - exact Htest.
  - rewrite Htrain, length_map.
    symmetry. exact (Forall2_length (take_in_range X Ftrain)).
  - rewrite Htest, length_map.
    symmetry. exact (Forall2_length (take_in_range X Ftest)).
  - exact P.
  - intros i Hi.
    assert (Hin : In i (train ++ test)).
    { apply (Permutation_in _ (Permutation_sym P)), in_seq. lia. }
    assert (Hnd : NoDup (train ++ test)).
    { apply (Permutation_NoDup (Permutation_sym P)), seq_NoDup. }
    apply in_app_or in Hin as [Hin | Hin]; [left | right]; split; auto;
      intros Hin'; eapply NoDup_app_not_both; eauto.
  - now apply take_in_range.
  - now apply take_in_range.
  - apply take_in_range. now rewrite <- Hlen.
  - apply take_in_range. now rewrite <- Hlen.
  - rewrite <- take_app, (take_Permutation X P). unfold n_rows.
    now rewrite take_all.
  - rewrite <- take_app, (take_Permutation y P), Hlen. now rewrite take_all.
Qed.

(** C3. When the Preprocessor returns, the scaler it hands back has received
    exactly three calls: one [fit], on the training rows, followed by a
    [transform] of the training rows and a [transform] of the test rows.  Its
    mean and scale are the column statistics of the training rows, and they
    are the same for every other sample matrix with the same labels and
    the same training rows, whatever its test rows contain. *)
Theorem scaler_fit_on_training_rows (X : matrix) (y : labels) (w w' : World)
    X_train_scaled X_test_scaled y_train y_test scaler :
  preprocess_data X y w
    = (Return (X_train_scaled, X_test_scaled, y_train, y_test, scaler), w') ->
  exists train test : list nat,
    split_of X y = Return (train, test)
    /\ calls scaler = [Fit (Np.take X train); Transform (Np.take X train);
                       Transform (Np.take X test)]
    /\ mean_ scaler = Some (map column_mean (columns (Np.take X train)))
    /\ scale_ scaler = Some (map column_scale (columns (Np.take X train)))
    /\ (forall (X2 : matrix) (w2 w2' : World) a b c d scaler2,
          n_rows X2 = n_rows X ->
          Np.take X2 train = Np.take X train ->
          preprocess_data X2 y w2 = (Return (a, b, c, d, scaler2), w2') ->
          mean_ scaler2 = mean_ scaler /\ scale_ scaler2 = scale_ scaler).
Proof.
  intros H. apply preprocess_data_returns in H
    as (train & test & Hsplit & _ & _ & _ & _ & ->).
  exists train, test. cbn [calls mean_ scale_].
  split; [exact Hsplit |]. repeat (split; [reflexivity |]).
  intros X2 w2 w2' a b c d scaler2 Hrows Htake H2.
  apply preprocess_data_returns in H2
    as (train2 & test2 & Hsplit2 & _ & _ & _ & _ & ->).
  unfold split_of in *. rewrite Hrows, Hsplit in Hsplit2.
  injection Hsplit2 as <- <-. cbn [mean_ scale_]. now rewrite Htake.
Qed.

Lemma train_test_split_raises (X : matrix) (y : labels) (w : World) e :
  Sklearn.train_test_split X y (Sklearn.SizeFloat 0.2) 42 y = Raise e ->
  preprocess_data X y w
  = (Raise e, snd (logger_info "Splitting data into train/test sets" w)).
Proof.
  intros H. unfold preprocess_data, bind, lift. now rewrite H.
Qed.

(** C5, as the code has it.  The splitting step of the Preprocessor raises
    exactly when the sample matrix and the label vector differ in length, or
    there is no sample, or some class has fewer than two members, or the
    test share (a fifth of the samples, rounded up) is smaller than the
    number of classes.  What it raises is a [ValueError], which the
    Preprocessor passes on unchanged, without touching any file. *)
Theorem train_test_split_error_conditions (X : matrix) (y : labels) :
  (raises (Sklearn.train_test_split X y (Sklearn.SizeFloat 0.2) 42 y) = true
   <-> n_rows X <> List.length y
       \/ n_rows X = 0
       \/ (exists c, In c y /\ count_occ Z.eq_dec y c < 2)
       \/ (n_rows X + 4) / 5 < List.length (nodup Z.eq_dec y))
  /\ (forall e,
        Sklearn.train_test_split X y (Sklearn.SizeFloat 0.2) 42 y = Raise e ->
        is_ValueError e = true
        /\ forall w, fst (preprocess_data X y w) = Raise e
                     /\ same_files w (snd (preprocess_data X y w))).
Proof.
  split.
  - rewrite train_test_split_indices, <- uniqueZ_length.
    pose proof (train_test_indices_returns (n_rows X) y 42) as Hr.
    unfold raises.
    destruct (train_test_indices (n_rows X) (List.length y) _ 42 y)
      as [[train test] | e]; cbn [and_then returns negb] in *.
    + split; [discriminate |].
      destruct Hr as [Hr _]. destruct (Hr eq_refl) as (Hn & H0 & HF & Hk).
      intros [H | [H | [(c & Hc & H) | H]]]; try contradiction; try lia.
      rewrite Forall_forall in HF. specialize (HF c Hc). lia.
    + split; [intros _ | reflexivity].
      destruct (Nat.eq_dec (n_rows X) (List.length y)) as [Hn | Hn]; [| now left].
      destruct (Nat.eq_dec (n_rows X) 0) as [H0 | H0]; [right; now left |].
      destruct (Forall_Exists_dec (fun c => 2 <= count_occ Z.eq_dec y c)
                  (fun c => le_dec 2 (count_occ Z.eq_dec y c)) y) as [HF | HE].
      * destruct (le_lt_dec (List.length (Np.uniqueZ y)) ((n_rows X + 4) / 5))
          as [Hk | Hk]; [| now repeat right].
        destruct Hr as [_ Hr]. discriminate Hr. auto.
      * right. right. left. apply Exists_exists in HE as (c & Hc & H).
        exists c. split; [assumption | lia].
  - intros e He. split.
    + rewrite train_test_split_indices in He.
      destruct (train_test_indices _ _ _ _ _) as [[train test] | e0] eqn:E;
        [discriminate |].
      injection He as <-. eapply train_test_indices_ValueError, E.
    + intros w. rewrite (train_test_split_raises _ _ w He).
      split; [reflexivity | split; reflexivity].
Qed.

End PreprocessorTheorems.

(** * Further properties *)


(** ** The Persister on a disk that refuses some paths *)

(** case analysis on what the disk does with the paths met so far *)
Ltac fault_cases w :=
  repeat (cbn [fs_fault fs_dump_fault fs_files clock_reads fs_dirs log
               np_random fst snd returns];
          match goal with
          | H : fs_fault w ?p = _ |- context [fs_fault w ?p] => rewrite H
          | H : fs_dump_fault w ?p = _ |- context [fs_dump_fault w ?p] =>
              rewrite H
          | |- context [fs_fault w ?p] => destruct (fs_fault w p) eqn:?
          | |- context [fs_dump_fault w ?p] =>
              destruct (fs_dump_fault w p) eqn:?
          end);
  cbn [fs_fault fs_dump_fault fs_files clock_reads fs_dirs log np_random
       fst snd returns].

Section PersisterFailures.
Context {R : Runtime}.

(** X1. The Persister stops at the first failure and rolls nothing back.
    When the models directory cannot be created it raises that error at
    once and leaves the world as it was (no file, no clock reading, no log
    record).  Otherwise it writes the model, the scaler and the metrics in
    this order and raises the error of the first failure: a file that
    cannot be opened is not created; a file whose dump fails is left on
    disk, incomplete; the files written before stay on disk in both cases.
    It returns the model path when nothing fails. *)
Theorem save_model_and_artifacts_no_rollback
    model scaler metrics (name : string) (w : World) :
  let files := artifacts model scaler metrics name (run_timestamp w) in
  let r := save_model_and_artifacts model scaler metrics name w in
  match fs_fault w models_dir with
  | Some e => r = (Raise e, w)
  | None =>
      fs_files (snd r)
      = fs_files w ++ left_on_disk (fs_fault w) (fs_dump_fault w) files
      /\ partial_write files (left_on_disk (fs_fault w) (fs_dump_fault w) files)
      /\ fst r = match first_failure (fs_fault w) (fs_dump_fault w) files with
                 | Some e => Raise e
                 | None => Return (Path.join models_dir
                                     (model_file name (run_timestamp w)))
                 end
  end.
Proof.
  cbv zeta.
  unfold save_model_and_artifacts, bind, os_makedirs, datetime_now, logger_info,
    write_file, ret, artifacts, run_timestamp, model_file, scaler_file,
    metrics_file.
  destruct (fs_fault w models_dir) eqn:Hdir; [reflexivity |].
  cbn [left_on_disk first_failure].
  fault_cases w;
    (split; [rewrite ?app_nil_r, <- ?app_assoc; reflexivity |]);
    (split; [repeat constructor | reflexivity]).
Qed.

Lemma save_model_and_artifacts_no_directory_run
    model scaler metrics (name : string) (w : World) (e : exception) :
  fs_fault w models_dir = Some e ->
  save_model_and_artifacts model scaler metrics name w = (Raise e, w).
Proof.
  intros Hdir. unfold save_model_and_artifacts, bind, os_makedirs.
  now rewrite Hdir.
Qed.

(** what a call of the Persister does to the directories *)
Lemma save_model_and_artifacts_dirs
    model scaler metrics (name : string) (w : World) :
  fs_fault w models_dir = None ->
  fs_dirs (snd (save_model_and_artifacts model scaler metrics name w))
  = if existsb (String.eqb models_dir) (fs_dirs w) then fs_dirs w
    else fs_dirs w ++ [models_dir].
Proof.
  intros Hdir.
  unfold save_model_and_artifacts, bind, os_makedirs, datetime_now, logger_info,
    write_file, ret.
  rewrite Hdir. fault_cases w; reflexivity.
Qed.

Lemma save_model_and_artifacts_fault
    model scaler metrics (name : string) (w : World) :
  fs_fault (snd (save_model_and_artifacts model scaler metrics name w))
  = fs_fault w.
Proof.
  unfold save_model_and_artifacts, bind, os_makedirs, datetime_now, logger_info,
    write_file, ret.
  destruct (fs_fault w models_dir) eqn:Hdir; [reflexivity |].
  fault_cases w; reflexivity.
Qed.

(** X2. Creating the models directory is idempotent: after a call of the
    Persister that got past the creation, the directory is recorded, and a
    further call, with any arguments, leaves the set of directories as it
    is. *)
Theorem save_model_and_artifacts_makedirs_idempotent
    model scaler metrics (name : string)
    model2 scaler2 metrics2 (name2 : string) (w : World) :
  fs_fault w models_dir = None ->
  let w1 := snd (save_model_and_artifacts model scaler metrics name w) in
  let w2 := snd (save_model_and_artifacts model2 scaler2 metrics2 name2 w1) in
  In models_dir (fs_dirs w1)
  /\ (In models_dir (fs_dirs w) -> fs_dirs w1 = fs_dirs w)
  /\ fs_dirs w2 = fs_dirs w1.
Proof.
  intros Hdir. cbv zeta.
  assert (Hmem : forall l, existsb (String.eqb models_dir) l = true
                           <-> In models_dir l).
  { intros l. rewrite existsb_exists. split.
    - intros (x & Hx & E). apply String.eqb_eq in E. now subst.
    - intros H. exists models_dir. split; [exact H | apply String.eqb_refl]. }
  assert (H1 : In models_dir
                 (fs_dirs (snd (save_model_and_artifacts model scaler metrics
                                  name w)))).
  { rewrite save_model_and_artifacts_dirs by assumption.
    destruct (existsb _ _) eqn:E; [now apply Hmem |].
    apply in_or_app. right. now left. }
  split; [exact H1 |]. split.
  - intros Hin. rewrite save_model_and_artifacts_dirs by assumption.
    apply Hmem in Hin. now rewrite Hin.
  - rewrite save_model_and_artifacts_dirs
      by now rewrite save_model_and_artifacts_fault.
    apply Hmem in H1. now rewrite H1.
Qed.

End PersisterFailures.

(** ** What the stages leave in the log and on the clock *)

Section Frames.
Context {R : Runtime}.

Variable P : World -> World -> Prop.
Hypothesis P_refl : forall w, P w w.
Hypothesis P_trans : forall w1 w2 w3, P w1 w2 -> P w2 w3 -> P w1 w3.

Lemma keeps_ret A (a : A) : keeps P (ret a).
Proof. intro w. apply P_refl. Qed.

Lemma keeps_raise A e : keeps P (@raise _ A e).
Proof. intro w. apply P_refl. Qed.

Lemma keeps_lift A (o : outcome A) : keeps P (lift o).
Proof. intro w. apply P_refl. Qed.

Lemma keeps_bind A B (m : M A) (k : A -> M B) :
  keeps P m -> (forall a, keeps P (k a)) -> keeps P (bind m k).
Proof.
  intros Hm Hk w. unfold bind. specialize (Hm w).
  destruct (m w) as [[a | e] w1]; cbn [snd] in Hm.
  - eapply P_trans; [exact Hm | apply Hk].
  - exact Hm.
Qed.

End Frames.

Section StageFrames.
Context {R : Runtime}.

Lemma logs_info_refl w : logs_info w w.
Proof. exists []. split; [now rewrite app_nil_r | constructor]. Qed.

Lemma logs_info_trans w1 w2 w3 :
  logs_info w1 w2 -> logs_info w2 w3 -> logs_info w1 w3.
Proof.
  intros (l1 & E1 & F1) (l2 & E2 & F2). exists (l1 ++ l2). split.
  - now rewrite E2, E1, app_assoc.
  - now apply Forall_app.
Qed.

Lemma same_on_refl X (f : World -> X) w : same_on f w w.
Proof. reflexivity. Qed.

Lemma same_on_trans X (f : World -> X) w1 w2 w3 :
  same_on f w1 w2 -> same_on f w2 w3 -> same_on f w1 w3.
Proof. unfold same_on. congruence. Qed.

Lemma logs_info_logger_info msg : keeps logs_info (logger_info msg).
Proof. intro w. exists [INFO msg]. split; [reflexivity | now repeat constructor]. Qed.

Lemma logs_info_datetime_now : keeps logs_info datetime_now.
Proof. intro w. exists []. split; [symmetry; apply app_nil_r | constructor]. Qed.

Lemma logs_info_os_makedirs path : keeps logs_info (os_makedirs path).
Proof.
  intro w. unfold os_makedirs.
  destruct (fs_fault w path); exists []; (split; [symmetry; apply app_nil_r | constructor]).
Qed.

Lemma logs_info_write_file path c : keeps logs_info (write_file path c).
Proof.
  intro w. unfold write_file.
  destruct (fs_fault w path); [| destruct (fs_dump_fault w path)];
    exists []; (split; [symmetry; apply app_nil_r | constructor]).
Qed.

Lemma logs_info_make_classification n_samples n_features n_informative n_redundant seed :
  keeps logs_info
    (Sklearn.make_classification n_samples n_features n_informative n_redundant seed).
Proof.
  intro w. unfold Sklearn.make_classification.
  repeat match goal with
         | |- context [if ?b then _ else _] => destruct b
         end; try apply logs_info_refl.
  destruct seed as [s |]; [apply logs_info_refl |].
  destruct (sample_clusters _ _ _ _ _) as [data g].
  exists []. split; [symmetry; apply app_nil_r | constructor].
Qed.

(** a seeded call of the generator owns its random state: it changes no
    component of the world *)
Lemma same_on_make_classification_seeded X (f : World -> X)
    n_samples n_features n_informative n_redundant seed :
  keeps (same_on f)
    (Sklearn.make_classification n_samples n_features n_informative n_redundant
       (Some seed)).
Proof.
  intro w. unfold Sklearn.make_classification.
  repeat match goal with
         | |- context [if ?b then _ else _] => destruct b
         end; reflexivity.
Qed.

End StageFrames.

Ltac logs_info_step :=
  match goal with
  | |- keeps _ (bind _ _) => apply (keeps_bind logs_info_trans); [| intro]
  | |- keeps _ (let (_, _) := ?p in _) => destruct p
  | |- keeps _ (let '(_, _) := ?p in _) => destruct p
  | |- keeps _ (ret _) => apply keeps_ret, logs_info_refl
  | |- keeps _ (raise _) => apply keeps_raise, logs_info_refl
  | |- keeps _ (lift _) => apply keeps_lift, logs_info_refl
  | |- keeps _ (logger_info _) => apply logs_info_logger_info
  | |- keeps _ datetime_now => apply logs_info_datetime_now
  | |- keeps _ (os_makedirs _) => apply logs_info_os_makedirs
  | |- keeps _ (write_file _ _) => apply logs_info_write_file
  | |- keeps _ (Sklearn.make_classification _ _ _ _ _) =>
      apply logs_info_make_classification
  end.

Ltac same_on_step :=
  match goal with
  | |- keeps _ (bind _ _) => apply (keeps_bind (@same_on_trans _ _ _)); [| intro]
  | |- keeps _ (let (_, _) := ?p in _) => destruct p
  | |- keeps _ (let '(_, _) := ?p in _) => destruct p
  | |- keeps _ (ret _) => apply keeps_ret, same_on_refl
  | |- keeps _ (raise _) => apply keeps_raise, same_on_refl
  | |- keeps _ (lift _) => apply keeps_lift, same_on_refl
  | |- keeps _ (logger_info _) => intro; reflexivity
  | |- keeps _ datetime_now => intro; reflexivity
  | |- keeps _ (os_makedirs _) =>
      let w := fresh "w" in
      intro w; unfold os_makedirs; destruct (fs_fault w _); reflexivity
  | |- keeps _ (write_file _ _) =>
      let w := fresh "w" in
      intro w; unfold write_file; destruct (fs_fault w _);
      [| destruct (fs_dump_fault w _)]; reflexivity
  | |- keeps _ (Sklearn.make_classification _ _ _ _ (Some _)) =>
      apply same_on_make_classification_seeded
  end.

Ltac logs_info_tac := repeat logs_info_step.
Ltac same_on_tac := repeat same_on_step.

Section StageLogs.
Context {R : Runtime}.

Lemma logs_info_create_synthetic_data n_samples n_features :
  keeps logs_info (create_synthetic_data n_samples n_features).
Proof. unfold create_synthetic_data. logs_info_tac. Qed.

Lemma logs_info_preprocess_data X y : keeps logs_info (preprocess_data X y).
Proof. unfold preprocess_data. logs_info_tac. Qed.

Lemma logs_info_train_model X y : keeps logs_info (train_model X y).
Proof. unfold train_model. logs_info_tac. Qed.

Lemma logs_info_evaluate_model model X y : keeps logs_info (evaluate_model model X y).
Proof. unfold evaluate_model. logs_info_tac. Qed.

Lemma logs_info_save_model_and_artifacts model scaler metrics name :
  keeps logs_info (save_model_and_artifacts model scaler metrics name).
Proof. unfold save_model_and_artifacts. logs_info_tac. Qed.

Lemma logs_info_main_try : keeps logs_info main_try.
Proof.
  unfold main_try.
  apply (keeps_bind logs_info_trans);
    [apply logs_info_create_synthetic_data |]. intros [X y].
  apply (keeps_bind logs_info_trans);
    [apply logs_info_preprocess_data |].
  intros [[[[X_train X_test] y_train] y_test] scaler].
  apply (keeps_bind logs_info_trans);
    [apply logs_info_train_model |]. intros model.
  apply (keeps_bind logs_info_trans);
    [apply logs_info_evaluate_model |]. intros metrics.
  apply (keeps_bind logs_info_trans);
    [apply logs_info_save_model_and_artifacts |]. intros path.
  logs_info_tac.
Qed.

Lemma same_clock_create_synthetic_data n_samples n_features :
  keeps (same_on clock_reads) (create_synthetic_data n_samples n_features).
Proof. unfold create_synthetic_data. same_on_tac. Qed.

Lemma same_clock_preprocess_data X y :
  keeps (same_on clock_reads) (preprocess_data X y).
Proof. unfold preprocess_data. same_on_tac. Qed.

Lemma same_clock_train_model X y :
  keeps (same_on clock_reads) (train_model X y).
Proof. unfold train_model. same_on_tac. Qed.

Lemma same_rng_main_try : keeps (same_on np_random) main_try.
Proof. unfold main_try, create_synthetic_data, preprocess_data, train_model,
         evaluate_model, save_model_and_artifacts. same_on_tac. Qed.

(** X3. Error-level logging is the driver's alone.  When the [try] suite
    of [main] returns, the run exits with status 0 and has appended [INFO]
    records only.  When the suite raises an exception [e], the run exits
    with status 1 and has appended [INFO] records followed by exactly one
    [ERROR] record, the last of the log, which carries the text of that
    very exception [e]. *)
Theorem main_logs_the_failure (w : World) :
  exists infos : list log_record,
    all_info infos
    /\ match fst (main_try (after_banner w)) with
       | Return _ =>
           fst (run_script w) = 0%Z
           /\ log (snd (run_script w)) = log w ++ infos
       | Raise e =>
           fst (run_script w) = 1%Z
           /\ log (snd (run_script w))
              = log w ++ infos
                ++ [ERROR ("Training pipeline failed: " ++ str_exception e)]
       end.
Proof.
  destruct (logs_info_main_try (after_banner w)) as (l & El & Fl).
  exists (INFO "Starting ML training pipeline" :: l).
  split; [constructor; [exact I | exact Fl] |].
  unfold run_script, main, after_banner, logger_info, logger_error in *.
  cbn [snd log] in *. cbv beta iota.
  destruct (main_try _) as [[u | e] w1]; cbn [fst snd log exit_status] in *.
  - split; [reflexivity |]. rewrite El, <- app_assoc. reflexivity.
  - split; [reflexivity |].
    rewrite El, <- !app_assoc. reflexivity.
Qed.

End StageLogs.

(** ** A whole run *)

Section WholeRun.
Context {R : Runtime}.

Lemma left_on_disk_partial_write open_fault dump_fault
    (files : list (string * content)) :
  partial_write files (left_on_disk open_fault dump_fault files).
Proof.
  induction files as [| [path c] files IH]; cbn [left_on_disk];
    [constructor |].
  destruct (open_fault path); [constructor |].
  destruct (dump_fault path); [constructor |].
  now constructor.
Qed.

Lemma first_failure_None open_fault dump_fault
    (files : list (string * content)) :
  forallb (fun f => complete (snd f)) files = true ->
  (first_failure open_fault dump_fault files = None
   <-> left_on_disk open_fault dump_fault files = files).
Proof.
  induction files as [| [path c] files IH]; cbn [first_failure left_on_disk
    forallb snd]; [tauto |].
  intros Hc. apply andb_true_iff in Hc as [Hc Hcs].
  destruct (open_fault path); [split; discriminate |].
  destruct (dump_fault path).
  - split; [discriminate |]. intros [= E _]. rewrite <- E in Hc. discriminate Hc.
  - rewrite (IH Hcs). split; [now intros -> | now intros [= ->]].
Qed.

(** among the partial writes of complete files, the whole sequence is the
    one of full length without an incomplete file *)
Lemma partial_write_whole (files written : list (string * content)) :
  forallb (fun f => complete (snd f)) files = true ->
  partial_write files written ->
  (written = files
   <-> List.length written = List.length files
       /\ forallb (fun f => complete (snd f)) written = true).
Proof.
  intros Hc Hp. induction Hp as [files | path c files | path c files written Hp IH].
  - destruct files; [tauto |]. split; [discriminate | intros [E _]; discriminate E].
  - split.
    + intros [= E _]. cbn [forallb snd] in Hc. rewrite <- E in Hc.
      discriminate Hc.
    + intros [_ E]. discriminate E.
  - cbn [forallb snd List.length] in *. apply andb_true_iff in Hc as [Hc Hcs].
    rewrite Hc. cbn [andb]. specialize (IH Hcs). split.
    + intros [= ->]. split; [reflexivity | now apply IH].
    + intros [El Ef]. f_equal. apply IH. split; [lia | exact Ef].
Qed.

(** what the Persister does on a disk that lets the directory be created *)
Lemma save_model_and_artifacts_run
    model scaler metrics (name : string) (w : World) :
  fs_fault w models_dir = None ->
  let files := artifacts model scaler metrics name (run_timestamp w) in
  let r := save_model_and_artifacts model scaler metrics name w in
  fs_files (snd r)
  = fs_files w ++ left_on_disk (fs_fault w) (fs_dump_fault w) files
  /\ (returns (fst r) = true
      <-> first_failure (fs_fault w) (fs_dump_fault w) files = None).
Proof.
  intros Hdir. cbv zeta.
  unfold save_model_and_artifacts, bind, os_makedirs, datetime_now, logger_info,
    write_file, ret, artifacts, run_timestamp, model_file, scaler_file,
    metrics_file.
  rewrite Hdir. cbn [left_on_disk first_failure].
  fault_cases w;
    (split; [rewrite ?app_nil_r, <- ?app_assoc; reflexivity
            | split; (reflexivity || discriminate)]).
Qed.

(** the try suite of [main], seen as the four stages followed by the
    Persister and three log records *)
Lemma main_try_after_stages (w : World) :
  main_try w
  = match stages_before_persistence w with
    | (Raise e, w1) => (Raise e, w1)
    | (Return (model, scaler, metrics), w1) =>
        (model_path <- save_model_and_artifacts model scaler metrics
                         default_model_name ;;
         logger_info "Training pipeline completed successfully!" ;;;
         logger_info ("Model saved to: " ++ model_path) ;;;
         logger_info ("Final accuracy: " ++ str_score (accuracy metrics))) w1
    end.
Proof.
  unfold main_try, stages_before_persistence, bind.
  destruct (create_synthetic_data 1000 20 w) as [[[X y] | e] w1]; [| reflexivity].
  destruct (preprocess_data X y w1)
    as [[[[[[X_train X_test] y_train] y_test] scaler] | e] w2]; [| reflexivity].
  destruct (train_model X_train y_train w2) as [[model | e] w3]; [| reflexivity].
  destruct (evaluate_model model X_test y_test w3) as [[metrics | e] w4];
    reflexivity.
Qed.

(** the disk after a run, in terms of the disk after the Persister *)
Lemma run_script_after_stages (w : World) :
  match stages_before_persistence (after_banner w) with
  | (Raise _, w1) =>
      fst (run_script w) = 1%Z /\ fs_files (snd (run_script w)) = fs_files w1
  | (Return (model, scaler, metrics), w1) =>
      let r := save_model_and_artifacts model scaler metrics
                 default_model_name w1 in
      fst (run_script w) = (if returns (fst r) then 0%Z else 1%Z)
      /\ fs_files (snd (run_script w)) = fs_files (snd r)
      /\ clock_reads (snd (run_script w)) = clock_reads (snd r)
  end.
Proof.
  unfold run_script, main. fold (after_banner w).
  change (logger_info "Starting ML training pipeline" w)
    with (Return tt, after_banner w). cbv beta iota.
  rewrite main_try_after_stages.
  destruct (stages_before_persistence (after_banner w))
    as [[[[model scaler] metrics] | e] w1]; [| split; reflexivity].
  cbv zeta. unfold bind.
  destruct (save_model_and_artifacts model scaler metrics default_model_name w1)
    as [[path | e] w2]; repeat split.
Qed.

Lemma stages_before_persistence_files (w : World) :
  fs_files (snd (stages_before_persistence (after_banner w))) = fs_files w.
Proof.
  destruct (no_file_io_stages_before_persistence (after_banner w)) as [_ F].
  rewrite F. reflexivity.
Qed.

(** X4. What a run leaves on disk.  A run of [main] appends nothing when
    one of the four stages before the Persister raises.  Otherwise it
    appends artifacts of the model, the scaler and the metrics that these
    stages returned, in this order, under one timestamp: the first ones of
    the three, complete, and then possibly the next one, incomplete (a dump
    that failed).
    It exits with status 0 exactly when it has appended all three,
    complete. *)
Theorem main_writes_three_files_or_fails (w : World) :
  exists written : list (string * content),
    fs_files (snd (run_script w)) = fs_files w ++ written
    /\ (fst (run_script w) = 0%Z
        <-> List.length written = 3
            /\ forallb (fun f => complete (snd f)) written = true)
    /\ match fst (stages_before_persistence (after_banner w)) with
       | Raise _ => written = []
       | Return (model, scaler, metrics) =>
           exists ts : string,
             partial_write
               (artifacts model scaler metrics default_model_name ts) written
       end.
Proof.
  pose proof (run_script_after_stages w) as H.
  pose proof (stages_before_persistence_files w) as Hw.
  destruct (stages_before_persistence (after_banner w))
    as [[[[model scaler] metrics] | e] w1]; cbn [fst snd] in Hw |- *.
  - cbv zeta in H. destruct H as (Hexit & Hfiles & _).
    destruct (fs_fault w1 models_dir) as [e |] eqn:Hdir.
    + rewrite (save_model_and_artifacts_no_directory_run _ _ _ _ _ Hdir) in *.
      exists []. cbn [fst snd returns List.length] in *.
      rewrite app_nil_r, Hfiles, Hexit, Hw.
      split; [reflexivity |]. split.
      * split; [discriminate | intros [E _]; discriminate E].
      * exists "". constructor.
    + destruct (save_model_and_artifacts_run model scaler metrics
                  default_model_name _ Hdir) as [Hsave Hret].
      set (files := artifacts model scaler metrics default_model_name
                      (run_timestamp w1)) in *.
      assert (Hc : forallb (fun f => complete (snd f)) files = true)
        by reflexivity.
      pose proof (left_on_disk_partial_write (fs_fault w1) (fs_dump_fault w1)
                    files) as Hp.
      pose proof (partial_write_whole Hc Hp) as Hwhole.
      change (List.length files) with 3 in Hwhole.
      rewrite (first_failure_None _ _ _ Hc) in Hret.
      exists (left_on_disk (fs_fault w1) (fs_dump_fault w1) files).
      rewrite Hfiles, Hsave, Hw, Hexit.
      split; [reflexivity |]. split; [| exists (run_timestamp w1); exact Hp].
      rewrite <- Hwhole, <- Hret.
      destruct (returns _); split; intros E; try reflexivity; discriminate E.
  - destruct H as [Hexit Hfiles]. exists [].
    rewrite app_nil_r, Hfiles, Hw, Hexit. cbn [List.length].
    split; [reflexivity |]. split; [| reflexivity].
    split; [discriminate | intros [E _]; discriminate E].
Qed.

End WholeRun.

(** ** Clock readings and the global generator *)

Section Provenance.
Context {R : Runtime}.

Lemma evaluate_model_clock model X_test y_test (w w' : World) metrics :
  evaluate_model model X_test y_test w = (Return metrics, w') ->
  clock_reads w' = S (clock_reads w)
  /\ timestamp metrics = isoformat (wall_clock (clock_reads w)).
Proof.
  unfold evaluate_model, bind, lift, logger_info, datetime_now, ret.
  destruct (Sklearn.predict model X_test) as [y_pred | e]; [| discriminate].
  destruct (Sklearn.accuracy_score y_test y_pred) as [a | e]; [| discriminate].
  cbn [clock_reads]. intros [= <- <-]. split; reflexivity.
Qed.

(** the metrics of a run carry the first clock reading after the start *)
Lemma stages_before_persistence_clock (w w' : World) model scaler metrics :
  stages_before_persistence w = (Return (model, scaler, metrics), w') ->
  clock_reads w' = S (clock_reads w)
  /\ timestamp metrics = isoformat (wall_clock (clock_reads w)).
Proof.
  unfold stages_before_persistence, bind.
  pose proof (same_clock_create_synthetic_data 1000 20 w) as H1.
  destruct (create_synthetic_data 1000 20 w) as [[[X y] | e] w1]; [| discriminate].
  pose proof (same_clock_preprocess_data X y w1) as H2.
  destruct (preprocess_data X y w1)
    as [[[[[[X_train X_test] y_train] y_test] scaler0] | e] w2]; [| discriminate].
  pose proof (same_clock_train_model X_train y_train w2) as H3.
  destruct (train_model X_train y_train w2) as [[model0 | e] w3]; [| discriminate].
  destruct (evaluate_model model0 X_test y_test w3) as [[metrics0 | e] w4] eqn:E4;
    [| discriminate].
  apply evaluate_model_clock in E4. destruct E4 as [E4 Et].
  unfold ret. intros [= <- <- <- <-].
  unfold same_on in *. cbn [snd] in *. rewrite E4, Et, H3, H2, H1.
  split; reflexivity.
Qed.

Lemma save_model_and_artifacts_clock model scaler metrics name (w : World) :
  fs_fault w models_dir = None ->
  clock_reads (snd (save_model_and_artifacts model scaler metrics name w))
  = S (clock_reads w).
Proof.
  intros Hdir.
  unfold save_model_and_artifacts, bind, os_makedirs, datetime_now, logger_info,
    write_file, ret.
  rewrite Hdir. fault_cases w; reflexivity.
Qed.

(** X5. A run of [main] that exits with status 0 has read the clock exactly
    twice.  The first reading is the timestamp stored in the metrics; the
    second one names the three files.  The files appended to the disk are
    the three artifacts of the model, the scaler and the metrics that the
    four stages before the Persister returned, and nothing else. *)
Theorem main_success_provenance (w : World) :
  fst (run_script w) = 0%Z ->
  exists model scaler metrics,
    fst (stages_before_persistence (after_banner w))
      = Return (model, scaler, metrics)
    /\ timestamp metrics = isoformat (wall_clock (clock_reads w))
    /\ fs_files (snd (run_script w))
       = fs_files w
         ++ artifacts model scaler metrics default_model_name
              (strftime (wall_clock (S (clock_reads w))) "%Y%m%d_%H%M%S")
    /\ clock_reads (snd (run_script w)) = 2 + clock_reads w.
Proof.
  intros Hexit.
  pose proof (run_script_after_stages w) as H.
  pose proof (stages_before_persistence_files w) as Hw.
  destruct (stages_before_persistence (after_banner w))
    as [[[[model scaler] metrics] | e] w1] eqn:Es; cbn [snd] in Hw.
  - apply stages_before_persistence_clock in Es. destruct Es as [Ec Et].
    change (clock_reads (after_banner w)) with (clock_reads w) in Ec, Et.
    cbv zeta in H. destruct H as (Hx & Hfiles & Hclock).
    exists model, scaler, metrics.
    split; [reflexivity |]. split; [exact Et |].
    destruct (fs_fault w1 models_dir) as [e |] eqn:Hdir.
    + rewrite (save_model_and_artifacts_no_directory_run _ _ _ _ _ Hdir) in Hx.
      cbn [fst returns] in Hx. rewrite Hx in Hexit. discriminate Hexit.
    + destruct (save_model_and_artifacts_run model scaler metrics
                  default_model_name _ Hdir) as [Hsave Hret].
      destruct (returns _); [| rewrite Hx in Hexit; discriminate Hexit].
      rewrite first_failure_None in Hret by reflexivity.
      rewrite Hfiles, Hsave, Hclock, (save_model_and_artifacts_clock _ _ _ _ _ Hdir).
      rewrite (proj1 Hret eq_refl), Hw. unfold run_timestamp. rewrite Ec.
      split; reflexivity.
  - destruct H as [Hx _]. rewrite Hx in Hexit. discriminate Hexit.
Qed.

(** X6. All the randomness of a run is seeded: whatever the outcome, a run
    of [main] leaves NumPy's global generator in the state in which it
    found it. *)
Theorem main_leaves_global_generator (w : World) :
  np_random (snd (run_script w)) = np_random w.
Proof.
  pose proof (same_rng_main_try (after_banner w)) as H. unfold same_on in H.
  unfold run_script, main. fold (after_banner w).
  change (logger_info "Starting ML training pipeline" w)
    with (Return tt, after_banner w). cbv beta iota.
  destruct (main_try (after_banner w)) as [[u | e] w1]; cbn [snd] in *;
    unfold logger_error; cbn [snd np_random]; exact H.
Qed.

End Provenance.

(** ** Stratification *)

Section Strata.
Context {R : Runtime}.

Lemma drawn_for_cons c c0 classes n n_i :
  drawn_for c (c0 :: classes) (n :: n_i)
  = (if Z.eqb c0 c then n else 0) + drawn_for c classes n_i.
Proof. reflexivity. Qed.

Lemma drawn_for_notin c classes n_i :
  ~ In c classes -> drawn_for c classes n_i = 0.
Proof.
  revert n_i. induction classes as [| c0 classes IH]; intros [| n n_i] H;
    try reflexivity.
  rewrite drawn_for_cons, IH by (intros H'; apply H; now right).
  destruct (Z.eqb_spec c0 c) as [-> | ]; [exfalso; apply H; now left | reflexivity].
Qed.

Lemma drawn_for_select (P : Z -> nat -> Prop) c classes n_i :
  NoDup classes -> In c classes -> Forall2 P classes n_i ->
  P c (drawn_for c classes n_i).
Proof.
  intros Hnd Hin HF. induction HF as [| c0 n classes n_i Hc0 HF IH];
    [contradiction |].
  inversion Hnd as [| ? ? Hnotin Hnd']; subst. rewrite drawn_for_cons.
  destruct (Z.eqb_spec c0 c) as [-> | Hne].
  - now rewrite drawn_for_notin, Nat.add_0_r.
  - destruct Hin as [-> | Hin]; [contradiction |]. now apply IH.
Qed.

Lemma Forall2_map_left {A B C} (P : B -> C -> Prop) (f : A -> B) l l' :
  Forall2 P (map f l) l' <-> Forall2 (fun a c => P (f a) c) l l'.
Proof.
  revert l'. induction l as [| a l IH]; intros l'; cbn.
  - split; intros H; inversion H; constructor.
  - split; intros H; inversion H; subst; constructor; try assumption;
      now apply IH.
Qed.

(** [_approximate_mode] stays within one of the exact proportional share *)
Lemma approximate_mode_near (class_counts : list nat) (n_draws : nat) (g : rng) :
  let total := list_sum class_counts in
  Forall2 (fun c m => c * n_draws / total <= m <= S (c * n_draws / total))
    class_counts (fst (Sklearn.approximate_mode class_counts n_draws g)).
Proof.
  cbv zeta. unfold Sklearn.approximate_mode.
  set (n := list_sum class_counts).
  set (floored := map (fun c => c * n_draws / n) class_counts).
  set (remainder := map (fun c => (c * n_draws) mod n) class_counts).
  assert (Hfl : List.length floored = List.length class_counts)
    by (unfold floored; now rewrite length_map).
  destruct (0 <? n_draws - list_sum floored); cbv zeta.
  - destruct (@add_by_remainder_spec R remainder (rev (Np.unique remainder))
                floored (n_draws - list_sum floored) g)
      as (extra & _ & _ & _ & Eres).
    { apply NoDup_rev, unique_NoDup. }
    { unfold floored, remainder. now rewrite !length_map. }
    rewrite Eres.
    apply Forall2_of_nth with (d := 0) (d' := 0).
    + now rewrite increment_length.
    + intros i Hi. rewrite increment_nth by lia.
      unfold floored. rewrite nth_quotient.
      destruct (existsb _ _); lia.
  - cbn [fst]. apply Forall2_of_nth with (d := 0) (d' := 0);
      [now rewrite Hfl |].
    intros i Hi. unfold floored. rewrite nth_quotient. lia.
Qed.

Lemma draw_per_class_length
    (class_indices : list (list nat)) (n_i t_i : list nat) :
  sizes_fit class_indices n_i t_i ->
  forall (train test : list nat) (g : rng),
    let drawn := fst (Sklearn.draw_per_class class_indices n_i t_i train test g) in
    List.length (fst drawn) = List.length train + list_sum n_i
    /\ List.length (snd drawn) = List.length test + list_sum t_i.
Proof.
  induction 1 as [| idx cis n n_i t t_i Hfit _ IH]; intros train test g.
  - cbn. lia.
  - cbn [Sklearn.draw_per_class].
    pose proof (take_clip_Permutation idx g) as P.
    destruct (Np.permutation_int (List.length idx) g) as [perm g'].
    cbn [fst] in P. apply Permutation_length in P.
    set (p := Sklearn.take_clip idx perm) in *.
    cbv zeta in IH |- *.
    destruct (IH (train ++ firstn n p) (test ++ firstn t (skipn n p)) g')
      as [E1 E2].
    rewrite E1, E2, !length_app, !length_firstn, length_skipn, !list_sum_cons.
    lia.
Qed.

Lemma take_constant (y : labels) (v : Z) (l : list nat) :
  Forall (fun i => nth_error y i = Some v) l ->
  Np.take y l = repeat v (List.length l).
Proof.
  induction 1 as [| i l Hi _ IH]; [reflexivity |].
  unfold Np.take in *. cbn [flat_map List.length repeat]. now rewrite Hi, IH.
Qed.

Lemma where_label (y : labels) (c : Z) (i : nat) :
  In i (Np.where_ (Z.eqb c) y) -> nth_error y i = Some c.
Proof.
  unfold Np.where_. rewrite where_from_In. intros (j & v & -> & Hv & E).
  apply Z.eqb_eq in E. now subst.
Qed.

Lemma count_occ_repeat (v c : Z) (n : nat) :
  count_occ Z.eq_dec (repeat v n) c = if Z.eqb v c then n else 0.
Proof.
  destruct (Z.eqb_spec v c) as [-> | Hne].
  - apply count_occ_repeat_eq. reflexivity.
  - apply count_occ_repeat_neq. congruence.
Qed.

(** how many labels [c] each side of the per-class draw holds *)
Lemma draw_per_class_counts (y : labels) (c : Z) (classes : list Z) :
  forall n_i t_i,
    sizes_fit (map (fun c => Np.where_ (Z.eqb c) y) classes) n_i t_i ->
    forall (train test : list nat) (g : rng),
      let drawn :=
        fst (Sklearn.draw_per_class
               (map (fun c => Np.where_ (Z.eqb c) y) classes) n_i t_i
               train test g) in
      count_occ Z.eq_dec (Np.take y (fst drawn)) c
      = count_occ Z.eq_dec (Np.take y train) c + drawn_for c classes n_i.
Proof.
  induction classes as [| c0 classes IH]; intros n_i t_i Hfit train test g.
  - inversion Hfit; subst. cbv zeta. cbn [map Sklearn.draw_per_class fst].
    change (drawn_for c [] []) with 0. lia.
  - cbn [map] in *. inversion Hfit as [| idx cis n n_i' t t_i' Hnt Hfit']; subst.
    cbn [Sklearn.draw_per_class].
    pose proof (take_clip_Permutation (Np.where_ (Z.eqb c0) y) g) as P.
    destruct (Np.permutation_int _ g) as [perm g'].
    cbn [fst] in P. set (p := Sklearn.take_clip _ perm) in *.
    cbv zeta in IH |- *. rewrite (IH _ _ Hfit').
    rewrite take_app, count_occ_app, drawn_for_cons.
    rewrite (@take_constant y c0 (firstn n p)).
    + rewrite count_occ_repeat, length_firstn, (Permutation_length P).
      rewrite Nat.min_l by lia. lia.
    + apply Forall_forall. intros i Hi. apply where_label.
      apply (Permutation_in _ P). eapply in_firstn, Hi.
Qed.

(** the split in which every sample is used: sizes of the two sides, and
    the share of every class on the training side *)
Lemma stratified_shuffle_split_strata
    (n_samples : nat) (y : labels) (test_size train_size : Sklearn.size_arg)
    (seed : Z) (train test : list nat) (sizes : Z * Z) :
  Sklearn.stratified_shuffle_split n_samples y test_size train_size seed
    = Return (train, test) ->
  Sklearn.validate_shuffle_split (Z.of_nat n_samples) test_size train_size (1 # 10)
    = Return sizes ->
  Z.to_nat (fst sizes) + Z.to_nat (snd sizes) = n_samples ->
  let n_train := Z.to_nat (fst sizes) in
  List.length train = n_train
  /\ List.length test = Z.to_nat (snd sizes)
  /\ forall c, In c y ->
       let q := count_occ Z.eq_dec y c * n_train / n_samples in
       q <= count_occ Z.eq_dec (Np.take y train) c <= S q.
Proof.
  unfold Sklearn.stratified_shuffle_split, Sklearn.check_consistent_length, and_then.
  destruct (Nat.eqb_spec n_samples (List.length y)) as [-> | ]; [| discriminate].
  intros H Ev Hsizes. rewrite Ev in H. cbv zeta.
  set (n_train := Z.to_nat (fst sizes)) in *.
  set (n_test := Z.to_nat (snd sizes)) in *.
  set (classes := Np.uniqueZ y) in *.
  set (class_indices := map (fun c => Np.where_ (Z.eqb c) y) classes) in *.
  assert (Hpart : Permutation (List.concat class_indices) (seq 0 (List.length y))).
  { apply class_indices_partition.
    - apply Z.eqb_spec.
    - apply uniqueZ_NoDup.
    - intros v Hv. now apply uniqueZ_In. }
  assert (Hsum : list_sum (map (@List.length nat) class_indices) = List.length y).
  { now rewrite list_sum_lengths, (Permutation_length Hpart), length_seq. }
  assert (Hk : List.length (map (@List.length nat) class_indices) = List.length classes).
  { unfold class_indices. now rewrite !length_map. }
  assert (Hcounts : map (@List.length nat) class_indices
                    = map (count_occ Z.eq_dec y) classes).
  { unfold class_indices. rewrite map_map. apply map_ext. intros c.
    apply where_from_count. }
  set (class_counts := map (@List.length nat) class_indices) in *.
  destruct class_counts as [| c cs] eqn:Ecounts; [discriminate |].
  rewrite <- Ecounts in *.
  destruct (Nat.ltb_spec (fold_right Nat.min c cs) 2) as [| Hmin]; [discriminate |].
  destruct (Nat.ltb_spec n_train (List.length classes)) as [| Htrain]; [discriminate |].
  destruct (Nat.ltb_spec n_test (List.length classes)) as [| Htest]; [discriminate |].
  assert (Hpos : Forall (fun c => 0 < c) class_counts).
  { apply Forall_forall. intros x Hx. rewrite Ecounts in Hx.
    pose proof (@fold_min_le c cs x Hx). lia. }
  assert (Hkpos : 0 < List.length classes).
  { rewrite <- Hk, Ecounts. cbn. lia. }
  pose proof (@approximate_mode_spec R class_counts n_train (RandomState seed) Hpos)
    as Hmode.
  pose proof (@approximate_mode_near class_counts n_train (RandomState seed))
    as Hnear.
  destruct (Sklearn.approximate_mode class_counts n_train (RandomState seed))
    as [n_i g1].
  cbn [fst] in Hmode, Hnear. destruct Hmode as [Hni Hle]; [lia |].
  pose proof (remaining_sum Hle) as Hrem.
  set (remaining := map (fun p => fst p - snd p) (combine class_counts n_i)) in *.
  assert (Hrest : list_sum remaining = n_test) by lia.
  pose proof (@approximate_mode_exhausts R remaining g1) as Hex.
  rewrite Hrest in Hex.
  destruct (Sklearn.approximate_mode remaining n_test g1) as [t_i g2].
  cbn [fst] in Hex. rewrite Hex in H by lia.
  pose proof (sizes_fit_remaining class_indices Hle) as Hfit.
  fold class_counts remaining in Hfit.
  pose proof (@draw_per_class_length class_indices n_i remaining Hfit [] [] g2)
    as Hlen.
  pose proof (fun c => @draw_per_class_counts y c classes n_i remaining Hfit
                         [] [] g2) as Hcnt.
  fold class_indices in Hcnt.
  destruct (Sklearn.draw_per_class class_indices n_i remaining [] [] g2)
    as [[train0 test0] g3].
  cbn [fst snd List.length Nat.add] in Hlen, Hcnt. destruct Hlen as [Ltrain Ltest].
  pose proof (permutation_Permutation train0 g3) as Ptrain.
  destruct (Np.permutation train0 g3) as [train1 g4]. cbn [fst] in Ptrain.
  pose proof (permutation_Permutation test0 g4) as Ptest.
  destruct (Np.permutation test0 g4) as [test1 g5]. cbn [fst] in Ptest.
  injection H as <- <-.
  rewrite (Permutation_length Ptrain), (Permutation_length Ptest).
  split; [lia |]. split; [lia |].
  intros c0 Hc0.
  assert (Hcount : count_occ Z.eq_dec (Np.take y train1) c0
                   = drawn_for c0 classes n_i).
  { specialize (Hcnt c0). change (Np.take y []) with (@nil Z) in Hcnt.
    cbn [count_occ Nat.add] in Hcnt. rewrite <- Hcnt.
    apply (proj1 (Permutation_count_occ Z.eq_dec _ _)).
    apply take_Permutation, Ptrain. }
  rewrite Hcount.
  cbv zeta in Hnear. rewrite Hsum, Hcounts in Hnear.
  apply Forall2_map_left in Hnear.
  assert (Hin : In c0 classes) by now apply uniqueZ_In.
  exact (@drawn_for_select _ c0 classes n_i (uniqueZ_NoDup y) Hin Hnear).
Qed.

End Strata.

(** ** What the Preprocessor accepts, and what it returns *)

Section PreprocessorAcceptance.
Context {R : Runtime}.

Lemma split_of_strata (X : matrix) (y : labels) (train test : list nat) :
  split_of X y = Return (train, test) ->
  let n := List.length y in
  let n_test := (n + 4) / 5 in
  let n_train := n - n_test in
  n_rows X = n /\ 2 <= n
  /\ List.length train = n_train /\ List.length test = n_test
  /\ forall c, In c y ->
       let q := count_occ Z.eq_dec y c * n_train / n in
       q <= count_occ Z.eq_dec (Np.take y train) c <= S q.
Proof.
  unfold split_of, train_test_indices, Sklearn.check_consistent_length, and_then.
  destruct (Nat.eqb_spec (n_rows X) (List.length y)) as [E | ]; [| discriminate].
  rewrite validate_fraction.
  destruct (Nat.leb_spec (n_rows X) 1) as [| H1]; [discriminate |].
  cbn [fst snd]. intros H. cbv zeta. rewrite E in *.
  pose proof (fifth_bounds H1) as [Hb1 Hb2].
  set (n := List.length y) in *.
  assert (Ev : Sklearn.validate_shuffle_split (Z.of_nat n)
                 (Sklearn.SizeInt (Z.of_nat ((n + 4) / 5)))
                 (Sklearn.SizeInt (Z.of_nat (n - (n + 4) / 5))) (1 # 10)
               = Return (Z.of_nat (n - (n + 4) / 5), Z.of_nat ((n + 4) / 5))).
  { apply validate_counts; lia. }
  destruct (stratified_shuffle_split_strata _ _ _ _ H Ev) as (L1 & L2 & Hc).
  { cbn [fst snd]. rewrite !Nat2Z.id. lia. }
  cbn [fst snd] in L1, L2, Hc. rewrite !Nat2Z.id in *.
  repeat split; try assumption; apply Hc; assumption.
Qed.

Lemma take_rows_length {A} (a : list A) (train test : list nat) :
  Permutation (train ++ test) (seq 0 (List.length a)) ->
  List.length (Np.take a train) = List.length train
  /\ List.length (Np.take a test) = List.length test.
Proof.
  intros P. pose proof P as P'. apply partition_range in P'.
  destruct P' as [F1 F2].
  split; now apply take_length.
Qed.

Lemma take_both_sides {A} (a : list A) (train test : list nat) :
  Permutation (train ++ test) (seq 0 (List.length a)) ->
  Permutation (Np.take a train ++ Np.take a test) a.
Proof.
  intros P. rewrite <- take_app.
  rewrite (take_Permutation a P). now rewrite take_all.
Qed.

(** X7. The split is 80/20 with the test side rounded up: of [n] samples,
    [ceil(n / 5)] rows and labels go to the test side and the [n - ceil(n / 5)]
    others to the training side, and scaling changes neither count. *)
Theorem preprocess_data_split_sizes (X : matrix) (y : labels) (w w' : World)
    X_train_scaled X_test_scaled y_train y_test scaler :
  preprocess_data X y w
    = (Return (X_train_scaled, X_test_scaled, y_train, y_test, scaler), w') ->
  let n := List.length y in
  let n_test := (n + 4) / 5 in
  n_rows X = n
  /\ n_rows X_test_scaled = n_test /\ List.length y_test = n_test
  /\ n_rows X_train_scaled = n - n_test /\ List.length y_train = n - n_test
  /\ 1 <= n_test <= n - n_test.
Proof.
  intros H. apply preprocess_data_returns in H.
  destruct H as (train & test & Hs & -> & -> & H). cbv zeta in H.
  destruct H as (-> & -> & _).
  pose proof (split_of_partition _ _ Hs) as [P En].
  destruct (split_of_strata _ _ Hs) as (_ & Hn & L1 & L2 & _).
  cbv zeta. unfold n_rows in *. rewrite !length_map.
  destruct (take_rows_length X _ _ P) as [T1 T2].
  rewrite En in P. destruct (take_rows_length y _ _ P) as [T3 T4].
  rewrite T1, T2, T3, T4, L1, L2.
  pose proof (fifth_bounds Hn). repeat split; try lia; assumption.
Qed.

(** X8. The split is stratified.  For every class [c] with [k] members
    among the [n] labels, the training labels hold the proportional share
    [k * n_train / n] of them rounded down, or one more; the test labels
    hold the others; and no class is missing from the training labels. *)
Theorem preprocess_data_stratified (X : matrix) (y : labels) (w w' : World)
    X_train_scaled X_test_scaled y_train y_test scaler :
  preprocess_data X y w
    = (Return (X_train_scaled, X_test_scaled, y_train, y_test, scaler), w') ->
  let n := List.length y in
  let n_train := n - (n + 4) / 5 in
  forall c, In c y ->
    let k := count_occ Z.eq_dec y c in
    k * n_train / n <= count_occ Z.eq_dec y_train c <= S (k * n_train / n)
    /\ count_occ Z.eq_dec y_train c + count_occ Z.eq_dec y_test c = k
    /\ 1 <= count_occ Z.eq_dec y_train c.
Proof.
  intros H. apply preprocess_data_returns in H.
  destruct H as (train & test & Hs & -> & -> & _).
  pose proof (split_of_partition _ _ Hs) as [P En].
  destruct (split_of_strata _ _ Hs) as (_ & Hn & _ & _ & Hc).
  assert (Hret : returns (split_of X y) = true) by now rewrite Hs.
  unfold split_of in Hret. rewrite En in Hret.
  apply train_test_indices_returns in Hret. destruct Hret as (_ & _ & Hmin & _).
  cbv zeta in *. intros c Hin. specialize (Hc c Hin).
  rewrite Forall_forall in Hmin. specialize (Hmin c Hin).
  rewrite En in P. pose proof (take_both_sides y _ _ P) as Py.
  apply (Permutation_count_occ Z.eq_dec) with (x := c) in Py.
  rewrite count_occ_app in Py.
  split; [exact Hc |]. split; [exact Py |].
  destruct Hc as [Hq _]. etransitivity; [| exact Hq].
  pose proof (fifth_bounds Hn) as [Hb1 Hb2].
  apply Nat.div_le_lower_bound; nia.
Qed.

Lemma columns_length (X : matrix) : List.length (columns X) = n_cols X.
Proof. unfold columns. now rewrite length_map, length_seq. Qed.

(** the outcome of the Preprocessor, as a function of the split *)
Lemma preprocess_data_outcome (X : matrix) (y : labels) (w : World) :
  fst (preprocess_data X y w)
  = (split <~ split_of X y ;;
     let X_train := Np.take X (fst split) in
     let X_test := Np.take X (snd split) in
     let mu := map column_mean (columns X_train) in
     let sigma := map column_scale (columns X_train) in
     _ <~ Sklearn.check_array X_train ;;
     _ <~ Sklearn.check_array X_test ;;
     if n_cols X_test =? n_cols X_train then
       Return (map (Sklearn.scale_row mu sigma) X_train,
               map (Sklearn.scale_row mu sigma) X_test,
               Np.take y (fst split), Np.take y (snd split),
               {| mean_ := Some mu; scale_ := Some sigma;
                  calls := [Fit X_train; Transform X_train; Transform X_test] |})
     else Raise (ValueError "X has a different number of features than StandardScaler is expecting as input.")).
Proof.
  unfold preprocess_data, bind, lift, logger_info, ret. cbn [fst snd].
  rewrite train_test_split_indices. fold (split_of X y).
  destruct (split_of X y) as [[train test] | e]; [| reflexivity].
  cbn [and_then fst snd].
  unfold Sklearn.fit_transform, Sklearn.fit, Sklearn.transform, and_then.
  destruct (Sklearn.check_array (Np.take X train)); [| reflexivity].
  cbn [mean_ scale_ calls Sklearn.new_StandardScaler app].
  rewrite length_map, columns_length, Nat.eqb_refl.
  destruct (Sklearn.check_array (Np.take X test)); [| reflexivity].
  cbn [mean_ scale_ calls app fst snd].
  rewrite length_map, columns_length.
  destruct (n_cols (Np.take X test) =? n_cols (Np.take X train)); reflexivity.
Qed.

Lemma existsb_Permutation {A} (p : A -> bool) (l l' : list A) :
  Permutation l l' -> existsb p l = existsb p l'.
Proof.
  intros P. apply eq_true_iff_eq. rewrite !existsb_exists.
  split; intros (x & Hx & Hp); exists x; split; try assumption.
  - now apply (Permutation_in _ P).
  - now apply (Permutation_in _ (Permutation_sym P)).
Qed.

Lemma n_cols_take (X : matrix) (m : nat) (idx : list nat) :
  Forall (fun r => List.length r = m) X ->
  Np.take X idx <> [] -> n_cols (Np.take X idx) = m.
Proof.
  intros HF Hne. destruct (Np.take X idx) as [| r rows] eqn:E; [contradiction |].
  cbn. rewrite Forall_forall in HF. apply HF.
  apply (@take_incl _ X idx). rewrite E. now left.
Qed.

Lemma check_array_cases (X : matrix) :
  Sklearn.check_array X = Return tt
  <-> existsb (existsb isinf) X = false /\ X <> [] /\ n_cols X <> 0.
Proof.
  unfold Sklearn.check_array, n_rows.
  destruct (existsb (existsb isinf) X).
  { split; [discriminate | intros [? _]; discriminate]. }
  destruct X as [| r X]; cbn [List.length Nat.eqb].
  { split; [discriminate | intros (_ & ? & _); contradiction]. }
  destruct (Nat.eqb_spec (n_cols (r :: X)) 0) as [E | E].
  - split; [discriminate | intros (_ & _ & ?); contradiction].
  - split; [intros _; repeat split; [discriminate | exact E] | reflexivity].
Qed.

Lemma existsb_inf_row (X : matrix) (m : nat) :
  Forall (fun r => List.length r = m) X ->
  existsb (existsb isinf) X = true -> m <> 0.
Proof.
  intros HF H. apply existsb_exists in H as (r & Hr & Hinf).
  rewrite Forall_forall in HF. specialize (HF r Hr).
  destruct r; [discriminate | cbn in HF; lia].
Qed.

(** the two sides of an accepted split of a rectangular matrix *)
Lemma split_sides (X : matrix) (y : labels) (m : nat) (train test : list nat) :
  Forall (fun r => List.length r = m) X ->
  split_of X y = Return (train, test) ->
  Np.take X train <> [] /\ Np.take X test <> []
  /\ n_cols (Np.take X train) = m /\ n_cols (Np.take X test) = m
  /\ existsb (existsb isinf) X
     = existsb (existsb isinf) (Np.take X train)
       || existsb (existsb isinf) (Np.take X test).
Proof.
  intros HF Hs.
  pose proof (split_of_partition _ _ Hs) as [P En].
  destruct (split_of_strata _ _ Hs) as (_ & Hn & L1 & L2 & _).
  cbv zeta in L1, L2. pose proof (fifth_bounds Hn) as [Hb1 Hb2].
  destruct (take_rows_length X _ _ P) as [T1 T2].
  assert (N1 : Np.take X train <> []).
  { intros E. rewrite E in T1. cbn in T1. lia. }
  assert (N2 : Np.take X test <> []).
  { intros E. rewrite E in T2. cbn in T2. lia. }
  repeat split; try assumption; try now apply n_cols_take.
  rewrite <- existsb_app. symmetry. apply existsb_Permutation.
  now apply take_both_sides.
Qed.

(** X9. What the Preprocessor accepts.  For a rectangular sample matrix
    (every row has [m] entries) the Preprocessor returns exactly when the
    labels match the rows, there is at least one sample, every class has at
    least two members, the number of classes is at most the test share
    [ceil(n / 5)], no entry of the matrix is infinite, and there is at
    least one feature. *)
Theorem preprocess_data_accepts (X : matrix) (y : labels) (m : nat) (w : World) :
  Forall (fun r => List.length r = m) X ->
  (returns (fst (preprocess_data X y w)) = true
   <-> n_rows X = List.length y
       /\ y <> []
       /\ (forall c, In c y -> 2 <= count_occ Z.eq_dec y c)
       /\ List.length (nodup Z.eq_dec y) <= (List.length y + 4) / 5
       /\ existsb (existsb isinf) X = false
       /\ m <> 0).
Proof.
  intros HF. rewrite preprocess_data_outcome.
  assert (Hsplit : returns (split_of X y) = true
                   <-> n_rows X = List.length y /\ y <> []
                       /\ (forall c, In c y -> 2 <= count_occ Z.eq_dec y c)
                       /\ List.length (nodup Z.eq_dec y)
                          <= (List.length y + 4) / 5).
  { unfold split_of. rewrite train_test_indices_returns, uniqueZ_length.
    rewrite Forall_forall.
    split.
    - intros (E & Hn & Hmin & Hk). rewrite E in Hk.
      repeat split; try assumption.
      intros ->. apply Hn. rewrite E. reflexivity.
    - intros (E & Hn & Hmin & Hk). rewrite E.
      repeat split; try assumption.
      destruct y; [contradiction | discriminate]. }
  destruct (split_of X y) as [[train test] | e] eqn:Hs; cbn [and_then fst snd].
  - destruct (split_sides y HF Hs) as (N1 & N2 & C1 & C2 & Hinf).
    cbv zeta. rewrite C1, C2, Nat.eqb_refl.
    pose proof (check_array_cases (Np.take X train)) as K1.
    pose proof (check_array_cases (Np.take X test)) as K2.
    rewrite C1 in K1. rewrite C2 in K2. rewrite Hinf.
    destruct (proj1 Hsplit eq_refl) as (S1 & S2 & S3 & S4).
    destruct (Sklearn.check_array (Np.take X train)) as [[] | e1].
    + destruct (proj1 K1 eq_refl) as (I1 & _ & M).
      destruct (Sklearn.check_array (Np.take X test)) as [[] | e2];
        cbn [and_then returns].
      * destruct (proj1 K2 eq_refl) as (I2 & _ & _).
        rewrite I1, I2. split; [intros _ | reflexivity].
        repeat split; assumption.
      * split; [discriminate |]. intros (_ & _ & _ & _ & I & _).
        apply orb_false_iff in I as [_ I2].
        assert (K : @Raise unit e2 = Return tt) by (apply K2; auto).
        discriminate K.
    + cbn [and_then returns]. split; [discriminate |].
      intros (_ & _ & _ & _ & I & M).
      apply orb_false_iff in I as [I1 _].
      assert (K : @Raise unit e1 = Return tt) by (apply K1; auto).
      discriminate K.
  - cbn [returns]. split; [discriminate |].
    intros (S1 & S2 & S3 & S4 & _). cbn [returns] in Hsplit.
    assert (K : false = true) by (apply Hsplit; auto). discriminate K.
Qed.

(** X10. An infinite entry stops the Preprocessor.  When the split of a
    rectangular sample matrix is accepted and some entry of the matrix is
    infinite, whichever side of the split that entry falls on, the
    Preprocessor raises the [ValueError] of the input check, and no scaled
    data comes back. *)
Theorem preprocess_data_rejects_infinity
    (X : matrix) (y : labels) (m : nat) (w : World) :
  Forall (fun r => List.length r = m) X ->
  returns (split_of X y) = true ->
  existsb (existsb isinf) X = true ->
  fst (preprocess_data X y w)
  = Raise (ValueError "Input X contains infinity or a value too large for dtype('float64').").
Proof.
  intros HF Hret Hinf. rewrite preprocess_data_outcome.
  destruct (split_of X y) as [[train test] | e] eqn:Hs; [| discriminate Hret].
  cbn [and_then fst snd]. cbv zeta.
  destruct (split_sides y HF Hs) as (N1 & N2 & C1 & C2 & Hi).
  rewrite Hi in Hinf. pose proof (existsb_inf_row HF) as Hm.
  unfold Sklearn.check_array at 1.
  destruct (existsb (existsb isinf) (Np.take X train)) eqn:I1; [reflexivity |].
  cbn [orb] in Hinf.
  assert (Hm0 : m <> 0) by (apply Hm; rewrite Hi, Hinf; apply orb_true_r).
  unfold n_rows. rewrite C1.
  destruct (Np.take X train) as [| r rows] eqn:E1; [contradiction |].
  cbn [List.length Nat.eqb].
  destruct (Nat.eqb_spec m 0) as [| _]; [contradiction |].
  cbn [and_then]. unfold Sklearn.check_array. now rewrite Hinf.
Qed.

End PreprocessorAcceptance.

(** ** The Trainer and the Evaluator *)

Section TrainerEvaluator.
Context {R : Runtime}.

(** X11. What the Evaluator requires.  Whenever it returns, the model has
    been fitted, the test matrix has at least one row and one column and no
    infinite entry, its column count is the one the forest was fitted on,
    and there is one test label per test row. *)
Theorem evaluate_model_requires model (X_test : matrix) (y_test : labels) (w : World) :
  returns (fst (evaluate_model model X_test y_test w)) = true ->
  exists f,
    estimators_ model = Some f
    /\ existsb (existsb isinf) X_test = false
    /\ X_test <> [] /\ n_cols X_test <> 0
    /\ n_cols X_test = n_features_in f
    /\ List.length y_test = n_rows X_test.
Proof.
  unfold evaluate_model, bind, lift, logger_info, datetime_now, ret.
  cbn [fst snd]. unfold Sklearn.predict.
  destruct (estimators_ model) as [f |]; [| discriminate].
  pose proof (check_array_cases X_test) as K.
  destruct (Sklearn.check_array X_test) as [[] | e]; cbn [and_then];
    [| discriminate].
  destruct (proj1 K eq_refl) as (I & N & C).
  destruct (Nat.eqb_spec (n_cols X_test) (n_features_in f)) as [En | En];
    [| discriminate].
  unfold Sklearn.accuracy_score, Sklearn.check_consistent_length, and_then.
  rewrite length_map. unfold n_rows.
  destruct (Nat.eqb_spec (List.length y_test) (List.length X_test)) as [El | El];
    [| discriminate].
  intros _. exists f. repeat split; assumption.
Qed.

(** a fitted model makes the Evaluator fail with plain [ValueError]s only *)
Lemma evaluate_model_fitted_error model f X_test y_test (w : World) e :
  estimators_ model = Some f ->
  fst (evaluate_model model X_test y_test w) = Raise e ->
  exists msg, e = ValueError msg.
Proof.
  intros Hf. unfold evaluate_model, bind, lift, logger_info, datetime_now, ret.
  cbn [fst snd]. unfold Sklearn.predict. rewrite Hf.
  unfold Sklearn.check_array.
  destruct (existsb (existsb isinf) X_test);
    [cbn [and_then fst]; intros [= <-]; eexists; reflexivity |].
  destruct (n_rows X_test =? 0);
    [cbn [and_then fst]; intros [= <-]; eexists; reflexivity |].
  destruct (n_cols X_test =? 0);
    [cbn [and_then fst]; intros [= <-]; eexists; reflexivity |].
  cbn [and_then].
  destruct (n_cols X_test =? n_features_in f);
    [| cbn [fst]; intros [= <-]; eexists; reflexivity].
  unfold Sklearn.accuracy_score, Sklearn.check_consistent_length, and_then.
  destruct (_ =? _); [| cbn [fst]; intros [= <-]; eexists; reflexivity].
  destruct y_test; discriminate.
Qed.

(** X12. What a call of the Evaluator leaves behind.  It raises
    [NotFittedError] exactly when the model was never fitted.  When it
    returns, it has logged two records, the second of which shows the
    accuracy it returns, and it has read the clock once, for the timestamp
    of the metrics.  When it raises, it has logged the first record only and
    has not read the clock; the exception of a fitted model is a plain
    [ValueError]. *)
Theorem evaluate_model_effects model (X_test : matrix) (y_test : labels) (w : World) :
  let r := evaluate_model model X_test y_test w in
  (fst r = Raise (NotFittedError "RandomForestClassifier")
   <-> estimators_ model = None)
  /\ match fst r with
     | Return metrics =>
         log (snd r)
         = log w ++ [INFO "Evaluating model performance";
                     INFO ("Test accuracy: " ++ str_score (accuracy metrics))]
         /\ clock_reads (snd r) = S (clock_reads w)
         /\ timestamp metrics = isoformat (wall_clock (clock_reads w))
     | Raise e =>
         snd r = snd (logger_info "Evaluating model performance" w)
         /\ match estimators_ model with
            | None => e = NotFittedError "RandomForestClassifier"
            | Some _ => exists msg, e = ValueError msg
            end
     end.
Proof.
  cbv zeta.
  pose proof (fun f e => @evaluate_model_fitted_error model f X_test y_test w e)
    as Hkind.
  split.
  - destruct (estimators_ model) as [f |] eqn:Ef.
    + split; [| discriminate]. intros E.
      destruct (Hkind f _ eq_refl E) as [msg Hmsg]. discriminate Hmsg.
    + split; [reflexivity |]. intros _.
      unfold evaluate_model, bind, lift, logger_info, Sklearn.predict.
      now rewrite Ef.
  - revert Hkind.
    unfold evaluate_model, bind, lift, logger_info, datetime_now, ret.
    cbn [fst snd]. unfold Sklearn.predict.
    destruct (estimators_ model) as [f |];
      [| intros _; cbn [fst snd]; split; reflexivity].
    destruct (Sklearn.check_array X_test) as [[] | e]; cbn [and_then];
      [| intros Hkind; cbn [fst snd]; split; [reflexivity | now apply (Hkind f)]].
    destruct (n_cols X_test =? n_features_in f);
      [| intros Hkind; cbn [fst snd]; split; [reflexivity | now apply (Hkind f)]].
    destruct (Sklearn.accuracy_score y_test (map (forest_vote f) X_test))
      as [a | e];
      [| intros Hkind; cbn [fst snd]; split; [reflexivity | now apply (Hkind f)]].
    intros _. cbn [fst snd log clock_reads accuracy timestamp].
    rewrite <- app_assoc. repeat split.
Qed.

(** X13. The model that the Trainer returns is a fitted forest of 100 trees
    of depth at most 10, seeded with 42; the Evaluator never answers
    [NotFittedError] on it. *)
Theorem train_model_returns_fitted
    (X_train : matrix) (y_train : labels) (w w1 : World) model :
  train_model X_train y_train w = (Return model, w1) ->
  n_estimators model = 100 /\ max_depth model = 10
  /\ random_state model = 42%Z /\ n_jobs model = (-1)%Z
  /\ (exists f, forest_fit 100 10 42 X_train y_train = Return f
                /\ estimators_ model = Some f)
  /\ forall X_test y_test w2 name,
       fst (evaluate_model model X_test y_test w2) <> Raise (NotFittedError name).
Proof.
  unfold train_model, bind, lift, logger_info, ret,
    Sklearn.forest_fit_method, Sklearn.new_RandomForestClassifier, and_then.
  cbn [n_estimators max_depth random_state n_jobs].
  destruct (forest_fit 100 10 42 X_train y_train) as [f | e] eqn:Ef;
    [| discriminate].
  intros [= <- _]. cbn [n_estimators max_depth random_state n_jobs estimators_].
  repeat split; [exists f; split; reflexivity |].
  intros X_test y_test w2 name.
  intros E.
  destruct (@evaluate_model_fitted_error
              {| n_estimators := 100; max_depth := 10; random_state := 42;
                 n_jobs := -1; estimators_ := Some f |} f X_test y_test w2 _
              eq_refl E) as (msg & Hmsg).
  discriminate Hmsg.
Qed.

End TrainerEvaluator.

(** ** Where the models directory lies *)

Section ModelsDirectory.
Local Open Scope string_scope.

Context {R : Runtime}.

(** X14. The models directory is the sibling [models] of the directory
    that holds the script: for a script at [root/dir/file] it is
    [root/models].  When the script is known by a bare file name, it is the
    relative path [models], resolved against the working directory. *)
Theorem models_dir_beside_script_directory :
  (forall root dir file : string,
      script_file = root ++ "/" ++ dir ++ "/" ++ file ->
      root <> "" -> Path.endswith_sep root = false ->
      dir <> "" -> sep_free dir = true -> sep_free file = true ->
      models_dir = root ++ "/models")
  /\ (sep_free script_file = true -> models_dir = "models").
Proof.
  split.
  - intros root dir file Hs Hroot Hend Hdir Hfd Hff. unfold models_dir.
    assert (Ha : script_file = (root ++ "/" ++ dir) ++ "/" ++ file).
    { rewrite Hs, !append_assoc. reflexivity. }
    rewrite Ha, dirname_parent; [| | | exact Hff].
    + rewrite dirname_parent by assumption.
      apply join_relative; [assumption | assumption | reflexivity].
    + destruct root; [contradiction | discriminate].
    + rewrite !endswith_sep_append.
      * now apply sep_free_endswith.
      * exact Hdir.
      * destruct dir; [contradiction | discriminate].
  - intros Hf. unfold models_dir. rewrite (dirname_bare _ Hf).
    reflexivity.
Qed.

End ModelsDirectory.


(** ** The log of a successful run *)

Section SuccessLog.
Context {R : Runtime}.

Lemma create_synthetic_data_log n_samples n_features (w w' : World) Xy :
  create_synthetic_data n_samples n_features w = (Return Xy, w') ->
  log w' = log w ++ [INFO ("Creating synthetic dataset with " ++ str_int n_samples
                           ++ " samples and " ++ str_int n_features
                           ++ " features")].
Proof.
  unfold create_synthetic_data, bind, logger_info, ret,
    Sklearn.make_classification, raise.
  repeat match goal with
         | |- context [if ?b then _ else _] => destruct b
         end; try discriminate.
  now intros [= _ <-].
Qed.

Lemma preprocess_data_log X y (w w' : World) r :
  preprocess_data X y w = (Return r, w') ->
  log w' = log w ++ [INFO "Splitting data into train/test sets";
                     INFO "Scaling features"].
Proof.
  unfold preprocess_data, bind, lift, logger_info, ret. cbn [fst snd].
  destruct (Sklearn.train_test_split X y (Sklearn.SizeFloat 0.2) 42 y)
    as [[[[X_train X_test] y_train] y_test] | e]; [| discriminate].
  destruct (Sklearn.fit_transform Sklearn.new_StandardScaler X_train)
    as [[X_train_scaled scaler] | e]; [| discriminate].
  destruct (Sklearn.transform scaler X_test) as [[X_test_scaled scaler'] | e];
    [| discriminate].
  intros [= _ <-]. cbn [log]. now rewrite <- app_assoc.
Qed.

Lemma train_model_log X y (w w' : World) model :
  train_model X y w = (Return model, w') ->
  log w' = log w ++ [INFO "Training Random Forest model";
                     INFO "Model training completed"].
Proof.
  unfold train_model, bind, lift, logger_info, ret. cbn [fst snd].
  destruct (Sklearn.forest_fit_method _ X y) as [m | e]; [| discriminate].
  intros [= _ <-]. cbn [log]. now rewrite <- app_assoc.
Qed.

Lemma evaluate_model_log model X y (w w' : World) metrics :
  evaluate_model model X y w = (Return metrics, w') ->
  log w' = log w ++ [INFO "Evaluating model performance";
                     INFO ("Test accuracy: " ++ str_score (accuracy metrics))].
Proof.
  unfold evaluate_model, bind, lift, logger_info, datetime_now, ret.
  cbn [fst snd].
  destruct (Sklearn.predict model X) as [y_pred | e]; [| discriminate].
  destruct (Sklearn.accuracy_score y y_pred) as [a | e]; [| discriminate].
  intros [= <- <-]. cbn [log accuracy]. now rewrite <- app_assoc.
Qed.

Lemma save_model_and_artifacts_log model scaler metrics name (w w' : World) path :
  save_model_and_artifacts model scaler metrics name w = (Return path, w') ->
  log w'
  = log w
    ++ map (fun file => INFO file)
         [ "Saving model to " ++ Path.join models_dir (model_file name (run_timestamp w));
           "Saving scaler to " ++ Path.join models_dir (scaler_file name (run_timestamp w));
           "Saving metrics to " ++ Path.join models_dir (metrics_file name (run_timestamp w)) ]%string.
Proof.
  unfold save_model_and_artifacts, bind, os_makedirs, datetime_now, logger_info,
    write_file, ret, run_timestamp, model_file, scaler_file, metrics_file.
  destruct (fs_fault w models_dir); [discriminate |].
  fault_cases w; try discriminate.
  intros [= _ <-]. cbn [log map]. now rewrite <- !app_assoc.
Qed.

(** X15. The log of a successful run.  A run of [main] that exits with
    status 0 appends fourteen [INFO] records, in the order of the stages:
    the banner, the Data Generator with the counts 1000 and 20, the
    Preprocessor (two records), the Trainer (two), the Evaluator (two),
    the Persister (one per file, in the order model, scaler, metrics), and
    three closing records.  The accuracy shown at the end is the one the
    Evaluator logged, and the path shown at the end is that of the model
    file. *)
Theorem main_success_log (w : World) :
  fst (run_script w) = 0%Z ->
  exists (metrics : Metrics) (ts : string),
    let model_path := Path.join models_dir (model_file default_model_name ts) in
    let scaler_path := Path.join models_dir (scaler_file default_model_name ts) in
    let metrics_path := Path.join models_dir (metrics_file default_model_name ts) in
    log (snd (run_script w))
    = log w
      ++ map (fun msg => INFO msg)
           [ "Starting ML training pipeline";
             "Creating synthetic dataset with 1000 samples and 20 features";
             "Splitting data into train/test sets";
             "Scaling features";
             "Training Random Forest model";
             "Model training completed";
             "Evaluating model performance";
             "Test accuracy: " ++ str_score (accuracy metrics);
             "Saving model to " ++ model_path;
             "Saving scaler to " ++ scaler_path;
             "Saving metrics to " ++ metrics_path;
             "Training pipeline completed successfully!";
             "Model saved to: " ++ model_path;
             "Final accuracy: " ++ str_score (accuracy metrics) ]%string.
Proof.
  rewrite exit_status_of_main_try.
  unfold run_script, main. fold (after_banner w).
  change (logger_info "Starting ML training pipeline" w)
    with (Return tt, after_banner w). cbv beta iota.
  assert (Hb : log (after_banner w)
               = log w ++ [INFO "Starting ML training pipeline"]) by reflexivity.
  revert Hb. generalize (after_banner w). intros w0 Hb.
  unfold main_try, bind.
  destruct (create_synthetic_data 1000 20 w0) as [[[X y] | e] w1] eqn:E1;
    [| discriminate].
  destruct (preprocess_data X y w1)
    as [[[[[[X_train X_test] y_train] y_test] scaler] | e] w2] eqn:E2;
    [| discriminate].
  destruct (train_model X_train y_train w2) as [[model | e] w3] eqn:E3;
    [| discriminate].
  destruct (evaluate_model model X_test y_test w3) as [[metrics | e] w4] eqn:E4;
    [| discriminate].
  destruct (save_model_and_artifacts model scaler metrics default_model_name w4)
    as [[path | e] w5] eqn:E5; [| discriminate].
  intros _. exists metrics, (run_timestamp w4). cbv zeta.
  apply create_synthetic_data_log in E1. apply preprocess_data_log in E2.
  apply train_model_log in E3. apply evaluate_model_log in E4.
  pose proof (save_model_and_artifacts_returns _ _ _ _ _ E5) as [Hpath _].
  apply save_model_and_artifacts_log in E5.
  unfold logger_info. cbn [fst snd log exit_status].
  rewrite E5, E4, E3, E2, E1, Hb, Hpath. cbn [map].
  rewrite <- !app_assoc. reflexivity.
Qed.

End SuccessLog.

(** ** Reproducibility of a run *)

Section Reproducible.
Context {R : Runtime}.

Lemma train_model_outcome X_train y_train (w : World) :
  fst (train_model X_train y_train w)
  = Sklearn.forest_fit_method
      (Sklearn.new_RandomForestClassifier 100 10 42 (-1)) X_train y_train.
Proof.
  unfold train_model, bind, lift, logger_info, ret. cbn [fst snd].
  destruct (Sklearn.forest_fit_method _ X_train y_train); reflexivity.
Qed.

Lemma evaluate_model_outcome model X_test y_test (w : World) :
  fst (evaluate_model model X_test y_test w)
  = (y_pred <~ Sklearn.predict model X_test ;;
     a <~ Sklearn.accuracy_score y_test y_pred ;;
     Return {| accuracy := a;
               report := classification_report y_test y_pred;
               timestamp := isoformat (wall_clock (clock_reads w)) |}).
Proof.
  unfold evaluate_model, bind, lift, logger_info, datetime_now, ret.
  cbn [fst snd].
  destruct (Sklearn.predict model X_test) as [y_pred | e]; [| reflexivity].
  cbn [and_then].
  destruct (Sklearn.accuracy_score y_test y_pred) as [a | e]; reflexivity.
Qed.

(** the outcome of the four stages, as a function of the clock reading
    with which the Evaluator is entered *)
Lemma stages_before_persistence_outcome (w : World) :
  fst (stages_before_persistence w)
  = (Xy <~ fst (create_synthetic_data 1000 20 w) ;;
     parts <~ fst (preprocess_data (fst Xy) (snd Xy) w) ;;
     let '(X_train, X_test, y_train, y_test, scaler) := parts in
     model <~ fst (train_model X_train y_train w) ;;
     metrics <~ fst (evaluate_model model X_test y_test w) ;;
     Return (model, scaler, metrics)).
Proof.
  unfold stages_before_persistence, bind.
  pose proof (same_clock_create_synthetic_data 1000 20 w) as H1.
  destruct (create_synthetic_data 1000 20 w) as [[[X y] | e] w1] eqn:E1;
    cbn [fst snd and_then] in *; [| reflexivity].
  pose proof (same_clock_preprocess_data X y w1) as H2.
  rewrite (preprocess_data_outcome X y w), <- (preprocess_data_outcome X y w1).
  destruct (preprocess_data X y w1)
    as [[[[[[X_train X_test] y_train] y_test] scaler] | e] w2];
    cbn [fst snd and_then] in *; [| reflexivity].
  pose proof (same_clock_train_model X_train y_train w2) as H3.
  rewrite (train_model_outcome X_train y_train w),
    <- (train_model_outcome X_train y_train w2).
  destruct (train_model X_train y_train w2) as [[model | e] w3];
    cbn [fst snd and_then] in *; [| reflexivity].
  rewrite (evaluate_model_outcome model X_test y_test w),
    <- H1, <- H2, <- H3, <- (evaluate_model_outcome model X_test y_test w3).
  destruct (evaluate_model model X_test y_test w3) as [[metrics | e] w4];
    reflexivity.
Qed.

(** X19. A run is reproducible.  Two runs of the four stages before the
    Persister, started in any two worlds (whatever the state of NumPy's
    global generator, the log and the disk), end alike: both raise the same
    exception, or both return the same model, the same scaler and metrics
    with the same accuracy and report; the metrics can differ in their
    timestamp only, and agree on it too when the clocks agree. *)
Theorem stages_before_persistence_reproducible (w w' : World) :
  match fst (stages_before_persistence w), fst (stages_before_persistence w') with
  | Return (model, scaler, metrics), Return (model', scaler', metrics') =>
      model = model' /\ scaler = scaler'
      /\ accuracy metrics = accuracy metrics'
      /\ report metrics = report metrics'
      /\ (clock_reads w = clock_reads w' -> metrics = metrics')
  | Raise e, Raise e' => e = e'
  | _, _ => False
  end.
Proof.
  rewrite !stages_before_persistence_outcome.
  rewrite (create_synthetic_data_outcome 1000 20 w),
    (create_synthetic_data_outcome 1000 20 w').
  destruct (if (1000 <? 1)%Z then _ else _) as [[X y] | e];
    cbn [and_then fst snd]; [| reflexivity].
  rewrite (preprocess_data_outcome X y w), (preprocess_data_outcome X y w').
  destruct (_ <~ split_of X y ;; _)
    as [[[[[X_train X_test] y_train] y_test] scaler] | e];
    cbn [and_then]; [| reflexivity].
  rewrite (train_model_outcome X_train y_train w),
    (train_model_outcome X_train y_train w').
  destruct (Sklearn.forest_fit_method _ X_train y_train) as [model | e];
    cbn [and_then]; [| reflexivity].
  rewrite !evaluate_model_outcome.
  destruct (Sklearn.predict model X_test) as [y_pred | e];
    cbn [and_then]; [| reflexivity].
  destruct (Sklearn.accuracy_score y_test y_pred) as [a | e];
    cbn [and_then]; [| reflexivity].
  cbn [accuracy report]. repeat split. now intros ->.
Qed.

End Reproducible.

(** ** What a separable dataset leaves open *)

Section Twins.
Context {R : Runtime}.

Lemma stages_before_persistence_fit_and_score :
  stages_before_persistence
  = (Xy <- create_synthetic_data 1000 20 ;;
     let (X, y) := Xy in fit_and_score X y).
Proof. reflexivity. Qed.





End Twins.

(** ** Concrete runs *)

Import Demo.

Example demo_run_succeeds :
  fst (run_script fresh_world) = 0%Z
  /\ map fst (fs_files (snd (run_script fresh_world)))
     = [ "/repo/models/random_forest_model_20240101_12001.pkl";
         "/repo/models/random_forest_model_scaler_20240101_12001.pkl";
         "/repo/models/random_forest_model_metrics_20240101_12001.json" ]%string.
Proof. vm_compute. split; reflexivity. Qed.

Example demo_run_fails_on_disk :
  fst (run_script read_only_world) = 1%Z
  /\ fs_files (snd (run_script read_only_world)) = [].
Proof. vm_compute. split; reflexivity. Qed.

Example demo_run_fills_the_disk :
  fst (run_script full_disk_world) = 1%Z
  /\ map (fun f => (fst f, complete (snd f)))
         (fs_files (snd (run_script full_disk_world)))
     = [ ("/repo/models/random_forest_model_20240101_12001.pkl"%string, true);
         ("/repo/models/random_forest_model_scaler_20240101_12001.pkl"%string, false) ].
Proof. vm_compute. split; reflexivity. Qed.

Example dirname_examples :
  Path.dirname "/repo/src/train.py" = "/repo/src"%string
  /\ Path.dirname "train.py" = ""%string
  /\ Path.dirname "/train.py" = "/"%string
  /\ Path.dirname "a//b" = "a"%string.
Proof. repeat split. Qed.

Lemma preprocess_data_seven_returns :
  returns (fst (preprocess_data seven_X seven_y fresh_world)) = true.
Proof. vm_compute. reflexivity. Qed.

(** the split on seven samples *)
Lemma train_test_partition_seven :
  exists train test : list nat, Permutation (train ++ test) (seq 0 7).
Proof.
  pose proof preprocess_data_seven_returns as Hr.
  destruct (preprocess_data seven_X seven_y fresh_world) as [[r | e] w'] eqn:E;
    [| discriminate Hr].
  destruct r as [[[[X_train_scaled X_test_scaled] y_train] y_test] scaler].
  destruct (train_test_partition _ _ _ E)
    as (train & test & _ & _ & _ & _ & _ & P & _).
  exists train, test. exact P.
Defined.

Lemma scaler_fit_on_training_rows_seven :
  exists (scaler : StandardScaler) (train test : list nat),
    split_of seven_X seven_y = Return (train, test)
    /\ calls scaler = [Fit (Np.take seven_X train);
                       Transform (Np.take seven_X train);
                       Transform (Np.take seven_X test)].
Proof.
  pose proof preprocess_data_seven_returns as Hr.
  destruct (preprocess_data seven_X seven_y fresh_world) as [[r | e] w'] eqn:E;
    [| discriminate Hr].
  destruct r as [[[[X_train_scaled X_test_scaled] y_train] y_test] scaler].
  destruct (scaler_fit_on_training_rows _ _ _ E)
    as (train & test & Hsplit & Hcalls & _).
  exists scaler, train, test. split; [exact Hsplit | exact Hcalls].
Defined.

(** C4 as stated fails: both counts are positive, yet the generator
    raises. *)
Lemma create_synthetic_data_positive_counts_rejected :
  (0 < 1000)%Z /\ (0 < 10)%Z
  /\ fst (create_synthetic_data 1000 10 fresh_world) = Raise Sklearn.too_many_features.
Proof. repeat split. Qed.

Lemma create_synthetic_data_rejects_zero_samples :
  (exists e, fst (create_synthetic_data 0 20 fresh_world) = Raise e
             /\ is_ValueError e = true)
  /\ same_files fresh_world (snd (create_synthetic_data 0 20 fresh_world))
  /\ fst (create_synthetic_data 1000 10 fresh_world)
       = Raise Sklearn.too_many_features
  /\ same_files fresh_world (snd (create_synthetic_data 1000 10 fresh_world))
  /\ returns (fst (create_synthetic_data 1000 20 fresh_world)) = true.
Proof.
  destruct (@create_synthetic_data_rejects_non_positive demo_runtime 0 20 fresh_world)
    as [Hbad [_ Hgood]].
  destruct (@create_synthetic_data_rejects_non_positive demo_runtime 1000 10 fresh_world)
    as [_ [Hfew _]].
  destruct Hbad as [He Hf]; [left; lia |].
  destruct Hfew as [Hr [_ Hs]]; [lia | lia |].
  split; [exact He |]. split; [exact Hf |]. split; [exact Hr |].
  split; [exact Hs | exact Hgood].
Defined.

Lemma create_synthetic_data_ten_features :
  fst (create_synthetic_data 1000 10 fresh_world) = Raise Sklearn.too_many_features.
Proof.
  apply (proj1 (proj2
    (@create_synthetic_data_needs_20_features demo_runtime 1000 10 fresh_world))); lia.
Defined.

(** C5 as stated fails.  In both datasets below the labels match the rows
    and the smaller class has two members; the Preprocessor rejects the
    first and accepts the second.  Hence no bound on the size of a class
    tells the datasets it rejects from those it accepts. *)
Lemma class_size_does_not_decide_the_split :
  (n_rows five_X = List.length five_y
   /\ (forall c, In c five_y -> 2 <= count_occ Z.eq_dec five_y c)
   /\ raises (fst (preprocess_data five_X five_y fresh_world)) = true)
  /\ (n_rows six_X = List.length six_y
      /\ count_occ Z.eq_dec six_y 1%Z = 2
      /\ returns (fst (preprocess_data six_X six_y fresh_world)) = true)
  /\ ~ (exists required : nat,
          forall (X : matrix) (y : labels),
            raises (fst (preprocess_data X y fresh_world)) = true
            <-> (n_rows X <> List.length y
                 \/ exists c, In c y /\ count_occ Z.eq_dec y c < required)).
Proof.
  assert (Hfive : raises (fst (preprocess_data five_X five_y fresh_world)) = true)
    by (vm_compute; reflexivity).
  assert (Hsix : returns (fst (preprocess_data six_X six_y fresh_world)) = true)
    by (vm_compute; reflexivity).
  assert (Hcount : forall c, In c five_y -> 2 <= count_occ Z.eq_dec five_y c).
  { intros c Hc. cbn in Hc.
    destruct Hc as [<- | [<- | [<- | [<- | [<- | []]]]]]; cbn; lia. }
  split; [repeat split; assumption |].
  split; [repeat split; assumption |].
  intros [required H].
  assert (Hle : required <= 2).
  { destruct (le_lt_dec required 2) as [Hle | Hgt]; [exact Hle |].
    assert (Hr : raises (fst (preprocess_data six_X six_y fresh_world)) = true).
    { apply H. right. exists 1%Z. split; [cbn; tauto | exact Hgt]. }
    unfold raises in Hr. rewrite Hsix in Hr. discriminate. }
  apply H in Hfive as [Hfive | (c & Hc & Hlt)].
  - apply Hfive. reflexivity.
  - specialize (Hcount c Hc). lia.
Qed.

Lemma train_test_split_error_five :
  raises (Sklearn.train_test_split five_X five_y (Sklearn.SizeFloat 0.2) 42 five_y)
  = true.
Proof.
  apply (proj1 (@train_test_split_error_conditions demo_runtime five_X five_y)).
  right. right. right. vm_compute. lia.
Defined.

(** C6 as stated fails: with a model name that starts with the separator
    the call returns, and the files are not in the models directory. *)
Lemma save_model_and_artifacts_outside_models_dir :
  let run := save_model_and_artifacts positive_model Sklearn.new_StandardScaler
               no_metrics "/tmp/m" fresh_world in
  fst run = Return "/tmp/m_20240101_12000.pkl"%string
  /\ models_dir = "/repo/models"%string
  /\ map fst (fs_files (snd run))
     = [ "/tmp/m_20240101_12000.pkl"; "/tmp/m_scaler_20240101_12000.pkl";
         "/tmp/m_metrics_20240101_12000.json" ]%string
  /\ String.prefix (models_dir ++ "/") "/tmp/m_20240101_12000.pkl" = false.
Proof. vm_compute. repeat split. Qed.

Lemma save_model_and_artifacts_default_name :
  exists (path : string) (w' : World),
    save_model_and_artifacts positive_model Sklearn.new_StandardScaler no_metrics
      default_model_name fresh_world = (Return path, w')
    /\ List.length (fs_files w') = 3
    /\ Forall (fun p => entry_of models_dir p /\ Path.dirname p = models_dir)
              (map fst (fs_files w')).
Proof.
  assert (Hr : returns (fst (save_model_and_artifacts positive_model
                  Sklearn.new_StandardScaler no_metrics default_model_name
                  fresh_world)) = true) by (vm_compute; reflexivity).
  destruct (save_model_and_artifacts positive_model Sklearn.new_StandardScaler
              no_metrics default_model_name fresh_world) as [[path | e] w'] eqn:E;
    [| discriminate Hr].
  exists path, w'. split; [reflexivity |].
  destruct (save_model_and_artifacts_three_files _ _ _ _ _ E)
    as (Hfiles & _ & _ & _ & Hentry).
  rewrite Hfiles. split; [reflexivity |].
  exact (Hentry eq_refl eq_refl).
Defined.

(** a model name that climbs out of the models directory: the name is
    relative, the three paths begin with the models directory, and the
    files are entries of another directory *)
Example save_model_and_artifacts_climbs_out :
  let run := save_model_and_artifacts positive_model Sklearn.new_StandardScaler
               no_metrics "../../tmp/m" fresh_world in
  Path.startswith_sep "../../tmp/m" = false
  /\ fst run = Return "/repo/models/../../tmp/m_20240101_12000.pkl"%string
  /\ map (fun f => Path.dirname (fst f)) (fs_files (snd run))
     = [ "/repo/models/../../tmp"; "/repo/models/../../tmp";
         "/repo/models/../../tmp" ]%string.
Proof. vm_compute. repeat split. Qed.


(** the Evaluator measures the model it is given: two test samples told
    apart by a cut of the first feature, and a fitted model that scores one
    half on them *)
Example evaluate_model_measures_the_model :
  map (fun r => if (1 <? hd 0 r)%Z then 1 else 0)%Z separable_X = separable_y
  /\ match fst (evaluate_model positive_model separable_X separable_y fresh_world) with
     | Return metrics => accuracy metrics
     | Raise _ => NaN
     end = Score (1 # 2).
Proof. split; vm_compute; reflexivity. Qed.


(** a run whose trainer raises leaves no file behind *)
Lemma only_the_persister_writes_unfit :
  @same_files unfit_runtime unfit_world (snd (@main unfit_runtime unfit_world)).
Proof.
  apply (proj2 (proj2 (proj2 (proj2 (@only_the_persister_writes unfit_runtime))))).
  vm_compute. reflexivity.
Defined.

(** ** Concrete runs for the further properties *)

(** on an empty disk the second call of the Persister creates nothing *)
Lemma save_model_and_artifacts_makedirs_twice :
  let w1 := snd (save_model_and_artifacts positive_model
                   Sklearn.new_StandardScaler no_metrics default_model_name
                   fresh_world) in
  In models_dir (fs_dirs w1)
  /\ fs_dirs (snd (save_model_and_artifacts positive_model
                     Sklearn.new_StandardScaler no_metrics "other" w1))
     = fs_dirs w1.
Proof.
  destruct (@save_model_and_artifacts_makedirs_idempotent demo_runtime
              positive_model Sklearn.new_StandardScaler no_metrics
              default_model_name
              positive_model Sklearn.new_StandardScaler no_metrics "other"
              fresh_world eq_refl) as (H1 & _ & H2).
  split; [exact H1 | exact H2].
Defined.

Lemma main_success_provenance_demo :
  exists metrics : Metrics,
    timestamp metrics = isoformat (wall_clock 0)
    /\ clock_reads (snd (run_script fresh_world)) = 2.
Proof.
  assert (H0 : fst (run_script fresh_world) = 0%Z) by (vm_compute; reflexivity).
  destruct (main_success_provenance fresh_world H0)
    as (model & scaler & metrics & _ & Ht & _ & Hc).
  exists metrics. split; [exact Ht | exact Hc].
Defined.

Lemma preprocess_data_split_sizes_seven :
  exists y_train y_test : labels,
    List.length y_test = 2 /\ List.length y_train = 5.
Proof.
  pose proof preprocess_data_seven_returns as Hr.
  destruct (preprocess_data seven_X seven_y fresh_world) as [[r | e] w'] eqn:E;
    [| discriminate Hr].
  destruct r as [[[[X_train_scaled X_test_scaled] y_train] y_test] scaler].
  destruct (preprocess_data_split_sizes _ _ _ E) as (_ & _ & H2 & _ & H4 & _).
  exists y_train, y_test. split; [exact H2 | exact H4].
Defined.

Lemma preprocess_data_stratified_seven :
  exists y_train y_test : labels,
    (2 <= count_occ Z.eq_dec y_train 0%Z <= 3)
    /\ count_occ Z.eq_dec y_train 0%Z + count_occ Z.eq_dec y_test 0%Z = 3.
Proof.
  pose proof preprocess_data_seven_returns as Hr.
  destruct (preprocess_data seven_X seven_y fresh_world) as [[r | e] w'] eqn:E;
    [| discriminate Hr].
  destruct r as [[[[X_train_scaled X_test_scaled] y_train] y_test] scaler].
  destruct (preprocess_data_stratified _ _ _ E 0%Z) as (H1 & H2 & _);
    [left; reflexivity |].
  exists y_train, y_test. split; [exact H1 | exact H2].
Defined.

Lemma preprocess_data_accepts_seven :
  returns (fst (preprocess_data seven_X seven_y fresh_world)) = true
  <-> n_rows seven_X = List.length seven_y
      /\ seven_y <> []
      /\ (forall c, In c seven_y -> 2 <= count_occ Z.eq_dec seven_y c)
      /\ List.length (nodup Z.eq_dec seven_y) <= (List.length seven_y + 4) / 5
      /\ existsb (existsb isinf) seven_X = false
      /\ 1 <> 0.
Proof.
  apply (@preprocess_data_accepts demo_runtime seven_X seven_y 1 fresh_world).
  repeat constructor.
Defined.

Lemma preprocess_data_rejects_overflow :
  fst (@preprocess_data inf_runtime overflow_X seven_y inf_world)
  = Raise (ValueError "Input X contains infinity or a value too large for dtype('float64').").
Proof.
  apply (@preprocess_data_rejects_infinity inf_runtime overflow_X seven_y 1 inf_world).
  - repeat constructor.
  - vm_compute. reflexivity.
  - vm_compute. reflexivity.
Defined.

(** what the Evaluator required of the two separable samples *)
Lemma evaluate_model_requires_separable :
  exists f : nat * Z,
    estimators_ positive_model = Some f
    /\ n_cols separable_X = fst f
    /\ List.length separable_y = n_rows separable_X.
Proof.
  destruct (@evaluate_model_requires demo_runtime positive_model separable_X
              separable_y fresh_world) as (f & Hf & _ & _ & _ & Hc & Hl).
  - vm_compute. reflexivity.
  - exists f. split; [exact Hf |]. split; [exact Hc | exact Hl].
Defined.

Lemma train_model_returns_fitted_seven :
  exists model : RandomForestClassifier,
    n_estimators model = 100 /\ max_depth model = 10
    /\ random_state model = 42%Z
    /\ fst (evaluate_model model [] [] fresh_world)
       <> Raise (NotFittedError "RandomForestClassifier").
Proof.
  assert (Hr : returns (fst (train_model seven_X seven_y fresh_world)) = true)
    by (vm_compute; reflexivity).
  destruct (train_model seven_X seven_y fresh_world) as [[model | e] w'] eqn:E;
    [| discriminate Hr].
  destruct (train_model_returns_fitted _ _ _ E) as (H1 & H2 & H3 & _ & _ & H6).
  exists model. repeat split; try assumption. apply H6.
Defined.

Lemma models_dir_of_the_demo_script : models_dir = "/repo/models"%string.
Proof.
  apply (proj1 (@models_dir_beside_script_directory demo_runtime)
           "/repo" "src" "train.py")%string;
    try reflexivity; discriminate.
Defined.

Lemma main_success_log_demo :
  List.length (log (snd (run_script fresh_world))) = 14.
Proof.
  assert (H0 : fst (run_script fresh_world) = 0%Z) by (vm_compute; reflexivity).
  destruct (main_success_log fresh_world H0) as (metrics & ts & Hlog).
  cbv zeta in Hlog. rewrite Hlog, length_app, length_map. reflexivity.
Defined.

(** * Properties of the integration check *)

Import Validate.
Local Open Scope validate_scope.

Section TextFacts.

Lemma text_eqb_eq (a b : text) : text_eqb a b = true <-> a = b.
Proof.
  revert b. induction a as [| c a IH]; intros [| d b]; cbn;
    try (split; [discriminate | discriminate]); [tauto |].
  rewrite andb_true_iff, N.eqb_eq, IH. split.
  - now intros [-> ->].
  - now intros [= -> ->].
Qed.

Lemma eq_key_str (s : string) (v : value) :
  eq_key (KStr s) v = true <-> v = VStr (str s).
Proof.
  destruct v; cbn [eq_key]; try (split; discriminate).
  rewrite text_eqb_eq. split; [now intros <- | now intros [= ->]].
Qed.

Lemma existsb_lookup (k : key) (items : list (value * value)) :
  existsb (fun kv => eq_key k (fst kv)) items
  = match lookup k items with Some _ => true | None => false end.
Proof.
  induction items as [| [k' v] items IH]; [reflexivity |].
  cbn [existsb lookup fst]. destruct (eq_key k k'); [reflexivity | exact IH].
Qed.

End TextFacts.

Section Workflow.
Context {H : Host}.

Lemma missing_trigger_none (triggers : value) (expected : list string) :
  missing_trigger triggers expected = Ok None
  <-> Forall (fun t => contains (KStr t) triggers = Ok true) expected.
Proof.
  induction expected as [| t expected IH]; cbn [missing_trigger].
  - split; [constructor | reflexivity].
  - destruct (contains (KStr t) triggers) as [[|] | e] eqn:E;
      cbn [try_bind negb].
    + rewrite IH. split.
      * intros HF. constructor; [exact E | exact HF].
      * inversion 1; assumption.
    + split; [discriminate | inversion 1; congruence].
    + split; [discriminate | inversion 1; congruence].
Qed.

Lemma bad_permission_none (permissions : list (value * value))
    (required : list string) :
  bad_permission (VDict permissions) required = Ok None
  <-> Forall (fun p => lookup (KStr p) permissions = Some (VStr (str "write")))
        required.
Proof.
  induction required as [| p required IH]; cbn [bad_permission].
  - split; [constructor | reflexivity].
  - cbn [contains getitem try_bind]. rewrite existsb_lookup.
    destruct (lookup (KStr p) permissions) as [v |] eqn:El; cbn [negb try_bind].
    + destruct (eq_key (KStr "write") v) eqn:E; cbn [negb].
      * apply eq_key_str in E. subst v. rewrite IH. split.
        -- intros HF. constructor; [exact El | exact HF].
        -- inversion 1; assumption.
      * split; [discriminate |]. inversion 1 as [| ? ? Hp _]; subst.
        rewrite El in Hp. injection Hp as ->.
        assert (E' : eq_key (KStr "write") (VStr (str "write")) = true)
          by now apply eq_key_str.
        rewrite E' in E. discriminate E.
    + split; [discriminate | inversion 1; congruence].
Qed.

(** only a [dict] has the three permissions *)
Lemma bad_permission_dict (permissions : value) (p : string) (required : list string) :
  bad_permission permissions (p :: required) = Ok None ->
  exists fields, permissions = VDict fields.
Proof.
  cbn [bad_permission]. unfold getitem.
  destruct permissions; cbn [contains try_bind]; try discriminate;
    try (eexists; reflexivity);
    repeat match goal with
           | |- context [if ?b then _ else _] => destruct b; cbn [negb try_bind]
           end; try discriminate.
  all: destruct (existsb _ _); cbn [negb try_bind]; discriminate.
Qed.

Lemma names_of_dicts (elements names : list value) :
  names_of elements = Ok names ->
  Forall (fun e => exists fields, e = VDict fields) elements.
Proof.
  revert names. induction elements as [| e elements IH]; intros names;
    [constructor |].
  cbn [names_of]. destruct e; cbn [get try_bind]; try discriminate.
  destruct (names_of elements) as [ns | err]; cbn [try_bind];
    [| destruct (lookup _ _); discriminate].
  intros _. constructor; [eexists; reflexivity | now apply (IH ns)].
Qed.

Lemma names_of_found (elements names : list value) (name : string) :
  name <> ""%string ->
  names_of elements = Ok names ->
  (existsb (eq_key (KStr name)) names = true
   <-> exists fields,
         In (VDict fields) elements
         /\ lookup (KStr "name") fields = Some (VStr (str name))).
Proof.
  intros Hname. revert names.
  induction elements as [| e elements IH]; intros names.
  - intros [= <-]. cbn. split; [discriminate | intros (f & [] & _)].
  - cbn [names_of]. destruct e; cbn [get try_bind]; try discriminate.
    destruct (names_of elements) as [ns | err] eqn:En; cbn [try_bind];
      [| destruct (lookup _ _); discriminate].
    specialize (IH ns eq_refl).
    assert (Hd : eq_key (KStr name) (VStr []) = false).
    { destruct name; [contradiction | reflexivity]. }
    destruct (lookup (KStr "name") items) as [v |] eqn:El;
      intros [= <-]; cbn [existsb]; rewrite orb_true_iff, IH; split.
    + intros [E | (f & Hin & Hf)].
      * apply eq_key_str in E. subst v. exists items. split; [now left | exact El].
      * exists f. split; [now right | exact Hf].
    + intros (f & [E | Hin] & Hf).
      * injection E as <-. left. rewrite El in Hf. injection Hf as ->.
        now apply eq_key_str.
      * right. exists f. split; assumption.
    + intros [E | (f & Hin & Hf)]; [rewrite Hd in E; discriminate E |].
      exists f. split; [now right | exact Hf].
    + intros (f & [E | Hin] & Hf).
      * injection E as <-. rewrite El in Hf. discriminate Hf.
      * right. exists f. split; assumption.
Qed.

Lemma names_of_total (elements : list value) :
  Forall (fun e => exists fields, e = VDict fields) elements ->
  exists names, names_of elements = Ok names.
Proof.
  induction 1 as [| e elements (f & ->) _ (ns & IH)]; [now exists [] |].
  cbn [names_of get]. rewrite IH.
  destruct (lookup _ f); cbn [try_bind]; eexists; reflexivity.
Qed.

(** only a [dict] gets past the look-up of the triggers *)
Lemma check_workflow_dict (workflow : value) (line : string) :
  check_workflow workflow = Ok (true, line) ->
  exists items, workflow = VDict items.
Proof.
  unfold check_workflow.
  destruct workflow; try (eexists; reflexivity); cbn [contains get try_bind];
    try discriminate;
    repeat match goal with
           | |- context [if ?b then _ else _] =>
               destruct b; cbn [negb try_bind]
           | |- context [try_bind (if ?b then _ else _) _] =>
               destruct b; cbn [negb try_bind]
           end; try discriminate.
Qed.

End Workflow.

Ltac workflow_tail T :=
  let Em := fresh "Em" in
  destruct (missing_trigger T expected_triggers) as [[? |] | ?] eqn:Em;
    cbn [try_bind]; try discriminate;
  apply missing_trigger_none in Em;
  lazymatch goal with
  | Ej : lookup (KStr "jobs") ?items = Some ?vjobs |- _ =>
      let Ec := fresh "Ec" in
      destruct (contains (KStr "claude-response") vjobs) as [[|] | ?] eqn:Ec;
        cbn [negb try_bind]; try discriminate;
      destruct vjobs as [| | | | | | | jobs | | |]; cbn [getitem try_bind];
        try discriminate;
      cbn [contains] in Ec; rewrite existsb_lookup in Ec;
      let Ejob := fresh "Ejob" in
      destruct (lookup (KStr "claude-response") jobs) as [vjob |] eqn:Ejob;
        [| discriminate Ec];
      cbn [try_bind];
      let Ep := fresh "Ep" in
      destruct (contains (KStr "permissions") vjob) as [[|] | ?] eqn:Ep;
        cbn [negb try_bind]; try discriminate;
      destruct vjob as [| | | | | | | job | | |]; cbn [getitem try_bind];
        try discriminate;
      cbn [contains] in Ep; rewrite existsb_lookup in Ep;
      let Eperm := fresh "Eperm" in
      destruct (lookup (KStr "permissions") job) as [vperm |] eqn:Eperm;
        [| discriminate Ep];
      cbn [try_bind];
      let Eb := fresh "Eb" in
      destruct (bad_permission vperm required_permissions) as [[? |] | ?] eqn:Eb;
        cbn [try_bind]; try discriminate;
      let permissions := fresh "permissions" in
      destruct (bad_permission_dict _ _ _ Eb) as [permissions ->];
      apply bad_permission_none in Eb;
      cbn [contains]; rewrite existsb_lookup;
      let Es := fresh "Es" in
      destruct (lookup (KStr "steps") job) as [steps |] eqn:Es;
        cbn [negb try_bind]; [| discriminate];
      let Ei := fresh "Ei" in
      destruct (iterate steps) as [elements | ?] eqn:Ei;
        cbn [try_bind]; [| discriminate];
      let En := fresh "En" in
      destruct (names_of elements) as [names | ?] eqn:En;
        cbn [try_bind]; [| discriminate];
      let E1 := fresh "E1" in
      destruct (existsb (eq_key (KStr "Checkout repository")) names) eqn:E1;
        cbn [negb]; [| discriminate];
      let E2 := fresh "E2" in
      destruct (existsb (eq_key (KStr "Run Claude Code")) names) eqn:E2;
        cbn [negb]; [| discriminate];
      intros _;
      eapply names_of_found in E1; [| discriminate | exact En];
      eapply names_of_found in E2; [| discriminate | exact En];
      apply names_of_dicts in En;
      exists items, jobs, job, permissions, steps, elements, T
  end.

Section WorkflowTheorems.
Context {H : Host}.

Lemma check_workflow_sound (items : list (value * value)) (line : string) :
  check_workflow (VDict items) = Ok (true, line) ->
  accepted_workflow (VDict items).
Proof.
  unfold check_workflow, accepted_workflow.
  cbn [contains get getitem try_bind]. rewrite !existsb_lookup.
  destruct (lookup (KStr "name") items) as [vname |] eqn:Ename;
    cbn [negb try_bind]; [| discriminate].
  destruct (lookup (KStr "on") items) as [von |] eqn:Eon; cbn [negb try_bind].
  - destruct (lookup (KStr "jobs") items) as [vjobs |] eqn:Ej;
      cbn [negb try_bind]; [| discriminate].
    destruct (truthy von) eqn:Et; cbn [negb try_bind].
    + rewrite Et. cbn [negb]. workflow_tail von.
      repeat split; try assumption; try (rewrite Ename; discriminate);
        try (repeat constructor; assumption).
    + destruct (lookup KTrue items) as [vtrue |] eqn:Etrue; cbn [try_bind];
        [| discriminate].
      destruct (truthy vtrue) eqn:Et2; cbn [negb]; [| discriminate].
      workflow_tail vtrue.
      repeat split; try assumption; try (rewrite Ename; discriminate);
        try (repeat constructor; assumption).
      right. split; [exact Etrue |].
      intros v Hv. rewrite Eon in Hv. injection Hv as <-. exact Et.
  - destruct (lookup KTrue items) as [vtrue |] eqn:Etrue; cbn [negb try_bind];
      [| discriminate].
    destruct (lookup (KStr "jobs") items) as [vjobs |] eqn:Ej;
      cbn [negb try_bind truthy]; [| discriminate].
    destruct (truthy vtrue) eqn:Et2; cbn [negb]; [| discriminate].
    workflow_tail vtrue.
    repeat split; try assumption; try (rewrite Ename; discriminate);
      try (repeat constructor; assumption).
    right. split; [exact Etrue |].
    intros v Hv. rewrite Eon in Hv. discriminate Hv.
Qed.

Lemma check_workflow_complete (workflow : value) :
  accepted_workflow workflow ->
  check_workflow workflow = Ok (true, "✅ Claude workflow configuration is valid").
Proof.
  intros (items & jobs & job & permissions & steps & elements & triggers
          & -> & Hname & Ht & Hon & Htr & Hj & Hc & Hp & Hperm & Hs & Hi & Hd
          & Hnames).
  destruct (names_of_total Hd) as [names En].
  inversion Hnames as [| ? ? H1 Hrest]; subst.
  inversion Hrest as [| ? ? H2 _]; subst.
  apply (@names_of_found elements names "Checkout repository"
           ltac:(discriminate) En) in H1.
  apply (@names_of_found elements names "Run Claude Code"
           ltac:(discriminate) En) in H2.
  apply missing_trigger_none in Htr. apply bad_permission_none in Hperm.
  unfold check_workflow. cbn [contains get getitem try_bind].
  rewrite !existsb_lookup, Hj.
  destruct (lookup (KStr "name") items) as [vname |]; [| contradiction].
  cbn [negb try_bind].
  destruct Hon as [Hon | [Htrue Hoff]].
  - rewrite Hon. cbn [negb try_bind]. rewrite Ht. cbn [negb try_bind].
    rewrite Htr. cbn [try_bind contains getitem].
    rewrite existsb_lookup, Hc. cbn [negb try_bind contains getitem].
    rewrite existsb_lookup, Hp. cbn [negb try_bind].
    rewrite Hperm. cbn [try_bind contains getitem].
    rewrite existsb_lookup, Hs. cbn [negb try_bind].
    rewrite Hi. cbn [try_bind]. rewrite En. cbn [try_bind].
    rewrite H1, H2, ?Ht. reflexivity.
  - rewrite Htrue.
    destruct (lookup (KStr "on") items) as [von |]; cbn [negb try_bind truthy];
      rewrite ?(Hoff von eq_refl); cbn [negb try_bind]; rewrite Ht;
      cbn [negb try_bind];
      rewrite Htr; cbn [try_bind contains getitem];
      rewrite existsb_lookup, Hc; cbn [negb try_bind contains getitem];
      rewrite existsb_lookup, Hp; cbn [negb try_bind];
      rewrite Hperm; cbn [try_bind contains getitem];
      rewrite existsb_lookup, Hs; cbn [negb try_bind];
      rewrite Hi; cbn [try_bind]; rewrite En; cbn [try_bind];
      rewrite H1, H2, ?Ht; reflexivity.
Qed.

(** X16. What the workflow check accepts.  [validate_workflow] returns
    [True] exactly when the workflow file exists, can be read and parsed,
    and the document is a mapping with a [name]; with a non-empty [on]
    entry (under the key ["on"], or under [True], which is what YAML 1.1
    makes of a bare [on]) that mentions the three triggers; and with a
    mapping [jobs] whose [claude-response] job is a mapping that grants
    [write] on [contents], [pull-requests] and [issues] and whose [steps]
    are mappings among which one is named [Checkout repository] and one
    [Run Claude Code]. *)
Theorem validate_workflow_accepts (fs : Files) :
  fst (validate_workflow fs) = true
  <-> path_exists fs workflow_path = true
      /\ exists content workflow,
           read_text fs workflow_path = Ok content
           /\ safe_load content = Ok workflow
           /\ accepted_workflow workflow.
Proof.
  unfold validate_workflow.
  destruct (path_exists fs workflow_path); cbn [negb];
    [| split; [discriminate | intros [Hf _]; discriminate Hf]].
  destruct (read_text fs workflow_path) as [content | e]; cbn [try_bind].
  2:{ split; [destruct (is_YAMLError e); discriminate |].
      intros (_ & c & w & Hc & _). discriminate Hc. }
  destruct (safe_load content) as [workflow | e] eqn:El; cbn [try_bind].
  2:{ split; [destruct (is_YAMLError e); discriminate |].
      intros (_ & c & w & [= <-] & Hw & _). rewrite El in Hw. discriminate Hw. }
  destruct (check_workflow workflow) as [[valid line] | e] eqn:Ec.
  - cbn [fst]. split.
    + intros ->. split; [reflexivity |]. exists content, workflow.
      split; [reflexivity |]. split; [exact El |].
      destruct (check_workflow_dict _ Ec) as [items ->].
      exact (check_workflow_sound _ Ec).
    + intros (_ & c & w & [= <-] & Hw & Ha). rewrite El in Hw.
      injection Hw as <-. apply check_workflow_complete in Ha.
      rewrite Ha in Ec. now injection Ec as <- _.
  - split; [destruct (is_YAMLError e); discriminate |].
    intros (_ & c & w & [= <-] & Hw & Ha). rewrite El in Hw.
    injection Hw as <-. apply check_workflow_complete in Ha.
    rewrite Ha in Ec. discriminate Ec.
Qed.

Lemma lstrip_blank (t : text) :
  lstrip t = [] <-> forallb isspace t = true.
Proof.
  induction t as [| c t IH]; cbn [lstrip forallb]; [tauto |].
  destruct (isspace c); cbn [andb]; [exact IH |].
  split; discriminate.
Qed.

Lemma strip_blank (t : text) :
  List.length (strip t) = 0 <-> forallb isspace t = true.
Proof.
  unfold strip. rewrite length_rev, length_zero_iff_nil, lstrip_blank.
  rewrite <- (lstrip_blank t). split.
  - intros Hall. destruct (lstrip t) as [| c rest] eqn:E; [reflexivity |].
    exfalso.
    assert (Hc : isspace c = false).
    { clear Hall. induction t as [| d t IH]; cbn [lstrip] in E; [discriminate |].
      destruct (isspace d) eqn:Ed; [now apply IH |]. now injection E as <- _. }
    rewrite forallb_forall in Hall. specialize (Hall c).
    rewrite Hall in Hc; [discriminate |]. apply -> in_rev. now left.
  - intros ->. reflexivity.
Qed.

Lemma not_blank (t : text) :
  forallb isspace t = false <-> exists c, In c t /\ isspace c = false.
Proof.
  rewrite <- not_true_iff_false, forallb_forall. split.
  - intros Hn. induction t as [| c t IH].
    + exfalso. apply Hn. intros x [].
    + destruct (isspace c) eqn:E.
      * destruct IH as (x & Hx & Hs).
        { intros Hall. apply Hn. intros x [<- | Hx]; [exact E | now apply Hall]. }
        exists x. split; [now right | exact Hs].
      * exists c. split; [now left | exact E].
  - intros (c & Hc & Hs) Hall. rewrite (Hall c Hc) in Hs. discriminate Hs.
Qed.

Lemma check_document_passes (fs : Files) (filename description : string) :
  fst (check_document fs filename description) = true
  <-> exists content,
        readable_and_not_blank fs filename content
        /\ (filename = "README.md"%string ->
            occurs_in (str "@claude") content = true
            /\ occurs_in (str "Claude AI Integration") content = true).
Proof.
  unfold check_document, readable_and_not_blank.
  destruct (path_exists fs filename); cbn [negb fst].
  2:{ split; [discriminate | intros (c & (Hf & _) & _); discriminate Hf]. }
  destruct (read_text fs filename) as [content | e]; cbn [fst].
  2:{ split; [discriminate | intros (c & (_ & Hr & _) & _); discriminate Hr]. }
  destruct (Nat.eqb_spec (List.length (strip content)) 0) as [Eb | Eb];
    rewrite strip_blank in Eb.
  { cbn [fst]. split; [discriminate |].
    intros (c & (_ & [= <-] & Hn) & _). apply not_blank in Hn. congruence. }
  apply not_true_iff_false, not_blank in Eb.
  destruct (String.eqb_spec filename "README.md") as [-> | Hne]; cbn [andb].
  - destruct (occurs_in (str "@claude") content) eqn:E1; cbn [negb fst].
    2:{ split; [discriminate |].
        intros (c & (_ & [= <-] & _) & Hc). destruct (Hc eq_refl). congruence. }
    destruct (occurs_in (str "Claude AI Integration") content) eqn:E2;
      cbn [negb fst].
    2:{ split; [discriminate |].
        intros (c & (_ & [= <-] & _) & Hc). destruct (Hc eq_refl). congruence. }
    split; [intros _ | reflexivity].
    exists content. repeat split; assumption.
  - cbn [fst]. split; [intros _ | reflexivity].
    exists content. repeat split; try assumption; contradiction.
Qed.

Lemma validate_documentation_lines (fs : Files) :
  snd (validate_documentation fs)
  = [ snd (check_document fs "README.md" "README documentation");
      snd (check_document fs ".claude-config.md"
             "Claude configuration documentation") ].
Proof.
  unfold validate_documentation, files_to_check. cbn [check_documents].
  destruct (check_document fs "README.md" "README documentation") as [p1 l1].
  destruct (check_document fs ".claude-config.md"
              "Claude configuration documentation") as [p2 l2].
  reflexivity.
Qed.

(** X17. What the documentation check accepts, and that it never stops
    early.  [validate_documentation] returns [True] exactly when
    [README.md] and [.claude-config.md] both exist, can be read and hold a
    character that is not white space, and the README holds both
    ["@claude"] and ["Claude AI Integration"]; whatever it finds in the
    first file, it examines the second, and it prints one line for each. *)
Theorem validate_documentation_accepts (fs : Files) :
  (fst (validate_documentation fs) = true
   <-> (exists readme,
          readable_and_not_blank fs "README.md" readme
          /\ occurs_in (str "@claude") readme = true
          /\ occurs_in (str "Claude AI Integration") readme = true)
       /\ (exists config, readable_and_not_blank fs ".claude-config.md" config))
  /\ snd (validate_documentation fs)
     = [ snd (check_document fs "README.md" "README documentation");
         snd (check_document fs ".claude-config.md"
                "Claude configuration documentation") ].
Proof.
  pose proof (check_document_passes fs "README.md" "README documentation") as H1.
  pose proof (check_document_passes fs ".claude-config.md"
                "Claude configuration documentation") as H2.
  unfold validate_documentation, files_to_check. cbn [check_documents].
  destruct (check_document fs "README.md" "README documentation") as [p1 l1].
  destruct (check_document fs ".claude-config.md"
              "Claude configuration documentation") as [p2 l2].
  cbn [fst snd] in *. split; [| reflexivity].
  split.
  - intros E. destruct p1, p2; try discriminate E.
    destruct (proj1 H1 eq_refl) as (readme & Hr & Hc).
    destruct (proj1 H2 eq_refl) as (config & Hcfg & _).
    destruct (Hc eq_refl) as [Ha Hb].
    split; [exists readme; split; [exact Hr | split; assumption]
           | exists config; exact Hcfg].
  - intros [(readme & Hr & Ha & Hb) (config & Hcfg)].
    assert (E1 : p1 = true).
    { apply H1. exists readme. split; [exact Hr | intros _; split; assumption]. }
    assert (E2 : p2 = true).
    { apply H2. exists config. split; [exact Hcfg | discriminate]. }
    subst. reflexivity.
Qed.

(** X18. The status of the check.  [main] returns 0, which [sys.exit]
    makes the status of the process, exactly when both checks pass, and 1
    otherwise; both checks run in either case.  It prints eight times: the
    banner, an empty line, the verdict on the workflow, an empty line, the
    two verdicts on the documents, an empty line, and a summary that agrees
    with the status. *)
Theorem validate_main_status (fs : Files) :
  let status := fst (main fs) in
  let passed := fst (validate_workflow fs) && fst (validate_documentation fs) in
  status = (if passed then 0%Z else 1%Z)
  /\ exists workflow_line readme_line config_line,
       snd (validate_workflow fs) = [workflow_line]
       /\ snd (validate_documentation fs) = [readme_line; config_line]
       /\ snd (main fs)
          = [ "🔍 Validating Claude-GitHub Integration..."; "";
              workflow_line; ""; readme_line; config_line; "";
              if passed
              then "🎉 All validations passed! Claude-GitHub integration is ready."
              else "❌ Some validations failed. Please check the issues above." ]%string.
Proof.
  cbv zeta. unfold main.
  assert (Hw : exists line, snd (validate_workflow fs) = [line]).
  { unfold validate_workflow.
    destruct (negb _); [eexists; reflexivity |].
    destruct (_ <~ _ ;; _) as [[valid line] | e];
      [| destruct (is_YAMLError e)]; eexists; reflexivity. }
  destruct Hw as [workflow_line Hw].
  pose proof (validate_documentation_lines fs) as Hd.
  destruct (validate_workflow fs) as [workflow_valid workflow_lines].
  destruct (validate_documentation fs) as [docs_valid docs_lines].
  cbn [fst snd] in *. subst.
  destruct (workflow_valid && docs_valid); cbn [fst snd];
    (split; [reflexivity |]); do 3 eexists; repeat split.
Qed.

End WorkflowTheorems.

(** ** Concrete runs of the integration check *)

Import ValidateDemo.

Example validate_complete_repository :
  main (complete_repository "workflow" "# Claude AI Integration: mention @claude")
  = (0%Z,
     [ "🔍 Validating Claude-GitHub Integration..."; "";
       "✅ Claude workflow configuration is valid"; "";
       "✅ README documentation is valid";
       "✅ Claude configuration documentation is valid"; "";
       "🎉 All validations passed! Claude-GitHub integration is ready." ]%string).
Proof. vm_compute. reflexivity. Qed.

(** triggers written as one string pass: [in] on a string looks for a
    substring *)
Example validate_string_triggers :
  validate_workflow (complete_repository "string triggers" "")
  = (true, ["✅ Claude workflow configuration is valid"]%string).
Proof. vm_compute. reflexivity. Qed.

(** a file that does not parse and a README without the mention: both
    checks report, and the status is 1 *)
Example validate_broken_repository :
  main (complete_repository "on: [" "# Claude AI Integration")
  = (1%Z,
     [ "🔍 Validating Claude-GitHub Integration..."; "";
       "❌ YAML syntax error: mapping values are not allowed here"; "";
       "❌ README missing @claude usage information";
       "✅ Claude configuration documentation is valid"; "";
       "❌ Some validations failed. Please check the issues above." ]%string).
Proof. vm_compute. reflexivity. Qed.
